(** * generate_task_plan: the interview-attempt slice and the indexing /
      task-planning scripts, embedded and verified.

    The development follows the layout of the repository:

    - [Py]: the fragments of Python the sources rely on (text, exceptions,
      a state-and-exception monad, [datetime], JSON values);
    - [interview]: [interview/interactors], [interview/storages] and
      [interview/models];
    - [scripts]: [pathlib] paths, the world the scripts act on, and
      [scripts/index_code_base.py], [scripts/search_code_base.py],
      [scripts/generate_task_plan.py];
    - [examples]: concrete databases, environments and worlds;
    - [interview_theory] and [scripts_theory]: the theorems. *)

From Stdlib Require Import ZArith NArith QArith List Ascii String Lia.
From stdpp Require Import base option list gmap.
Import ListNotations.

Set Warnings "-register-all".

Local Open Scope nat_scope.

(* ===================================================================== *)
(** * Python fragments *)
(* ===================================================================== *)

Module Py.

(** A Python [str] is a sequence of Unicode code points. *)
Definition str := list N.

(** An ASCII literal of the source, as a [str]. *)
Definition lit (s : string) : str :=
  map N_of_ascii (list_ascii_of_string s).

(** ["\n"], which has no spelling inside a Rocq string. *)
Definition nl : str := [10%N].

(** ["```"] *)
Definition fence : str := [96%N; 96%N; 96%N].

(** [sep.join(xs)] *)
Fixpoint join (sep : str) (xs : list str) : str :=
  match xs with
  | [] => []
  | [x] => x
  | x :: rest => x ++ sep ++ join sep rest
  end.

(** [s.startswith(p)] *)
Fixpoint startswith (p s : str) : bool :=
  match p, s with
  | [], _ => true
  | _ :: _, [] => false
  | a :: p', b :: s' => N.eqb a b && startswith p' s'
  end.

(** [sub in s] on strings: some position of [s] starts with [sub]. *)
Fixpoint str_in (sub s : str) : bool :=
  startswith sub s ||
  match s with
  | [] => false
  | _ :: s' => str_in sub s'
  end.

(** The mathematical reading of "occurs verbatim in". *)
Definition substring (sub s : str) : Prop :=
  exists pre post, s = pre ++ sub ++ post.

(** [str.isspace] on one code point (the table of [Py_UNICODE_ISSPACE]). *)
Definition isspace (c : N) : bool :=
  ((9 <=? c) && (c <=? 13) || (28 <=? c) && (c <=? 32) ||
   (c =? 133) || (c =? 160) || (c =? 5760) ||
   (8192 <=? c) && (c <=? 8202) ||
   (c =? 8232) || (c =? 8233) || (c =? 8239) || (c =? 8287) ||
   (c =? 12288))%N.

(** [s.lstrip()], [s.rstrip()], [s.strip()] without arguments. *)
Fixpoint lstrip (s : str) : str :=
  match s with
  | c :: s' => if isspace c then lstrip s' else s
  | [] => []
  end.

Definition rstrip (s : str) : str := rev (lstrip (rev s)).

Definition strip (s : str) : str := rstrip (lstrip s).

(** ** Exceptions

    Every exception the sources meet derives from [Exception]:
    the interview app's own [InvalidInterviewIdException], the plain
    [Exception(msg)] raised by the indexing loop, and whatever a library
    call raises ([requests], [weaviate], [open], a failed subscript, the
    database), kept with its class name and message. *)
Inductive exn :=
| InvalidInterviewIdException
| Exception (msg : str)
| LibraryError (cls : string) (msg : str).

(** [str(e)] *)
Definition str_of_exn (e : exn) : str :=
  match e with
  | InvalidInterviewIdException => []
  | Exception msg => msg
  | LibraryError _ msg => msg
  end.

(** ** Computations that read and change a world [W] and may raise *)
Inductive result (A : Type) :=
| Ok (a : A)
| Raise (e : exn).
Arguments Ok {A} a.
Arguments Raise {A} e.

Definition M (W A : Type) : Type := W -> result A * W.

Definition ret {W A} (a : A) : M W A := fun w => (Ok a, w).

Definition raise {W A} (e : exn) : M W A := fun w => (Raise e, w).

Definition bind {W A B} (m : M W A) (k : A -> M W B) : M W B :=
  fun w =>
    match m w with
    | (Ok a, w') => k a w'
    | (Raise e, w') => (Raise e, w')
    end.

(** [try: body  except Exception as e: handler(e)] *)
Definition try_except {W A} (body : M W A) (handler : exn -> M W A) : M W A :=
  fun w =>
    match body w with
    | (Ok a, w') => (Ok a, w')
    | (Raise e, w') => handler e w'
    end.

(** [try: body  finally: cleanup] *)
Definition try_finally {W A} (body : M W A) (cleanup : M W unit) : M W A :=
  fun w =>
    match body w with
    | (r, w') =>
        match cleanup w' with
        | (Ok _, w'') => (r, w'')
        | (Raise e, w'') => (Raise e, w'')
        end
    end.

(** Lift a pure update of the world. *)
Definition modify {W} (f : W -> W) : M W unit := fun w => (Ok tt, f w).

(** Read the world. *)
Definition gets {W A} (f : W -> A) : M W A := fun w => (Ok (f w), w).

#[global] Instance M_ret {W} : MRet (M W) := fun A => @ret W A.
#[global] Instance M_bind {W} : MBind (M W) := fun A B k m => @bind W A B m k.

(** ** [datetime.datetime] (naive), and [strftime] *)
Record datetime := {
  year : N; month : N; day : N;
  hour : N; minute : N; second : N; microsecond : N
}.

Definition digit (n : N) : N := (48 + n mod 10)%N.

(** Two-digit and four-digit zero-padded decimal fields. [datetime] keeps
    [1 <= year <= 9999] and the other fields below 100. *)
Definition pad2 (n : N) : str := [digit (n / 10); digit n].
Definition pad4 (n : N) : str :=
  [digit (n / 1000); digit (n / 100); digit (n / 10); digit n].

(** [d.strftime(fmt)] for the directives the sources use
    ([%Y %m %d %H %M %S]); any other character is copied. *)
Fixpoint strftime (d : datetime) (fmt : str) : str :=
  match fmt with
  | 37%N :: c :: rest =>
      (if (c =? 89)%N then pad4 (year d)
       else if (c =? 109)%N then pad2 (month d)
       else if (c =? 100)%N then pad2 (day d)
       else if (c =? 72)%N then pad2 (hour d)
       else if (c =? 77)%N then pad2 (minute d)
       else if (c =? 83)%N then pad2 (second d)
       else [37%N; c]) ++ strftime d rest
  | c :: rest => c :: strftime d rest
  | [] => []
  end.

(** ** JSON values, as [requests] sends and [response.json()] returns them

    [json] decodes a number without fraction or exponent as [int] and any
    other as [float]. *)
Inductive JSON :=
| JNull
| JBool (b : bool)
| JInt (z : Z)
| JFloat (q : Q)
| JStr (s : str)
| JArr (items : list JSON)
| JObj (fields : list (string * JSON)).

Definition nonempty {A} (l : list A) : bool :=
  match l with
  | [] => false
  | _ :: _ => true
  end.

(** Python truthiness of a decoded value ([not v] is its negation). *)
Definition truthy (v : JSON) : bool :=
  match v with
  | JNull => false
  | JBool b => b
  | JInt z => negb (Z.eqb z 0)
  | JFloat q => negb (Qeq_bool q 0)
  | JStr s => nonempty s
  | JArr items => nonempty items
  | JObj fields => nonempty fields
  end.

Fixpoint assoc {A} (k : string) (l : list (string * A)) : option A :=
  match l with
  | [] => None
  | (k', v) :: l' => if String.eqb k k' then Some v else assoc k l'
  end.

Definition quote : str := [39%N].

Definition not_subscriptable (ty : string) : exn :=
  LibraryError "TypeError"
    (quote ++ lit ty ++ quote ++ lit " object is not subscriptable").

(** [v[key]] with a string key. *)
Definition getitem_key (v : JSON) (key : string) : result JSON :=
  match v with
  | JObj fields =>
      match assoc key fields with
      | Some x => Ok x
      | None => Raise (LibraryError "KeyError" (quote ++ lit key ++ quote))
      end
  | JArr _ =>
      Raise (LibraryError "TypeError"
               (lit "list indices must be integers or slices, not str"))
  | JStr _ =>
      Raise (LibraryError "TypeError"
               (lit "string indices must be integers, not " ++
                quote ++ lit "str" ++ quote))
  | JNull => Raise (not_subscriptable "NoneType")
  | JBool _ => Raise (not_subscriptable "bool")
  | JInt _ => Raise (not_subscriptable "int")
  | JFloat _ => Raise (not_subscriptable "float")
  end.

(** [v[0]]. *)
Definition getitem_0 (v : JSON) : result JSON :=
  match v with
  | JArr (x :: _) => Ok x
  | JArr [] =>
      Raise (LibraryError "IndexError" (lit "list index out of range"))
  | JStr (c :: _) => Ok (JStr [c])
  | JStr [] =>
      Raise (LibraryError "IndexError" (lit "string index out of range"))
  | JObj fields => Raise (LibraryError "KeyError" (lit "0"))
  | JNull => Raise (not_subscriptable "NoneType")
  | JBool _ => Raise (not_subscriptable "bool")
  | JInt _ => Raise (not_subscriptable "int")
  | JFloat _ => Raise (not_subscriptable "float")
  end.

End Py.

(* ===================================================================== *)
(** * The [interview] app *)
(* ===================================================================== *)

Module interview.
Import Py.

(** ** interview/interactors/storage_interface/dtos.py *)
Module dtos.

(** [description] is annotated [str]; the column it is read from is
    nullable, so the value may be [None]. *)
Record InterviewDTO := {
  id : str;
  title : str;
  description : option str;
  duration : Z
}.

Record InterviewAttemptDTO := {
  interview_id : str;
  user_id : str;
  start_datetime : datetime;
  end_datetime : option datetime;
  scheduled_end_datetime : option datetime
}.

(** The same DTO carrying another [scheduled_end_datetime]. *)
Definition with_scheduled_end (dto : InterviewAttemptDTO)
  (v : option datetime) : InterviewAttemptDTO :=
  {| interview_id := interview_id dto;
     user_id := user_id dto;
     start_datetime := start_datetime dto;
     end_datetime := end_datetime dto;
     scheduled_end_datetime := v |}.

End dtos.

(** ** interview/interactors/storage_interface/storage_interface.py

    The abstract interface: two operations on some store [S], each of which
    may raise. The interface fixes no return type for
    [create_interview_attempt]; an implementation chooses [created]. *)
Module storage_interface.

Class InterviewStorageInterface (S : Type) := {
  created : Type;
  get_interview_details : list str -> M S (list dtos.InterviewDTO);
  create_interview_attempt : dtos.InterviewAttemptDTO -> M S created
}.

End storage_interface.

(** ** interview/models/models.py and the rows of the database *)
Module models.

(** What the sources use of Python's [uuid] module and of Django's
    [UUIDField], taken as given: [uuid.UUID(hex=s)] ([None] where it
    raises), [str(u)], and the text of the [ValidationError] that Django
    raises for a value that is not a UUID. A UUID is its 128-bit integer.
    The empty string spells no UUID: [uuid.UUID(hex='')] raises
    [ValueError]. *)
Record UuidLib := {
  UUID_of_hex : str -> option N;
  str_of_UUID : N -> str;
  invalid_uuid_message : str -> str;
  UUID_of_hex_empty : UUID_of_hex [] = None
}.

Module Interview.
(** [id] is a [UUIDField]; [duration] is a [timedelta], kept in
    microseconds. *)
Record row := {
  id : N;
  title : str;
  description : option str;
  duration : Z
}.
End Interview.

Module InterviewAttempt.
(** [id] is a [UUIDField] and [interview] a foreign key to a UUID. *)
Record row := {
  id : N;
  interview_id : N;
  user_id : str;
  start_datetime : datetime;
  end_datetime : option datetime;
  scheduled_end_datetime : option datetime
}.

(** The keyword arguments of [InterviewAttempt.objects.create(...)]:
    [None] is a keyword that was not passed. [interview_id] is passed as
    the caller has it, a string. *)
Record kwargs := {
  kw_id : option N;
  kw_interview_id : option str;
  kw_user_id : option str;
  kw_start_datetime : option datetime;
  kw_end_datetime : option (option datetime);
  kw_scheduled_end_datetime : option (option datetime)
}.
End InterviewAttempt.

(** The database behind the ORM: the two tables the sources touch, the
    source of [uuid.uuid4] and the clock behind [auto_now_add]. *)
Record Database := {
  Interview_objects : list Interview.row;
  InterviewAttempt_objects : list InterviewAttempt.row;
  uuid4 : nat -> N;
  uuid4_calls : nat;
  timezone_now : nat -> datetime;
  timezone_now_calls : nat
}.

Definition draw_uuid4 : M Database N :=
  fun db =>
    (Ok (uuid4 db (uuid4_calls db)),
     {| Interview_objects := Interview_objects db;
        InterviewAttempt_objects := InterviewAttempt_objects db;
        uuid4 := uuid4 db;
        uuid4_calls := S (uuid4_calls db);
        timezone_now := timezone_now db;
        timezone_now_calls := timezone_now_calls db |}).

Definition read_timezone_now : M Database datetime :=
  fun db =>
    (Ok (timezone_now db (timezone_now_calls db)),
     {| Interview_objects := Interview_objects db;
        InterviewAttempt_objects := InterviewAttempt_objects db;
        uuid4 := uuid4 db;
        uuid4_calls := uuid4_calls db;
        timezone_now := timezone_now db;
        timezone_now_calls := S (timezone_now_calls db) |}).

Definition insert_attempt (r : InterviewAttempt.row) : M Database unit :=
  modify (fun db =>
    {| Interview_objects := Interview_objects db;
       InterviewAttempt_objects := InterviewAttempt_objects db ++ [r];
       uuid4 := uuid4 db;
       uuid4_calls := uuid4_calls db;
       timezone_now := timezone_now db;
       timezone_now_calls := timezone_now_calls db |}).

Definition current_database : M Database Database :=
  fun db => (Ok db, db).

Definition of_result {A} (r : result A) : M Database A := fun db => (r, db).

Definition uuid_mem (u : N) (l : list N) : bool := existsb (N.eqb u) l.

Definition IntegrityError (msg : string) : exn :=
  LibraryError "IntegrityError" (lit msg).

Section WithUuid.
Context (lib : UuidLib).

Definition ValidationError (value : str) : exn :=
  LibraryError "ValidationError" (invalid_uuid_message lib value).

(** [UUIDField.to_python(value)] for a string: the UUID it spells, in
    whatever form [uuid.UUID] reads, or [ValidationError]. *)
Definition to_python (value : str) : result N :=
  match UUID_of_hex lib value with
  | Some u => Ok u
  | None => Raise (ValidationError value)
  end.

(** The values of an [id__in] lookup, prepared in order. *)
Fixpoint prepare_ids (ids : list str) : result (list N) :=
  match ids with
  | [] => Ok []
  | value :: rest =>
      match to_python value with
      | Raise e => Raise e
      | Ok u =>
          match prepare_ids rest with
          | Raise e => Raise e
          | Ok us => Ok (u :: us)
          end
      end
  end.

(** [Interview.objects.filter(id__in=ids)], evaluated: the rows whose UUID
    is among the UUIDs the values spell; a value that spells none raises. *)
Definition Interview_objects_filter_id_in (ids : list str)
  : M Database (list Interview.row) :=
  us ← of_result (prepare_ids ids);
  gets (fun db => List.filter (fun r => uuid_mem (Interview.id r) us)
                    (Interview_objects db)).

(** [InterviewAttempt.objects.create] with keywords [kw], under the field
    declarations of models.py. [id] defaults to [uuid.uuid4()]. The insert
    prepares the fields in the order of their declaration: [interview], a
    foreign key to a UUID, is read from the string passed (a string that
    spells no UUID raises [ValidationError]; the empty string is stored as
    NULL by [ForeignKey.get_db_prep_save], which the column, not nullable,
    refuses at the insert); [user_id] is a [CharField]
    (default the empty string); [start_datetime] has [auto_now_add=True],
    so the current time is stored whatever was passed; [end_datetime] and
    [scheduled_end_datetime] are nullable and default to [None]. The
    database then checks the foreign key and the primary key. *)
Definition InterviewAttempt_objects_create (kw : InterviewAttempt.kwargs)
  : M Database InterviewAttempt.row :=
  new_id ← match InterviewAttempt.kw_id kw with
           | Some i => mret i
           | None => draw_uuid4
           end;
  match InterviewAttempt.kw_interview_id kw with
  | None | Some [] =>
      read_timezone_now;;
      raise (IntegrityError "NOT NULL constraint failed")
  | Some value =>
      iid ← of_result (to_python value);
      now ← read_timezone_now;
      db ← current_database;
      if negb (uuid_mem iid (map Interview.id (Interview_objects db)))
      then raise (IntegrityError "FOREIGN KEY constraint failed")
      else if uuid_mem new_id
                (map InterviewAttempt.id (InterviewAttempt_objects db))
      then raise (IntegrityError "UNIQUE constraint failed")
      else
        let r :=
          {| InterviewAttempt.id := new_id;
             InterviewAttempt.interview_id := iid;
             InterviewAttempt.user_id :=
               default [] (InterviewAttempt.kw_user_id kw);
             InterviewAttempt.start_datetime := now;
             InterviewAttempt.end_datetime :=
               default None (InterviewAttempt.kw_end_datetime kw);
             InterviewAttempt.scheduled_end_datetime :=
               default None (InterviewAttempt.kw_scheduled_end_datetime kw)
          |} in
        insert_attempt r;; mret r
  end.

End WithUuid.

End models.

(** ** interview/storages/storage_implementation.py *)
Module storage_implementation.
Import models.

(** The quotient [num / den] rounded to the nearest integer, ties to the
    even one, for [den > 0]. *)
Definition div_half_even (num den : Z) : Z :=
  let q := (num / den)%Z in
  let r := (num mod den)%Z in
  if (den <? 2 * r)%Z || ((2 * r =? den)%Z && Z.odd q)
  then (q + 1)%Z else q.

(** [int(a / b)] for integers [0 <= a] and [0 < b], where [/] is Python's
    true division: the quotient is rounded to the nearest float (53
    significant bits, ties to even) and then truncated. *)
Definition int_true_division (a b : Z) : Z :=
  if (a <? b)%Z then 0%Z
  else
    let shift := (52 - Z.log2 (a / b))%Z in
    if (0 <=? shift)%Z
    then (div_half_even (a * 2 ^ shift) b / 2 ^ shift)%Z
    else (div_half_even a (b * 2 ^ (- shift)) * 2 ^ (- shift))%Z.

(** [int(interview.duration.total_seconds())]: [total_seconds] divides
    the microseconds by [10**6] as floats do, and [int] truncates towards
    zero. *)
Definition int_total_seconds (microseconds : Z) : Z :=
  (Z.sgn microseconds * int_true_division (Z.abs microseconds) 1000000)%Z.

Section WithUuid.
Context (lib : UuidLib).

Definition get_interview_details (interview_ids : list str)
  : M Database (list dtos.InterviewDTO) :=
  interviews ← Interview_objects_filter_id_in lib interview_ids;
  let interview_dtos :=
    map (fun interview =>
           {| dtos.id := str_of_UUID lib (Interview.id interview);
              dtos.title := Interview.title interview;
              dtos.description := Interview.description interview;
              dtos.duration := int_total_seconds (Interview.duration interview)
           |}) interviews in
  mret interview_dtos.

(** The keyword arguments the adapter passes to the insert. *)
Definition create_kwargs (interview_attempt_dto : dtos.InterviewAttemptDTO)
  : InterviewAttempt.kwargs :=
  {| InterviewAttempt.kw_id := None;
     InterviewAttempt.kw_interview_id :=
       Some (dtos.interview_id interview_attempt_dto);
     InterviewAttempt.kw_user_id :=
       Some (dtos.user_id interview_attempt_dto);
     InterviewAttempt.kw_start_datetime :=
       Some (dtos.start_datetime interview_attempt_dto);
     InterviewAttempt.kw_end_datetime :=
       Some (dtos.end_datetime interview_attempt_dto);
     InterviewAttempt.kw_scheduled_end_datetime := None |}.

Definition create_interview_attempt
  (interview_attempt_dto : dtos.InterviewAttemptDTO) : M Database str :=
  interview_attempt ←
    InterviewAttempt_objects_create lib
      (create_kwargs interview_attempt_dto);
  mret (str_of_UUID lib (InterviewAttempt.id interview_attempt)).

Definition StorageImplementation
  : storage_interface.InterviewStorageInterface Database := {|
  storage_interface.created := str;
  storage_interface.get_interview_details := get_interview_details;
  storage_interface.create_interview_attempt := create_interview_attempt
|}.

End WithUuid.

End storage_implementation.

(** ** interview/interactors/create_interview_attempt_interactor.py *)
Module create_interview_attempt_interactor.
Import storage_interface.

(** What the interactor asked of its storage, in order. *)
Inductive StorageCall :=
| Called_get_interview_details (interview_ids : list str)
| Called_create_interview_attempt (dto : dtos.InterviewAttemptDTO).

(** The world the interactor runs in: the injected storage, the record of
    the calls made on it, and the clock behind [datetime.datetime.now()]. *)
Record World (S : Type) := {
  storage : S;
  calls : list StorageCall;
  clock : nat -> datetime;
  clock_reads : nat
}.
Arguments storage {S} _.
Arguments calls {S} _.
Arguments clock {S} _.
Arguments clock_reads {S} _.

Section Interactor.
Context {S : Type} `{InterviewStorageInterface S}.

Definition record_call (c : StorageCall) : M (World S) unit :=
  modify (fun w =>
    {| storage := storage w; calls := calls w ++ [c];
       clock := clock w; clock_reads := clock_reads w |}).

(** Run a storage operation on the injected storage. *)
Definition on_storage {A} (m : M S A) : M (World S) A :=
  fun w =>
    match m (storage w) with
    | (r, s') =>
        (r, {| storage := s'; calls := calls w;
               clock := clock w; clock_reads := clock_reads w |})
    end.

(** [datetime.datetime.now()] *)
Definition datetime_now : M (World S) datetime :=
  fun w =>
    (Ok (clock w (clock_reads w)),
     {| storage := storage w; calls := calls w;
        clock := clock w; clock_reads := Datatypes.S (clock_reads w) |}).

Definition storage_get_interview_details (interview_ids : list str)
  : M (World S) (list dtos.InterviewDTO) :=
  record_call (Called_get_interview_details interview_ids);;
  on_storage (get_interview_details interview_ids).

Definition storage_create_interview_attempt (dto : dtos.InterviewAttemptDTO)
  : M (World S) created :=
  record_call (Called_create_interview_attempt dto);;
  on_storage (create_interview_attempt dto).

Definition validate_interview_details (interview_id : str)
  : M (World S) unit :=
  interview_dtos ← storage_get_interview_details [interview_id];
  if negb (nonempty interview_dtos)
  then raise InvalidInterviewIdException
  else mret tt.

Definition create_interview_attempt (interview_id user_id : str)
  : M (World S) unit :=
  validate_interview_details interview_id;;
  now ← datetime_now;
  let interview_attempt_dto :=
    {| dtos.interview_id := interview_id;
       dtos.user_id := user_id;
       dtos.start_datetime := now;
       dtos.end_datetime := None;
       dtos.scheduled_end_datetime := None |} in
  storage_create_interview_attempt interview_attempt_dto;;
  mret tt.

End Interactor.

(** The create calls among the recorded calls. *)
Definition create_calls (cs : list StorageCall)
  : list dtos.InterviewAttemptDTO :=
  flat_map (fun c => match c with
                     | Called_create_interview_attempt dto => [dto]
                     | Called_get_interview_details _ => []
                     end) cs.

End create_interview_attempt_interactor.

End interview.

(* ===================================================================== *)
(** * The scripts *)
(* ===================================================================== *)

Module scripts.
Import Py.

(** ** [pathlib] paths (POSIX flavour) *)
Module pathlib.

(** A path is its anchor ([""], ["/"] or ["//"]) and its component names. *)
Record Path := { anchor : str; names : list str }.

#[global] Instance Path_eq_dec : EqDecision Path.
Proof. solve_decision. Defined.

(** [p.parts]: the anchor, when there is one, counts as the first part. *)
Definition parts (p : Path) : list str :=
  match anchor p with
  | [] => names p
  | _ :: _ => anchor p :: names p
  end.

(** [p.name]: the final component, [""] when there is none. *)
Definition name (p : Path) : str := List.last (names p) [].

(** [s.rfind(".")], as an index, [None] for [-1]. *)
Fixpoint rfind_dot (s : str) : option nat :=
  match s with
  | [] => None
  | c :: s' =>
      match rfind_dot s' with
      | Some i => Some (S i)
      | None => if (c =? 46)%N then Some 0 else None
      end
  end.

(** [p.suffix]: with [i = name.rfind(".")], [name[i:]] when
    [0 < i < len(name) - 1] and [""] otherwise (the rule of CPython up to
    3.13; the theorems below depend on [suffix] only through its value). *)
Definition suffix (p : Path) : str :=
  match rfind_dot (name p) with
  | Some i =>
      if (0 <? i) && (i <? length (name p) - 1)
      then drop i (name p)
      else []
  | None => []
  end.

Definition slash : str := [47%N].

(** [str(p)] *)
Definition to_str (p : Path) : str :=
  match names p, anchor p with
  | [], [] => lit "."
  | _, _ => anchor p ++ join slash (names p)
  end.

(** Split at ["/"]; [cur] is the component being read. *)
Fixpoint split_slash (s cur : str) : list str :=
  match s with
  | [] => [cur]
  | c :: s' =>
      if (c =? 47)%N then cur :: split_slash s' []
      else split_slash s' (cur ++ [c])
  end.

Fixpoint leading_slashes (s : str) : nat :=
  match s with
  | c :: s' => if (c =? 47)%N then S (leading_slashes s') else 0
  | [] => 0
  end.

Definition keep_component (c : str) : bool :=
  nonempty c && negb (bool_decide (c = lit ".")).

(** [Path(s)]: empty components and ["."] are dropped; exactly two leading
    slashes are kept as the anchor ["//"]. *)
Definition Path_ (s : str) : Path :=
  {| anchor := match leading_slashes s with
               | 0 => []
               | 2 => slash ++ slash
               | _ => slash
               end;
     names := List.filter keep_component (split_slash s []) |}.

Fixpoint strip_prefix (pre l : list str) : option (list str) :=
  match pre, l with
  | [], _ => Some l
  | a :: pre', b :: l' =>
      if bool_decide (a = b) then strip_prefix pre' l' else None
  | _ :: _, [] => None
  end.

(** [p.relative_to(other)] *)
Definition relative_to (p other : Path) : result Path :=
  if bool_decide (anchor p = anchor other) then
    match strip_prefix (names other) (names p) with
    | Some rest => Ok {| anchor := []; names := rest |}
    | None => Raise (LibraryError "ValueError" (lit "not in the subpath"))
    end
  else Raise (LibraryError "ValueError" (lit "not in the subpath")).

End pathlib.
Import pathlib.

(** [os.path.join(a, b)] (POSIX) *)
Definition os_path_join (a b : str) : str :=
  if startswith slash b then b
  else match a with
       | [] => b
       | _ :: _ =>
           if (List.last a 0 =? 47)%N then a ++ b else a ++ slash ++ b
       end.

(** ** The world of the scripts *)

(** One [requests.post(url, headers=..., json=...)]. *)
Record Request := {
  url : option str;
  headers : list (string * option str);
  json : JSON
}.

(** The two text properties of the [CodeFile] collection. *)
Record CodeFile := { file_path : str; content : str }.

(** An object of the vector store: properties and supplied vector. *)
Record WeaviateObject := { properties : CodeFile; vector : JSON }.

Record World := {
  stdin : list str;                    (* lines still to be read *)
  stdout : list str;                   (* what was printed, in order *)
  files : gmap (list N) (list N);      (* files written: name to text *)
  directories : gset (list N);         (* directories made *)
  clock : nat -> datetime;             (* the time at the n-th reading *)
  clock_reads : nat;
  posted : list Request;               (* HTTP requests sent, in order *)
  opened : list Path;                  (* source files opened for reading *)
  collection : list WeaviateObject;    (* the CodeFile collection *)
  clients_open : nat                   (* vector-store clients not closed *)
}.

Definition set_stdin (f : list str -> list str) (w : World) : World :=
  {| stdin := f (stdin w); stdout := stdout w; files := files w;
     directories := directories w; clock := clock w;
     clock_reads := clock_reads w; posted := posted w; opened := opened w;
     collection := collection w; clients_open := clients_open w |}.

Definition set_stdout (f : list str -> list str) (w : World) : World :=
  {| stdin := stdin w; stdout := f (stdout w); files := files w;
     directories := directories w; clock := clock w;
     clock_reads := clock_reads w; posted := posted w; opened := opened w;
     collection := collection w; clients_open := clients_open w |}.

Definition set_files (f : gmap (list N) (list N) -> gmap (list N) (list N))
  (w : World) : World :=
  {| stdin := stdin w; stdout := stdout w; files := f (files w);
     directories := directories w; clock := clock w;
     clock_reads := clock_reads w; posted := posted w; opened := opened w;
     collection := collection w; clients_open := clients_open w |}.

Definition set_directories (f : gset (list N) -> gset (list N))
  (w : World) : World :=
  {| stdin := stdin w; stdout := stdout w; files := files w;
     directories := f (directories w); clock := clock w;
     clock_reads := clock_reads w; posted := posted w; opened := opened w;
     collection := collection w; clients_open := clients_open w |}.

Definition set_clock_reads (f : nat -> nat) (w : World) : World :=
  {| stdin := stdin w; stdout := stdout w; files := files w;
     directories := directories w; clock := clock w;
     clock_reads := f (clock_reads w); posted := posted w;
     opened := opened w; collection := collection w;
     clients_open := clients_open w |}.

Definition set_posted (f : list Request -> list Request) (w : World)
  : World :=
  {| stdin := stdin w; stdout := stdout w; files := files w;
     directories := directories w; clock := clock w;
     clock_reads := clock_reads w; posted := f (posted w);
     opened := opened w; collection := collection w;
     clients_open := clients_open w |}.

Definition set_opened (f : list Path -> list Path) (w : World) : World :=
  {| stdin := stdin w; stdout := stdout w; files := files w;
     directories := directories w; clock := clock w;
     clock_reads := clock_reads w; posted := posted w;
     opened := f (opened w); collection := collection w;
     clients_open := clients_open w |}.

Definition set_collection (f : list WeaviateObject -> list WeaviateObject)
  (w : World) : World :=
  {| stdin := stdin w; stdout := stdout w; files := files w;
     directories := directories w; clock := clock w;
     clock_reads := clock_reads w; posted := posted w; opened := opened w;
     collection := f (collection w); clients_open := clients_open w |}.

Definition set_clients_open (f : nat -> nat) (w : World) : World :=
  {| stdin := stdin w; stdout := stdout w; files := files w;
     directories := directories w; clock := clock w;
     clock_reads := clock_reads w; posted := posted w; opened := opened w;
     collection := collection w; clients_open := f (clients_open w) |}.

(** What the scripts do not decide: the process environment, the remote
    services, the files under the root directory, and the text of
    [constants.SYSTEM_PROMPT]. A service answers as a function of the world
    at the moment of the call, so the same request may fail once and succeed
    later. *)
Record Env := {
  (* os.getenv(...) and __file__ *)
  AZURE_OPENAI_TEXT_EMBEDDING_URL : option str;
  AZURE_OPENAI_TEXT_EMBEDDING_API_KEY : option str;
  AZURE_OPEN_AI_CHAT_URL : option str;
  AZURE_OPEN_AI_CHAT_API_KEY : option str;
  script_dir : str;
  (* requests.post, raise_for_status and response.json(), taken together:
     the decoded body, or the exception one of the three raised *)
  http : World -> Request -> result JSON;
  (* weaviate.connect_to_weaviate_cloud: the exception it raises, if any *)
  weaviate_connect_fault : World -> option exn;
  (* collection.data.insert: the exception it raises, if any *)
  weaviate_insert_fault : World -> CodeFile -> JSON -> option exn;
  (* collection.query.near_vector: the exception it raises, if any *)
  weaviate_query_fault : World -> JSON -> nat -> option exn;
  (* [nearer q a b]: [a] is at least as near to the query vector as [b] *)
  nearer : JSON -> WeaviateObject -> WeaviateObject -> bool;
  (* the recursive directory walk of root_path.glob, Path.is_file, and
     reading a file opened as UTF-8 text *)
  glob_all : Path -> list Path;
  is_file : Path -> bool;
  read_text : Path -> result str;
  (* os.makedirs and open(name, 'w'): the exception raised, if any *)
  makedirs_fault : World -> str -> option exn;
  write_fault : World -> str -> option exn;
  (* f.write(text) and the closing of the file, for the file of that name
     just opened: the exception raised, if any, and the text that had
     reached the file by then *)
  write_text_fault : World -> str -> str -> option (exn * str);
  (* constants.SYSTEM_PROMPT is one text with a single replacement field,
     [{code}], and no other brace: the text before it and the text after *)
  SYSTEM_PROMPT_before : str;
  SYSTEM_PROMPT_after : str;
  (* str(v) for a decoded number, list or dict *)
  repr : JSON -> str
}.

(** The world once [s] has been printed. *)
Definition printed (s : str) (w : World) : World :=
  set_stdout (fun out => out ++ [s]) w.

(** [print(s)] *)
Definition print (s : str) : M World unit := modify (printed s).

(** [datetime.now()] *)
Definition datetime_now : M World datetime :=
  fun w => (Ok (clock w (clock_reads w)), set_clock_reads S w).

Definition read_line : M World str :=
  fun w =>
    match stdin w with
    | line :: rest => (Ok line, set_stdin (fun _ => rest) w)
    | [] => (Raise (LibraryError "EOFError"
                      (lit "EOF when reading a line")), w)
    end.

(** [input(prompt)]: the prompt is written, one line is read;
    [EOFError] at end of input. *)
Definition input (prompt : str) : M World str :=
  print prompt;; read_line.

(** The text an f-string or [print] shows for a decoded value. *)
Definition format_value (env : Env) (v : JSON) : str :=
  match v with
  | JStr s => s
  | JNull => lit "None"
  | JBool true => lit "True"
  | JBool false => lit "False"
  | _ => repr env v
  end.

(** [requests.post(url, headers=headers, json=data)], then
    [raise_for_status()] and [json()]. *)
Definition requests_post (env : Env) (req : Request) : M World JSON :=
  fun w => (http env w req, set_posted (fun l => l ++ [req]) w).

Definition lift_result {A} (r : result A) : M World A := fun w => (r, w).

(** What a request sent in [w] comes to, its decoded body being read by
    [read]: the value read, or the exception of the request or of the
    reading. *)
Definition answered (env : Env) (read : JSON -> result JSON) (w : World)
  (req : Request) : result JSON :=
  match http env w req with
  | Ok body => read body
  | Raise e => Raise e
  end.

Definition raise_if (fault : World -> option exn) : M World unit :=
  fun w =>
    match fault w with
    | Some e => (Raise e, w)
    | None => (Ok tt, w)
    end.

(** ** scripts/index_code_base.py *)
Module index_code_base.
Section WithEnv.
Context (env : Env).

Definition embedding_request (text : str) : Request :=
  {| url := AZURE_OPENAI_TEXT_EMBEDDING_URL env;
     headers := [("Content-Type"%string, Some (lit "application/json"));
                 ("api-key"%string, AZURE_OPENAI_TEXT_EMBEDDING_API_KEY env)];
     json := JObj [("input"%string, JStr text);
                   ("encoding_format"%string, JStr (lit "float"))] |}.

(** [None] (here [JNull]) is the answer after any failure. *)
Definition get_azure_embedding (text : str) : M World JSON :=
  try_except
    (body ← requests_post env (embedding_request text);
     data ← lift_result (getitem_key body "data");
     first ← lift_result (getitem_0 data);
     lift_result (getitem_key first "embedding"))
    (fun e =>
       print (lit "Error getting embeddings: " ++ str_of_exn e);;
       mret JNull).

(** [collection.data.insert(properties=..., vector=...)] *)
Definition collection_data_insert (props : CodeFile) (vec : JSON)
  : M World unit :=
  raise_if (fun w => weaviate_insert_fault env w props vec);;
  modify (set_collection
            (fun c => c ++ [{| properties := props; vector := vec |}])).

(** [open(file_path, 'r', encoding='utf-8')] and [f.read()] *)
Definition open_and_read (file_path : Path) : M World str :=
  modify (set_opened (fun l => l ++ [file_path]));;
  lift_result (read_text env file_path).

Definition excluded_dirs : list str :=
  [lit "scripts"; lit "venv"; lit ".specstory"].

Definition should_process_the_file (file_path : Path) : bool :=
  is_file env file_path &&
  str_in (lit ".py") (suffix file_path) &&
  negb (existsb
          (fun excluded_dir =>
             existsb (fun part => bool_decide (excluded_dir = part))
               (parts file_path))
          excluded_dirs).

(** The body of the [try] in the loop, for one file. *)
Definition index_file (root_path file_path : Path) : M World unit :=
  content ← open_and_read file_path;
  if negb (nonempty (strip content)) then mret tt
  else
    embedding ← get_azure_embedding content;
    if negb (truthy embedding)
    then raise (Exception (lit "Failed to get embedding"))
    else
      rel ← lift_result (relative_to file_path root_path);
      collection_data_insert
        {| file_path := to_str rel; content := content |} embedding;;
      rel' ← lift_result (relative_to file_path root_path);
      print (lit "Processed: " ++ to_str rel').

(** The line the [except] clause prints. *)
Definition error_line (file_path : Path) (e : exn) : str :=
  lit "Error processing " ++ to_str file_path ++ lit ": " ++ str_of_exn e.

(** One turn of the [for] loop. *)
Definition index_step (root_path file_path : Path) : M World unit :=
  if negb (should_process_the_file file_path) then mret tt
  else
    try_except (index_file root_path file_path)
      (fun e => print (error_line file_path e)).

Fixpoint index_files (root_path : Path) (file_paths : list Path)
  : M World unit :=
  match file_paths with
  | [] => mret tt
  | file_path :: rest =>
      index_step root_path file_path;; index_files root_path rest
  end.

Definition index_code_base (root_dir : str) : M World unit :=
  let root_path := Path_ root_dir in
  index_files root_path (glob_all env root_path).

End WithEnv.
End index_code_base.

(** ** scripts/search_code_base.py *)
Module search_code_base.
Section WithEnv.
Context (env : Env).

Definition embedding_request (text : str) : Request :=
  {| url := AZURE_OPENAI_TEXT_EMBEDDING_URL env;
     headers := [("Content-Type"%string, Some (lit "application/json"));
                 ("api-key"%string, AZURE_OPENAI_TEXT_EMBEDDING_API_KEY env)];
     json := JObj [("input"%string, JStr text);
                   ("encoding_format"%string, JStr (lit "float"))] |}.

Definition get_vector_embedding (text : str) : M World JSON :=
  try_except
    (body ← requests_post env (embedding_request text);
     data ← lift_result (getitem_key body "data");
     first ← lift_result (getitem_0 data);
     lift_result (getitem_key first "embedding"))
    (fun e =>
       print (lit "Error getting embeddings: " ++ str_of_exn e);;
       raise e).

(** [response.json()['data'][0]['embedding']] *)
Definition embedding_of (body : JSON) : result JSON :=
  match getitem_key body "data" with
  | Raise e => Raise e
  | Ok data =>
      match getitem_0 data with
      | Raise e => Raise e
      | Ok first => getitem_key first "embedding"
      end
  end.

(** The world with one more client open, and with one client closed. *)
Definition connected (w : World) : World := set_clients_open S w.
Definition closed (w : World) : World := set_clients_open Nat.pred w.

Definition create_weaviate_client : M World unit :=
  raise_if (weaviate_connect_fault env);;
  modify connected.

(** [client.close()] *)
Definition client_close : M World unit := modify closed.

Fixpoint insert_by {A} (le : A -> A -> bool) (x : A) (l : list A) : list A :=
  match l with
  | [] => [x]
  | y :: l' => if le x y then x :: l else y :: insert_by le x l'
  end.

Definition sort_by {A} (le : A -> A -> bool) (l : list A) : list A :=
  foldr (insert_by le) [] l.

(** Modelled from the spec: the vector-store client is not part of the
    sources. [collection.query.near_vector(near_vector=q, limit=n).objects]
    is the "nearest-neighbor query by vector with a result limit" of the
    spec: the stored objects, nearest first, cut after [n]. *)
Definition near_vector (q : JSON) (limit : nat)
  : M World (list WeaviateObject) :=
  raise_if (fun w => weaviate_query_fault env w q limit);;
  gets (fun w => take limit (sort_by (nearer env q) (collection w))).

(** The dict built for one match. *)
Definition match_of (obj : WeaviateObject) : list (string * str) :=
  [("file_path"%string, file_path (properties obj));
   ("content"%string, content (properties obj))].

(** [limit = None] is a call that leaves the parameter to its default. *)
Definition search_code_base (query : str) (limit : option nat)
  : M World (list (list (string * str))) :=
  let limit := default 5 limit in
  query_embedding ← get_vector_embedding query;
  create_weaviate_client;;
  try_finally
    (results ← near_vector query_embedding limit;
     mret (map match_of results))
    client_close.

End WithEnv.
End search_code_base.

(** ** scripts/generate_task_plan.py *)
Module generate_task_plan.
Section WithEnv.
Context (env : Env).

Definition QUERIES_DIR : str := os_path_join (script_dir env) (lit "queries").

(** A format string, read: literal text and replacement fields. *)
Inductive piece :=
| Text (s : str)
| Field (name : string).

(** [template.format] with the keywords [kw] *)
Fixpoint str_format (template : list piece) (kw : list (string * str))
  : result str :=
  match template with
  | [] => Ok []
  | Text s :: rest =>
      match str_format rest kw with
      | Ok t => Ok (s ++ t)
      | Raise e => Raise e
      end
  | Field name :: rest =>
      match assoc name kw with
      | None => Raise (LibraryError "KeyError" (quote ++ lit name ++ quote))
      | Some v =>
          match str_format rest kw with
          | Ok t => Ok (v ++ t)
          | Raise e => Raise e
          end
      end
  end.

(** scripts/constants.py *)
Definition SYSTEM_PROMPT : list piece :=
  [Text (SYSTEM_PROMPT_before env); Field "code";
   Text (SYSTEM_PROMPT_after env)].

Definition result_getitem (d : list (string * str)) (key : string)
  : result str :=
  match assoc key d with
  | Some v => Ok v
  | None => Raise (LibraryError "KeyError" (quote ++ lit key ++ quote))
  end.

(** The text shown for one match. *)
Definition block (fp c : str) : str :=
  lit "File: " ++ fp ++ nl ++ fence ++ lit "python" ++ nl ++ c ++ nl ++
  fence ++ nl.

Fixpoint formatted_results (search_results : list (list (string * str)))
  : result (list str) :=
  match search_results with
  | [] => Ok []
  | r :: rest =>
      match result_getitem r "file_path" with
      | Raise e => Raise e
      | Ok fp =>
          match result_getitem r "content" with
          | Raise e => Raise e
          | Ok c =>
              match formatted_results rest with
              | Raise e => Raise e
              | Ok l => Ok (block fp c :: l)
              end
          end
      end
  end.

Definition format_code_context (search_results : list (list (string * str)))
  : result str :=
  match formatted_results search_results with
  | Ok l => Ok (join nl l)
  | Raise e => Raise e
  end.

(** The [data] of a chat-completion request. *)
Definition chat_data (system_prompt user_query : str) : JSON :=
  JObj [("messages"%string,
         JArr [JObj [("role"%string, JStr (lit "system"));
                     ("content"%string, JStr system_prompt)];
               JObj [("role"%string, JStr (lit "user"));
                     ("content"%string, JStr user_query)]]);
        ("temperature"%string, JInt 0);
        ("top_p"%string, JInt 1);
        ("frequency_penalty"%string, JInt 0);
        ("presence_penalty"%string, JFloat (1 # 2))].

Definition chat_request (system_prompt user_query : str) : Request :=
  {| url := AZURE_OPEN_AI_CHAT_URL env;
     headers := [("Content-Type"%string, Some (lit "application/json"));
                 ("api-key"%string, AZURE_OPEN_AI_CHAT_API_KEY env)];
     json := chat_data system_prompt user_query |}.

Definition get_chat_completion (system_prompt user_query : str)
  : M World JSON :=
  try_except
    (body ← requests_post env (chat_request system_prompt user_query);
     choices ← lift_result (getitem_key body "choices");
     first ← lift_result (getitem_0 choices);
     message ← lift_result (getitem_key first "message");
     lift_result (getitem_key message "content"))
    (fun e =>
       print (lit "Error getting chat completion: " ++ str_of_exn e);;
       raise e).

(** [response.json()['choices'][0]['message']['content']] *)
Definition content_of (body : JSON) : result JSON :=
  match getitem_key body "choices" with
  | Raise e => Raise e
  | Ok choices =>
      match getitem_0 choices with
      | Raise e => Raise e
      | Ok first =>
          match getitem_key first "message" with
          | Raise e => Raise e
          | Ok message => getitem_key message "content"
          end
      end
  end.

(** [os.makedirs(d, exist_ok=True)] *)
Definition os_makedirs (d : str) : M World unit :=
  raise_if (fun w => makedirs_fault env w d);;
  modify (set_directories (fun ds => {[ d ]} ∪ ds)).

(** [open(filename, 'w')]: the file is there and empty from here on,
    whatever it held. *)
Definition open_w (filename : str) : M World unit :=
  raise_if (fun w => write_fault env w filename);;
  modify (set_files (fun fs => <[ filename := [] ]> fs)).

(** [f.write(text)] and the end of the [with] block, which closes the
    file. When they raise, the file stays, holding what had reached it. *)
Definition f_write (filename text : str) : M World unit :=
  fun w =>
    match write_text_fault env w filename text with
    | Some (e, kept) =>
        (Raise e, set_files (fun fs => <[ filename := kept ]> fs) w)
    | None => (Ok tt, set_files (fun fs => <[ filename := text ]> fs) w)
    end.

(** [with open(filename, 'w') as f: f.write(text)] *)
Definition write_file (filename text : str) : M World unit :=
  open_w filename;;
  f_write filename text.

Definition markdown (heading_time : datetime) (query : str)
  (task_plan : JSON) (code_context : str) : str :=
  lit "# Task Query - " ++ strftime heading_time (lit "%Y-%m-%d %H:%M:%S") ++
  nl ++ nl ++
  lit "## User Query" ++ nl ++ query ++ nl ++ nl ++
  lit "## Task Plan" ++ nl ++ format_value env task_plan ++ nl ++ nl ++
  lit "## Relevant Code Context" ++ nl ++ code_context ++ nl.

Definition query_filename (t : datetime) : str :=
  os_path_join QUERIES_DIR
    (lit "query_" ++ strftime t (lit "%Y%m%d_%H%M%S") ++ lit ".md").

Definition save_query_and_response (query : str) (task_plan : JSON)
  (code_context : str) : M World unit :=
  os_makedirs QUERIES_DIR;;
  t ← datetime_now;
  let filename := query_filename t in
  t' ← datetime_now;
  let content := markdown t' query task_plan code_context in
  write_file filename content;;
  print (nl ++ lit "Query and response saved to: " ++ filename).

(** The world in which the file is opened: the directory made and the
    clock read twice. *)
Definition ready_to_open (w : World) : World :=
  set_clock_reads S
    (set_clock_reads S
       (set_directories (fun ds => {[ QUERIES_DIR ]} ∪ ds) w)).

(** The world in which the text is written: the file opened, so empty. *)
Definition ready_to_write (filename : str) (w : World) : World :=
  set_files (fun fs => <[ filename := [] ]> fs) (ready_to_open w).

Definition rule : str := repeat 61%N 80.

(** [SYSTEM_PROMPT] with [code_context] in the place of its field. *)
Definition spliced (code_context : str) : str :=
  SYSTEM_PROMPT_before env ++ code_context ++ SYSTEM_PROMPT_after env.

(** The line the top-level handler prints. *)
Definition planning_error (e : exn) : str :=
  lit "Error during task planning: " ++ str_of_exn e.

(** The body of the [try] of [generate_task_plan]. *)
Definition plan_for (user_query : str) : M World unit :=
  print (nl ++ lit "Searching for relevant code files...");;
  search_results ← search_code_base.search_code_base env user_query None;
  code_context ← lift_result (format_code_context search_results);
  system_prompt ←
    lift_result (str_format SYSTEM_PROMPT [("code"%string, code_context)]);
  print (nl ++ lit "Generating task plan...");;
  task_plan ← get_chat_completion system_prompt user_query;
  save_query_and_response user_query task_plan code_context;;
  print (nl ++ lit "Task Plan:");;
  print rule;;
  print (format_value env task_plan);;
  print rule.

Definition generate_task_plan : M World unit :=
  user_query ← input (lit "Enter your task description: ");
  try_except (plan_for user_query) (fun e => print (planning_error e)).

(** The world in which the search starts: the query has been read from
    standard input, leaving [rest], and the search has been announced. *)
Definition asked (rest : list str) (w : World) : World :=
  printed (nl ++ lit "Searching for relevant code files...")
    (set_stdin (fun _ => rest)
       (printed (lit "Enter your task description: ") w)).

(** One of the three query-side calls fails with [e], the search starting
    in [w1]: the embedding call (its request fails, or its answer has no
    [data][0][embedding]); or, the embedding obtained, the vector search
    (connecting to the store, or the query itself); or, the search done,
    the chat-completion call (its request fails, or its answer has no
    [choices][0][message][content]). *)
Definition query_side_failure (user_query : str) (w1 : World) (e : exn)
  : Prop :=
  let request := search_code_base.embedding_request env user_query in
  let w2 := set_posted (fun l => l ++ [request]) w1 in
  answered env search_code_base.embedding_of w1 request = Raise e \/
  (exists v,
     answered env search_code_base.embedding_of w1 request = Ok v /\
     (weaviate_connect_fault env w2 = Some e \/
      (weaviate_connect_fault env w2 = None /\
       weaviate_query_fault env (search_code_base.connected w2) v 5
         = Some e) \/
      (weaviate_connect_fault env w2 = None /\
       weaviate_query_fault env (search_code_base.connected w2) v 5
         = None /\
       exists code_context,
         format_code_context
           (map search_code_base.match_of
              (take 5 (search_code_base.sort_by (nearer env v)
                         (collection w2)))) = Ok code_context /\
         answered env content_of
           (printed (nl ++ lit "Generating task plan...")
              (search_code_base.closed (search_code_base.connected w2)))
           (chat_request (spliced code_context) user_query) = Raise e))).

End WithEnv.
End generate_task_plan.

End scripts.

(* ===================================================================== *)
(** * Concrete databases, environments and worlds *)
(* ===================================================================== *)

Module examples.
Import Py.

Definition noon : datetime :=
  {| year := 2024; month := 3; day := 7;
     hour := 12; minute := 0; second := 0; microsecond := 0 |}.

(** A reader and printer of UUIDs for the examples: the reader takes 32
    hexadecimal digits and ignores hyphens, the printer gives the canonical
    8-4-4-4-12 form. ([uuid.UUID] reads further spellings; the theorems are
    about whatever it reads.) *)
Definition hex_value (c : N) : option N :=
  if ((48 <=? c) && (c <=? 57))%N then Some (c - 48)%N
  else if ((97 <=? c) && (c <=? 102))%N then Some (c - 87)%N
  else if ((65 <=? c) && (c <=? 70))%N then Some (c - 55)%N
  else None.

Fixpoint read_hex (s : str) (acc : N) : option N :=
  match s with
  | [] => Some acc
  | c :: s' =>
      match hex_value c with
      | Some d => read_hex s' (16 * acc + d)%N
      | None => None
      end
  end.

Definition read_uuid (s : str) : option N :=
  let digits := List.filter (fun c => negb (c =? 45)%N) s in
  if Nat.eqb (length digits) 32 then read_hex digits 0%N else None.

Definition hex_char (d : N) : N :=
  if (d <? 10)%N then (48 + d)%N else (87 + d)%N.

Fixpoint hex_digits (n : nat) (u : N) : str :=
  match n with
  | 0 => []
  | S n' => hex_digits n' (u / 16)%N ++ [hex_char (u mod 16)%N]
  end.

Definition show_uuid (u : N) : str :=
  let h := hex_digits 32 u in
  take 8 h ++ lit "-" ++ take 4 (drop 8 h) ++ lit "-" ++
  take 4 (drop 12 h) ++ lit "-" ++ take 4 (drop 16 h) ++ lit "-" ++
  drop 20 h.

Definition uuid_lib : interview.models.UuidLib :=
  {| interview.models.UUID_of_hex := read_uuid;
     interview.models.str_of_UUID := show_uuid;
     interview.models.invalid_uuid_message :=
       fun value =>
         lit "['" ++ [8220%N] ++ value ++ [8221%N] ++
         lit " is not a valid UUID.']";
     interview.models.UUID_of_hex_empty := eq_refl |}.

(** The adapter of the examples. *)
#[global] Instance ExampleStorage
  : interview.storage_interface.InterviewStorageInterface
      interview.models.Database :=
  interview.storage_implementation.StorageImplementation uuid_lib.

(** The id of the stored interview, the id of no interview, and a string
    that spells no UUID. *)
Definition interview_1 : str := lit "11111111-1111-4111-8111-111111111111".
Definition interview_2 : str := lit "22222222-2222-4222-8222-222222222222".
Definition not_a_uuid : str := lit "interview-2".

Definition uuid_1 : N := 0x11111111111141118111111111111111%N.
Definition first_attempt : N := 0xaaaaaaaaaaaa4aaa8aaaaaaaaaaaaaaa%N.

(** One interview, no attempt yet. *)
Definition db0 : interview.models.Database :=
  {| interview.models.Interview_objects :=
       [ {| interview.models.Interview.id := uuid_1;
            interview.models.Interview.title := lit "Backend";
            interview.models.Interview.description := None;
            interview.models.Interview.duration := 3600000000%Z |} ];
     interview.models.InterviewAttempt_objects := [];
     interview.models.uuid4 := fun n => (N.of_nat n + first_attempt)%N;
     interview.models.uuid4_calls := 0;
     interview.models.timezone_now := fun _ => noon;
     interview.models.timezone_now_calls := 0 |}.

Definition interactor_world
  : interview.create_interview_attempt_interactor.World
      interview.models.Database :=
  {| interview.create_interview_attempt_interactor.storage := db0;
     interview.create_interview_attempt_interactor.calls := [];
     interview.create_interview_attempt_interactor.clock := fun _ => noon;
     interview.create_interview_attempt_interactor.clock_reads := 0 |}.

Import scripts scripts.pathlib.

Definition root_dir : str := lit "/srv/app".
Definition models_py : Path := Path_ (lit "/srv/app/interview/models.py").
Definition init_py : Path := Path_ (lit "/srv/app/interview/__init__.py").
Definition views_py : Path := Path_ (lit "/srv/app/interview/views.py").
Definition cache_pyc : Path := Path_ (lit "/srv/app/interview/models.pyc").
Definition notes_txt : Path := Path_ (lit "/srv/app/notes.txt").
Definition readme_md : Path := Path_ (lit "/srv/app/README.md").
Definition venv_py : Path := Path_ (lit "/srv/app/venv/lib/site.py").

Definition embedding_body : JSON :=
  JObj [("data"%string,
         JArr [JObj [("embedding"%string,
                      JArr [JFloat (1 # 4); JFloat (3 # 4)])]])].

Definition chat_body : JSON :=
  JObj [("choices"%string,
         JArr [JObj [("message"%string,
                      JObj [("content"%string,
                             JStr (lit "1. Add the model"))])]])].

Definition embedding_url : str := lit "https://embed.example/embeddings".
Definition chat_url : str := lit "https://chat.example/completions".

(** An environment in which every service answers; [first_fails] makes the
    very first HTTP request of a run fail instead. *)
Definition make_env (first_fails : bool) : Env :=
  {| AZURE_OPENAI_TEXT_EMBEDDING_URL := Some embedding_url;
     AZURE_OPENAI_TEXT_EMBEDDING_API_KEY := Some (lit "k1");
     AZURE_OPEN_AI_CHAT_URL := Some chat_url;
     AZURE_OPEN_AI_CHAT_API_KEY := Some (lit "k2");
     script_dir := lit "/srv/tools/scripts";
     http := fun w req =>
       if first_fails && negb (nonempty (posted w))
       then Raise (LibraryError "HTTPError" (lit "503 Server Error"))
       else if bool_decide (url req = Some chat_url)
       then Ok chat_body
       else Ok embedding_body;
     weaviate_connect_fault := fun _ => None;
     weaviate_insert_fault := fun _ _ _ => None;
     weaviate_query_fault := fun _ _ _ => None;
     nearer := fun _ _ _ => true;
     glob_all := fun _ => [views_py; init_py; notes_txt; models_py];
     is_file := fun _ => true;
     read_text := fun p =>
       if bool_decide (p = init_py) then Ok (lit "  " ++ nl)
       else Ok (lit "import os" ++ nl);
     makedirs_fault := fun _ _ => None;
     write_fault := fun _ _ => None;
     write_text_fault := fun _ _ _ => None;
     SYSTEM_PROMPT_before := lit "### Task Planning" ++ nl;
     SYSTEM_PROMPT_after := nl ++ lit "#### Output Requirements";
     repr := fun _ => lit "..." |}.

Definition env_ok : Env := make_env false.
Definition env_flaky : Env := make_env true.

Definition stored (path text : string) : WeaviateObject :=
  {| properties := {| file_path := lit path; content := lit text |};
     vector := JArr [JFloat (1 # 2)] |}.

Definition world0 : World :=
  {| stdin := [lit "add an interview model"];
     stdout := [];
     files := ∅;
     directories := ∅;
     clock := fun _ => noon;
     clock_reads := 0;
     posted := [];
     opened := [];
     collection := [stored "interview/models.py" "class Interview: pass";
                    stored "interview/views.py" "def index(): pass"];
     clients_open := 0 |}.

End examples.

(* ===================================================================== *)
(** * Further code of the sources, and what is said about it *)
(* ===================================================================== *)

Module interview_more.
Import Py interview.

(** The consistency the [interview] tables are meant to keep: attempt
    identifiers are distinct, and every attempt refers to a stored
    interview. *)
Definition consistent (db : models.Database) : Prop :=
  NoDup (map models.InterviewAttempt.id (models.InterviewAttempt_objects db)) /\
  Forall (fun r => In (models.InterviewAttempt.interview_id r)
                     (map models.Interview.id (models.Interview_objects db)))
    (models.InterviewAttempt_objects db).

(** The DTO the adapter builds from one row. *)
Definition dto_of_row (lib : models.UuidLib)
  (interview : models.Interview.row) : dtos.InterviewDTO :=
  {| dtos.id := models.str_of_UUID lib (models.Interview.id interview);
     dtos.title := models.Interview.title interview;
     dtos.description := models.Interview.description interview;
     dtos.duration :=
       storage_implementation.int_total_seconds
         (models.Interview.duration interview) |}.

(** The interactor with the database adapter injected. *)
Definition create_on_database (lib : models.UuidLib)
  (interview_id user_id : str)
  : M (create_interview_attempt_interactor.World models.Database) unit :=
  @create_interview_attempt_interactor.create_interview_attempt
    models.Database (storage_implementation.StorageImplementation lib)
    interview_id user_id.

(** A storage that cannot be reached: every operation raises. *)
Definition unreachable : exn :=
  LibraryError "OperationalError" (lit "could not connect to server").

#[global] Instance OfflineStorage
  : storage_interface.InterviewStorageInterface unit := {|
  storage_interface.created := str;
  storage_interface.get_interview_details := fun _ => raise unreachable;
  storage_interface.create_interview_attempt := fun _ => raise unreachable
|}.

Definition offline_world : create_interview_attempt_interactor.World unit :=
  {| create_interview_attempt_interactor.storage := tt;
     create_interview_attempt_interactor.calls := [];
     create_interview_attempt_interactor.clock := fun _ => examples.noon;
     create_interview_attempt_interactor.clock_reads := 0 |}.

End interview_more.

Module scripts_more.
Import Py scripts scripts.pathlib.

(** ** scripts/search_code_base.py, [main] *)
Module search_main.
Section WithEnv.
Context (env : Env).

Fixpoint uint_str (u : Decimal.uint) : str :=
  match u with
  | Decimal.Nil => []
  | Decimal.D0 u => 48%N :: uint_str u
  | Decimal.D1 u => 49%N :: uint_str u
  | Decimal.D2 u => 50%N :: uint_str u
  | Decimal.D3 u => 51%N :: uint_str u
  | Decimal.D4 u => 52%N :: uint_str u
  | Decimal.D5 u => 53%N :: uint_str u
  | Decimal.D6 u => 54%N :: uint_str u
  | Decimal.D7 u => 55%N :: uint_str u
  | Decimal.D8 u => 56%N :: uint_str u
  | Decimal.D9 u => 57%N :: uint_str u
  end.

(** [str(i)] for a natural number. *)
Definition str_of_nat (i : nat) : str := uint_str (Nat.to_uint i).

(** The line the handler of [main] prints. *)
Definition search_error (e : exn) : str :=
  lit "Error during search: " ++ str_of_exn e.

(** The body of the [for] loop of [main], from index [i] on. *)
Fixpoint print_results (i : nat) (results : list (list (string * str)))
  : M World unit :=
  match results with
  | [] => mret tt
  | result :: rest =>
      fp ← lift_result (generate_task_plan.result_getitem result "file_path");
      print (nl ++ str_of_nat i ++ lit ". File: " ++ fp);;
      print (lit "Content:");;
      print (repeat 45%N 40);;
      c ← lift_result (generate_task_plan.result_getitem result "content");
      print c;;
      print (repeat 45%N 80);;
      print_results (S i) rest
  end.

(** The body of the [try] of [main]. *)
Definition search_and_show (query : str) : M World unit :=
  results ← search_code_base.search_code_base env query None;
  print (nl ++ lit "Search Query: " ++ query);;
  print (nl ++ lit "Matching Files:");;
  print (repeat 45%N 80);;
  print_results 1 results.

Definition main : M World unit :=
  query ← input (lit "Enter your search query: ");
  try_except (search_and_show query) (fun e => print (search_error e)).

End WithEnv.
End search_main.

(** ** scripts/index_code_base.py, [init_weaviate_collection] and [main] *)
Module index_main.

Inductive DataType := TEXT.

(** What [collections.create] is told about a collection: its properties
    and its vectorizer ([None] for [Configure.Vectorizer.none()]). *)
Record CollectionConfig := {
  config_properties : list (string * DataType);
  config_vectorizer : option str
}.

(** The vector store as [init_weaviate_collection] sees it: the world of
    the scripts, and the collections of the cluster by name. *)
Record Cluster := {
  cluster_world : World;
  cluster_collections : gmap (list N) CollectionConfig
}.

(** Whether [collections.list_all] or [collections.create] raises. *)
Record SchemaEnv := {
  list_all_fault : Cluster -> option exn;
  create_fault : Cluster -> str -> option exn
}.

(** Run a computation of the scripts' world inside the cluster. *)
Definition in_world {A} (m : M World A) : M Cluster A :=
  fun c =>
    match m (cluster_world c) with
    | (r, w') =>
        (r, {| cluster_world := w';
               cluster_collections := cluster_collections c |})
    end.

Definition raise_when (fault : Cluster -> option exn) : M Cluster unit :=
  fun c =>
    match fault c with
    | Some e => (Raise e, c)
    | None => (Ok tt, c)
    end.

Section WithEnv.
Context (env : Env) (senv : SchemaEnv).

(** [client.collections.list_all()] *)
Definition collections_list_all : M Cluster (gmap (list N) CollectionConfig) :=
  raise_when (list_all_fault senv);;
  gets cluster_collections.

(** [client.collections.create(name=..., ...)]: the cluster refuses a name
    it already has. *)
Definition collections_create (name : str) (config : CollectionConfig)
  : M Cluster unit :=
  raise_when (fun c => create_fault senv c name);;
  existing ← gets cluster_collections;
  match existing !! name with
  | Some _ =>
      raise (LibraryError "UnexpectedStatusCodeError"
               (lit "Collection may not have been created properly"))
  | None =>
      modify (fun c =>
                {| cluster_world := cluster_world c;
                   cluster_collections :=
                     <[ name := config ]> (cluster_collections c) |})
  end.

Definition CodeFile_config : CollectionConfig :=
  {| config_properties := [("file_path"%string, TEXT);
                           ("content"%string, TEXT)];
     config_vectorizer := None |}.

Definition init_weaviate_collection : M Cluster unit :=
  let collection_name := lit "CodeFile" in
  existing ← collections_list_all;
  match existing !! collection_name with
  | None =>
      collections_create collection_name CodeFile_config;;
      in_world (print (lit "Collection 'CodeFile' created successfully"))
  | Some _ =>
      in_world (print (lit "Collection 'CodeFile' already exists"))
  end.

(** [create_weaviate_client] of index_code_base.py, the same code as in
    search_code_base.py. *)
Definition create_weaviate_client : M World unit :=
  raise_if (weaviate_connect_fault env);;
  modify search_code_base.connected.

(** [main], with [DJANGO_ROOT] as [os.getenv] gave it: [Path(None)], the
    first statement of [index_code_base], raises [TypeError]. *)
Definition main (DJANGO_ROOT : option str) : M Cluster unit :=
  in_world create_weaviate_client;;
  init_weaviate_collection;;
  match DJANGO_ROOT with
  | Some root_dir => in_world (index_code_base.index_code_base env root_dir)
  | None =>
      raise (LibraryError "TypeError"
               (lit "expected str, bytes or os.PathLike object, not NoneType"))
  end.

End WithEnv.
End index_main.

(** ** Notions used in the statements *)

(** What the indexing loop may store for the files [ps] under [root]: the
    text of an eligible file, not blank, under its path relative to the
    root, with a vector that counts as true. *)
Definition indexed_from (env : Env) (root : Path) (ps : list Path)
  (o : WeaviateObject) : Prop :=
  truthy (vector o) = true /\
  strip (content (properties o)) <> [] /\
  exists p rel,
    In p ps /\
    index_code_base.should_process_the_file env p = true /\
    read_text env p = Ok (content (properties o)) /\
    relative_to p root = Ok rel /\
    file_path (properties o) = to_str rel.

(** The ranges [datetime] keeps its fields in. *)
Definition valid_datetime (d : datetime) : Prop :=
  (1 <= year d <= 9999 /\ 1 <= month d <= 12 /\ 1 <= day d <= 31 /\
   hour d <= 23 /\ minute d <= 59 /\ second d <= 59)%N.

(** Two times in the same second. *)
Definition same_second (d d' : datetime) : Prop :=
  year d = year d' /\ month d = month d' /\ day d = day d' /\
  hour d = hour d' /\ minute d = minute d' /\ second d = second d'.

(** The name of the collection. *)
Definition CodeFile : str := lit "CodeFile".

(** [KeyError(key)], as a failed subscript raises it. *)
Definition KeyError (key : string) : exn :=
  LibraryError "KeyError" (quote ++ lit key ++ quote).

(** A result dict has the two keys [format_code_context] reads. *)
Definition has_both_keys (result : list (string * str)) : Prop :=
  is_Some (assoc "file_path" result) /\ is_Some (assoc "content" result).

(** ** More concrete environments *)

(** [env] with another HTTP service and another answer of [open(.., 'w')]. *)
Definition env_with (http' : World -> Request -> result JSON)
  (write_fault' : World -> str -> option exn) (env : Env) : Env :=
  {| AZURE_OPENAI_TEXT_EMBEDDING_URL := AZURE_OPENAI_TEXT_EMBEDDING_URL env;
     AZURE_OPENAI_TEXT_EMBEDDING_API_KEY :=
       AZURE_OPENAI_TEXT_EMBEDDING_API_KEY env;
     AZURE_OPEN_AI_CHAT_URL := AZURE_OPEN_AI_CHAT_URL env;
     AZURE_OPEN_AI_CHAT_API_KEY := AZURE_OPEN_AI_CHAT_API_KEY env;
     script_dir := script_dir env;
     http := http';
     weaviate_connect_fault := weaviate_connect_fault env;
     weaviate_insert_fault := weaviate_insert_fault env;
     weaviate_query_fault := weaviate_query_fault env;
     nearer := nearer env;
     glob_all := glob_all env;
     is_file := is_file env;
     read_text := read_text env;
     makedirs_fault := makedirs_fault env;
     write_fault := write_fault';
     write_text_fault := write_text_fault env;
     SYSTEM_PROMPT_before := SYSTEM_PROMPT_before env;
     SYSTEM_PROMPT_after := SYSTEM_PROMPT_after env;
     repr := repr env |}.

(** The embedding service answers with an empty [data] list. *)
Definition env_no_data : Env :=
  env_with (fun _ _ => Ok (JObj [("data"%string, JArr [])]))
    (fun _ _ => None) examples.env_ok.

(** The embedding service answers with an empty vector. *)
Definition env_empty_vector : Env :=
  env_with (fun _ _ =>
              Ok (JObj [("data"%string,
                         JArr [JObj [("embedding"%string, JArr [])]])]))
    (fun _ _ => None) examples.env_ok.

(** Every service answers, but the markdown file cannot be opened. *)
Definition env_read_only : Env :=
  env_with (http examples.env_ok)
    (fun _ _ => Some (LibraryError "PermissionError" (lit "Permission denied")))
    examples.env_ok.

(** Every service answers but the chat service, which is down. *)
Definition env_chat_down : Env :=
  env_with (fun w req =>
              if bool_decide (url req = Some examples.chat_url)
              then Raise (LibraryError "ConnectionError"
                            (lit "Connection refused"))
              else http examples.env_ok w req)
    (fun _ _ => None) examples.env_ok.

(** [env] with another fate of [f.write]. *)
Definition env_with_write_text
  (write_text_fault' : World -> str -> str -> option (exn * str))
  (env : Env) : Env :=
  {| AZURE_OPENAI_TEXT_EMBEDDING_URL := AZURE_OPENAI_TEXT_EMBEDDING_URL env;
     AZURE_OPENAI_TEXT_EMBEDDING_API_KEY :=
       AZURE_OPENAI_TEXT_EMBEDDING_API_KEY env;
     AZURE_OPEN_AI_CHAT_URL := AZURE_OPEN_AI_CHAT_URL env;
     AZURE_OPEN_AI_CHAT_API_KEY := AZURE_OPEN_AI_CHAT_API_KEY env;
     script_dir := script_dir env;
     http := http env;
     weaviate_connect_fault := weaviate_connect_fault env;
     weaviate_insert_fault := weaviate_insert_fault env;
     weaviate_query_fault := weaviate_query_fault env;
     nearer := nearer env;
     glob_all := glob_all env;
     is_file := is_file env;
     read_text := read_text env;
     makedirs_fault := makedirs_fault env;
     write_fault := write_fault env;
     write_text_fault := write_text_fault';
     SYSTEM_PROMPT_before := SYSTEM_PROMPT_before env;
     SYSTEM_PROMPT_after := SYSTEM_PROMPT_after env;
     repr := repr env |}.

(** Every service answers and the markdown file can be opened, but the
    disk is full: writing raises and the file is left empty. *)
Definition env_disk_full : Env :=
  env_with_write_text
    (fun _ _ _ =>
       Some (LibraryError "OSError" (lit "No space left on device"), []))
    examples.env_ok.

(** [env] with another directory walk. *)
Definition env_with_glob (glob' : Path -> list Path) (env : Env) : Env :=
  {| AZURE_OPENAI_TEXT_EMBEDDING_URL := AZURE_OPENAI_TEXT_EMBEDDING_URL env;
     AZURE_OPENAI_TEXT_EMBEDDING_API_KEY :=
       AZURE_OPENAI_TEXT_EMBEDDING_API_KEY env;
     AZURE_OPEN_AI_CHAT_URL := AZURE_OPEN_AI_CHAT_URL env;
     AZURE_OPEN_AI_CHAT_API_KEY := AZURE_OPEN_AI_CHAT_API_KEY env;
     script_dir := script_dir env;
     http := http env;
     weaviate_connect_fault := weaviate_connect_fault env;
     weaviate_insert_fault := weaviate_insert_fault env;
     weaviate_query_fault := weaviate_query_fault env;
     nearer := nearer env;
     glob_all := glob';
     is_file := is_file env;
     read_text := read_text env;
     makedirs_fault := makedirs_fault env;
     write_fault := write_fault env;
     write_text_fault := write_text_fault env;
     SYSTEM_PROMPT_before := SYSTEM_PROMPT_before env;
     SYSTEM_PROMPT_after := SYSTEM_PROMPT_after env;
     repr := repr env |}.

(** A project kept under a directory named [scripts]. *)
Definition scripts_root : str := lit "/home/dev/scripts/app".

Definition env_under_scripts : Env :=
  env_with_glob
    (fun _ => [Path_ (lit "/home/dev/scripts/app/manage.py");
               Path_ (lit "/home/dev/scripts/app/interview/models.py")])
    examples.env_ok.

(** A cluster without collections, in which nothing fails. *)
Definition cluster0 : index_main.Cluster :=
  {| index_main.cluster_world := examples.world0;
     index_main.cluster_collections := ∅ |}.

Definition senv_ok : index_main.SchemaEnv :=
  {| index_main.list_all_fault := fun _ => None;
     index_main.create_fault := fun _ _ => None |}.

End scripts_more.

(* ===================================================================== *)
(** * Theorems: the [interview] app *)
(* ===================================================================== *)

(** Unfold the monad of [Py] down to functions on worlds. *)
Ltac run_monad :=
  unfold mbind, mret, Py.M_bind, Py.M_ret, Py.bind, Py.ret, Py.raise,
    Py.modify, Py.gets, Py.try_except, Py.try_finally in *.

Module interview_theory.
Import Py interview.
Import interview.create_interview_attempt_interactor.

Section AnyStorage.
Context {S : Type} `{I : storage_interface.InterviewStorageInterface S}.

(** The lookup of [validate_interview_details] is recorded and run on the
    injected storage; nothing else happens before its answer is tested. *)
Lemma validate_interview_details_run (w : World S) (interview_id : str) :
  validate_interview_details interview_id w =
  let '(r, s') :=
    storage_interface.get_interview_details [interview_id] (storage w) in
  let w' := {| storage := s';
               calls := calls w ++ [Called_get_interview_details [interview_id]];
               clock := clock w; clock_reads := clock_reads w |} in
  match r with
  | Ok [] => (Raise InvalidInterviewIdException, w')
  | Ok (_ :: _) => (Ok tt, w')
  | Raise e => (Raise e, w')
  end.
Proof.
  unfold validate_interview_details, storage_get_interview_details,
    record_call, on_storage.
  run_monad. simpl.
  destruct (storage_interface.get_interview_details _ _) as [[l | e] s'];
    [destruct l |]; reflexivity.
Qed.

Lemma create_calls_app (cs ds : list StorageCall) :
  create_calls (cs ++ ds) = create_calls cs ++ create_calls ds.
Proof. unfold create_calls. apply flat_map_app. Qed.

(** C1. When the storage lookup for [[interview_id]] returns the empty
    list, [create_interview_attempt] raises [InvalidInterviewIdException];
    the only call recorded on the storage is the lookup, so the storage's
    [create_interview_attempt] is not called, and the storage is left as the
    lookup left it: no attempt is persisted. *)
Theorem create_interview_attempt_rejects_unknown_interview
  (w : World S) (interview_id user_id : str) (s' : S) :
  storage_interface.get_interview_details [interview_id] (storage w)
    = (Ok [], s') ->
  exists w',
    create_interview_attempt interview_id user_id w
      = (Raise InvalidInterviewIdException, w') /\
    calls w' = calls w ++ [Called_get_interview_details [interview_id]] /\
    create_calls (calls w') = create_calls (calls w) /\
    storage w' = s' /\
    clock_reads w' = clock_reads w.
Proof.
  intros Hget.
  pose proof (validate_interview_details_run w interview_id) as Hv.
  rewrite Hget in Hv. simpl in Hv.
  eexists. unfold create_interview_attempt. run_monad.
  rewrite Hv. split; [reflexivity |]. simpl.
  repeat split.
  rewrite create_calls_app. simpl. apply app_nil_r.
Qed.

(** C2. When the storage lookup finds the interview (a non-empty list),
    exactly one attempt record is built and handed to the storage's
    [create_interview_attempt]: it carries the two identifiers, the current
    time as [start_datetime], and [None] for [end_datetime] and
    [scheduled_end_datetime]. The storage is left as that call left it, and
    the interactor returns nothing ([Ok tt]) once the storage call returns;
    what the storage returns is dropped. *)
Theorem create_interview_attempt_builds_one_attempt
  (w : World S) (interview_id user_id : str)
  (found : list dtos.InterviewDTO) (s1 : S) :
  storage_interface.get_interview_details [interview_id] (storage w)
    = (Ok found, s1) ->
  found <> [] ->
  let dto :=
    {| dtos.interview_id := interview_id;
       dtos.user_id := user_id;
       dtos.start_datetime := clock w (clock_reads w);
       dtos.end_datetime := None;
       dtos.scheduled_end_datetime := None |} in
  exists r w',
    create_interview_attempt interview_id user_id w = (r, w') /\
    calls w' = calls w ++ [Called_get_interview_details [interview_id];
                           Called_create_interview_attempt dto] /\
    create_calls (calls w') = create_calls (calls w) ++ [dto] /\
    storage w' = snd (storage_interface.create_interview_attempt dto s1) /\
    r = match fst (storage_interface.create_interview_attempt dto s1) with
        | Ok _ => Ok tt
        | Raise e => Raise e
        end.
Proof.
  intros Hget Hne dto.
  pose proof (validate_interview_details_run w interview_id) as Hv.
  rewrite Hget in Hv. simpl in Hv.
  destruct found as [| d found']; [congruence |].
  unfold create_interview_attempt, storage_create_interview_attempt,
    datetime_now, record_call, on_storage.
  run_monad. rewrite Hv. simpl. fold dto.
  destruct (storage_interface.create_interview_attempt dto s1)
    as [[c | e] s2]; simpl;
    (eexists; eexists; split; [reflexivity |]; simpl;
     rewrite <- app_assoc; simpl; repeat split;
     rewrite create_calls_app; reflexivity).
Qed.

End AnyStorage.

(** C1 at a concrete input: the database [examples.db0] holds one
    interview, and the identifier asked for is the UUID of another. *)
Lemma create_interview_attempt_rejects_unknown_interview_witness :
  storage_interface.get_interview_details [examples.interview_2]
    (storage examples.interactor_world) = (Ok [], examples.db0) /\
  exists w',
    create_interview_attempt examples.interview_2 (lit "user-7")
      examples.interactor_world = (Raise InvalidInterviewIdException, w') /\
    calls w' = calls examples.interactor_world ++
               [Called_get_interview_details [examples.interview_2]] /\
    create_calls (calls w') = create_calls (calls examples.interactor_world) /\
    storage w' = examples.db0 /\
    clock_reads w' = clock_reads examples.interactor_world.
Proof.
  split; [vm_compute; reflexivity |].
  apply (create_interview_attempt_rejects_unknown_interview
           examples.interactor_world examples.interview_2 (lit "user-7")
           examples.db0).
  vm_compute. reflexivity.
Defined.

(** C2 at a concrete input: the interview of [examples.db0] is asked for. *)
Lemma create_interview_attempt_builds_one_attempt_witness :
  let found := fst (storage_interface.get_interview_details
                      [examples.interview_1] examples.db0) in
  let dto :=
    {| dtos.interview_id := examples.interview_1;
       dtos.user_id := lit "user-7";
       dtos.start_datetime := examples.noon;
       dtos.end_datetime := None;
       dtos.scheduled_end_datetime := None |} in
  found <> Ok [] /\
  exists r w',
    create_interview_attempt examples.interview_1 (lit "user-7")
      examples.interactor_world = (r, w') /\
    calls w' = calls examples.interactor_world ++
               [Called_get_interview_details [examples.interview_1];
                Called_create_interview_attempt dto] /\
    create_calls (calls w')
      = create_calls (calls examples.interactor_world) ++ [dto] /\
    storage w' = snd (storage_interface.create_interview_attempt dto
                        examples.db0) /\
    r = match fst (storage_interface.create_interview_attempt dto
                     examples.db0) with
        | Ok _ => Ok tt
        | Raise e => Raise e
        end.
Proof.
  split; [vm_compute; discriminate |].
  eapply (create_interview_attempt_builds_one_attempt
            examples.interactor_world examples.interview_1 (lit "user-7")).
  - vm_compute. reflexivity.
  - discriminate.
Defined.

Import models storage_implementation.

(** The adapter's lookup reads the database and leaves it as it was. *)
Lemma get_interview_details_reads_only (lib : UuidLib) (ids : list str)
  (db : Database) :
  snd (get_interview_details lib ids db) = db.
Proof.
  unfold get_interview_details, Interview_objects_filter_id_in, of_result.
  run_monad. destruct (prepare_ids lib ids); reflexivity.
Qed.

(** C9. The keyword arguments of the insert are [interview_id], [user_id],
    [start_datetime] and [end_datetime], and nothing else:
    [scheduled_end_datetime] is not passed. So replacing the DTO's
    [scheduled_end_datetime] by any other value changes neither the result
    nor the database, and a row that is inserted has no
    [scheduled_end_datetime]. (The row's [id] is the UUID whose text is
    returned, and its [interview_id] the UUID the DTO's string spells.) *)
Theorem create_interview_attempt_drops_scheduled_end
  (lib : UuidLib) (dto : dtos.InterviewAttemptDTO) :
  create_kwargs dto =
    {| InterviewAttempt.kw_id := None;
       InterviewAttempt.kw_interview_id := Some (dtos.interview_id dto);
       InterviewAttempt.kw_user_id := Some (dtos.user_id dto);
       InterviewAttempt.kw_start_datetime := Some (dtos.start_datetime dto);
       InterviewAttempt.kw_end_datetime := Some (dtos.end_datetime dto);
       InterviewAttempt.kw_scheduled_end_datetime := None |} /\
  (forall (v : option datetime) (db : Database),
     create_interview_attempt lib (dtos.with_scheduled_end dto v) db
       = create_interview_attempt lib dto db) /\
  (forall (db db' : Database) (new_id : str),
     create_interview_attempt lib dto db = (Ok new_id, db') ->
     exists r,
       InterviewAttempt_objects db' = InterviewAttempt_objects db ++ [r] /\
       str_of_UUID lib (InterviewAttempt.id r) = new_id /\
       UUID_of_hex lib (dtos.interview_id dto)
         = Some (InterviewAttempt.interview_id r) /\
       InterviewAttempt.user_id r = dtos.user_id dto /\
       InterviewAttempt.end_datetime r = dtos.end_datetime dto /\
       InterviewAttempt.scheduled_end_datetime r = None).
Proof.
  split; [reflexivity |]. split; [reflexivity |].
  intros db db' new_id.
  unfold create_interview_attempt, InterviewAttempt_objects_create,
    create_kwargs, draw_uuid4, read_timezone_now, current_database,
    insert_attempt, of_result, to_python.
  run_monad. simpl.
  destruct (dtos.interview_id dto) as [| c value]; [discriminate |].
  destruct (UUID_of_hex lib (c :: value)) as [u |]; [| discriminate].
  simpl. destruct (negb _); [discriminate |].
  destruct (uuid_mem _ _); [discriminate |].
  intros Heq. injection Heq as <- <-. simpl.
  eexists. repeat split.
Qed.

(** C9 at a concrete input: an attempt inserted into [examples.db0] from a
    DTO that carries a [scheduled_end_datetime]. *)
Lemma create_interview_attempt_drops_scheduled_end_witness :
  let dto :=
    {| dtos.interview_id := examples.interview_1;
       dtos.user_id := lit "user-7";
       dtos.start_datetime := examples.noon;
       dtos.end_datetime := None;
       dtos.scheduled_end_datetime := Some examples.noon |} in
  exists r,
    InterviewAttempt_objects
      (snd (create_interview_attempt examples.uuid_lib dto examples.db0))
      = [r] /\
    InterviewAttempt.id r = examples.first_attempt /\
    InterviewAttempt.interview_id r = examples.uuid_1 /\
    InterviewAttempt.scheduled_end_datetime r = None.
Proof.
  intros dto.
  destruct (create_interview_attempt_drops_scheduled_end examples.uuid_lib dto)
    as (_ & _ & Hrow).
  destruct (Hrow examples.db0
              (snd (create_interview_attempt examples.uuid_lib dto
                      examples.db0))
              (lit "aaaaaaaa-aaaa-4aaa-8aaa-aaaaaaaaaaaa"))
    as (r & Hr & Hid & Hiid & _ & _ & Hs).
  - vm_compute. reflexivity.
  - exists r. split; [exact Hr |].
    assert (Hr' : InterviewAttempt_objects
                    (snd (create_interview_attempt examples.uuid_lib dto
                            examples.db0))
                  = [ {| InterviewAttempt.id := examples.first_attempt;
                         InterviewAttempt.interview_id := examples.uuid_1;
                         InterviewAttempt.user_id := lit "user-7";
                         InterviewAttempt.start_datetime := examples.noon;
                         InterviewAttempt.end_datetime := None;
                         InterviewAttempt.scheduled_end_datetime := None |} ])
      by (vm_compute; reflexivity).
    rewrite Hr' in Hr. injection Hr as <-. repeat split.
Defined.

End interview_theory.

(* ===================================================================== *)
(** * Theorems: the scripts *)
(* ===================================================================== *)

(** Case analysis on the innermost scrutinee of the goal. *)
Ltac break_match :=
  match goal with
  | |- context [match ?x with _ => _ end] =>
      lazymatch x with
      | context [match _ with _ => _ end] => fail
      | _ => destruct x eqn:?
      end
  end.

Module scripts_theory.
Import Py scripts scripts.pathlib.

(** ** Text *)

Lemma startswith_spec (p s : str) :
  startswith p s = true <-> exists post, s = p ++ post.
Proof.
  revert s. induction p as [| a p IH]; intros s; simpl.
  - split; [intros _; exists s; reflexivity | reflexivity].
  - destruct s as [| b s]; simpl.
    + split; [discriminate | intros [post H]; discriminate].
    + rewrite andb_true_iff, N.eqb_eq, IH. split.
      * intros [-> [post ->]]. exists post. reflexivity.
      * intros [post H]. injection H as -> ->. eauto.
Qed.

(** Python's [in] on strings decides [substring]. *)
Lemma str_in_spec (sub s : str) :
  str_in sub s = true <-> substring sub s.
Proof.
  unfold substring. induction s as [| c s IH]; simpl.
  - rewrite orb_false_r, startswith_spec. split.
    + intros [post H]. exists [], post. exact H.
    + intros [pre [post H]]. destruct pre; [eauto |]. discriminate.
  - rewrite orb_true_iff, startswith_spec, IH. split.
    + intros [[post H] | [pre [post H]]].
      * exists [], post. exact H.
      * exists (c :: pre), post. simpl. congruence.
    + intros [[| c' pre] [post H]].
      * left. exists post. exact H.
      * right. injection H as -> ->. eauto.
Qed.

Lemma substring_here (sub post : str) : substring sub (sub ++ post).
Proof. exists [], post. reflexivity. Qed.

Lemma substring_app_r (sub pre s : str) :
  substring sub s -> substring sub (pre ++ s).
Proof.
  intros [a [b ->]]. exists (pre ++ a), b. rewrite <- app_assoc. reflexivity.
Qed.

(** ** The indexing loop *)
Section Indexing.
Import index_code_base.
Context (env : Env).

Ltac unfold_index :=
  unfold index_step, index_file, get_azure_embedding, collection_data_insert,
    open_and_read, requests_post, lift_result, raise_if, print, printed in *.

Lemma excluded_spec (p : Path) :
  existsb
    (fun excluded_dir =>
       existsb (fun part => bool_decide (excluded_dir = part)) (parts p))
    excluded_dirs = false <->
  (forall part, In part (parts p) ->
     part <> lit "scripts" /\ part <> lit "venv" /\ part <> lit ".specstory").
Proof.
  unfold excluded_dirs. simpl. rewrite !orb_false_iff.
  assert (Hone : forall d : str,
    existsb (fun part => bool_decide (d = part)) (parts p) = false <->
    forall part, In part (parts p) -> part <> d).
  { intros d. induction (parts p) as [| x l IH]; simpl.
    - split; [intros _ part [] | reflexivity].
    - rewrite orb_false_iff, bool_decide_eq_false, IH. split.
      + intros [Hx Hl] part [<- | Hin]; [congruence | auto].
      + intros H. split;
          [intros ->; apply (H x); auto | intros; apply H; auto]. }
  rewrite !Hone. split.
  - intros (H1 & H2 & H3 & _) part Hin. auto.
  - intros H. repeat split; try (intros part Hin; apply (H part Hin)).
Qed.

(** The body of the [try] opens its file, whatever happens next. *)
Lemma index_file_opened (root p : Path) (w : World) :
  opened (snd (index_file env root p w)) = opened w ++ [p].
Proof.
  unfold_index. run_monad. simpl.
  repeat (break_match; simpl; try reflexivity).
Qed.

(** A turn of the loop never raises. *)
Lemma index_step_ok (root p : Path) (w : World) :
  fst (index_step env root p w) = Ok tt.
Proof.
  unfold index_step. destruct (negb _); [reflexivity |].
  unfold try_except. destruct (index_file env root p w) as [[[] | e] w'];
    reflexivity.
Qed.

Lemma index_step_opened (root p : Path) (w : World) :
  opened (snd (index_step env root p w)) =
  opened w ++ (if should_process_the_file env p then [p] else []).
Proof.
  unfold index_step. destruct (should_process_the_file env p); simpl.
  - pose proof (index_file_opened root p w) as H.
    unfold try_except. destruct (index_file env root p w) as [[[] | e] w'];
      simpl in *; exact H.
  - symmetry. apply app_nil_r.
Qed.

Lemma index_files_cons (root p : Path) (rest : list Path) (w : World) :
  index_files env root (p :: rest) w =
  index_files env root rest (snd (index_step env root p w)).
Proof.
  simpl. run_monad. pose proof (index_step_ok root p w) as H.
  destruct (index_step env root p w) as [[[] | e] w']; simpl in *;
    [reflexivity | discriminate].
Qed.




(** A failed embedding call makes the body of the [try] raise. *)
Lemma index_file_embedding_failure (root p : Path) (w : World)
  (text : str) (e : exn) :
  read_text env p = Ok text ->
  strip text <> [] ->
  http env (set_opened (fun l => l ++ [p]) w) (embedding_request env text)
    = Raise e ->
  exists w2,
    index_file env root p w
      = (Raise (Exception (lit "Failed to get embedding")), w2) /\
    collection w2 = collection w.
Proof.
  intros Hr Hs Hh. unfold_index. run_monad. simpl. rewrite Hr.
  destruct (strip text) as [| c t]; [congruence |]. simpl.
  rewrite Hh. simpl. eexists. split; reflexivity.
Qed.

(** A raising insert makes the body of the [try] raise, and stores
    nothing. *)
Lemma index_file_insert_failure (root p : Path) (w w1 : World)
  (text : str) (v : JSON) (rel : Path) (e : exn) :
  read_text env p = Ok text ->
  strip text <> [] ->
  get_azure_embedding env text (set_opened (fun l => l ++ [p]) w)
    = (Ok v, w1) ->
  truthy v = true ->
  relative_to p root = Ok rel ->
  weaviate_insert_fault env w1
    {| file_path := to_str rel; content := text |} v = Some e ->
  index_file env root p w = (Raise e, w1).
Proof.
  intros Hr Hs Hg Ht Hrel Hf.
  unfold index_file, collection_data_insert, open_and_read, lift_result,
    raise_if.
  run_monad. simpl. rewrite Hr.
  destruct (strip text) as [| c t]; [congruence |]. simpl.
  rewrite Hg, Ht, Hrel. simpl. rewrite Hf. reflexivity.
Qed.



(** C5. A file whose text is empty once stripped is skipped: the turn of
    the loop returns normally, no HTTP request is sent (so no embedding call
    is made), nothing is added to the collection, and nothing is printed.
    An eligible file was only opened and read; any other file was not even
    opened. *)
Theorem index_code_base_skips_blank_file
  (root p : Path) (w : World) (text : str) :
  read_text env p = Ok text ->
  strip text = [] ->
  exists w',
    index_step env root p w = (Ok tt, w') /\
    posted w' = posted w /\
    collection w' = collection w /\
    stdout w' = stdout w /\
    opened w' = opened w ++ (if should_process_the_file env p then [p] else []).
Proof.
  intros Hr Hs. unfold_index. run_monad.
  destruct (should_process_the_file env p); simpl.
  - rewrite Hr, Hs. simpl. eexists. repeat split.
  - eexists. repeat split. simpl. symmetry. apply app_nil_r.
Qed.

(** C10. [should_process_the_file] holds exactly when the path is a
    regular file, [".py"] occurs in its suffix, and no part of the path is
    ["scripts"], ["venv"] or [".specstory"]; a turn of the loop opens the
    file exactly in that case. So [".py"] and [".pyc"] files qualify, and
    [".txt"] and [".md"] files, or a [".py"] file under [venv], do not. *)
Theorem should_process_the_file_iff (p : Path) :
  (should_process_the_file env p = true <->
   is_file env p = true /\
   substring (lit ".py") (suffix p) /\
   (forall part, In part (parts p) ->
      part <> lit "scripts" /\ part <> lit "venv" /\
      part <> lit ".specstory")) /\
  (forall root w,
     opened (snd (index_step env root p w)) =
     opened w ++ (if should_process_the_file env p then [p] else [])) /\
  should_process_the_file examples.env_ok examples.models_py = true /\
  should_process_the_file examples.env_ok examples.cache_pyc = true /\
  should_process_the_file examples.env_ok examples.notes_txt = false /\
  should_process_the_file examples.env_ok examples.readme_md = false /\
  should_process_the_file examples.env_ok examples.venv_py = false.
Proof.
  split; [| split; [intros root w; apply index_step_opened |
                    vm_compute; repeat split]].
  unfold should_process_the_file.
  rewrite !andb_true_iff, negb_true_iff, str_in_spec, excluded_spec.
  tauto.
Qed.

End Indexing.


(** C5 at a concrete input: [__init__.py] holds two spaces and a newline. *)
Lemma index_code_base_skips_blank_file_witness :
  strip (lit "  " ++ nl) = [] /\
  exists w',
    index_code_base.index_step examples.env_ok (Path_ examples.root_dir)
      examples.init_py examples.world0 = (Ok tt, w') /\
    posted w' = posted examples.world0 /\
    collection w' = collection examples.world0 /\
    stdout w' = stdout examples.world0 /\
    opened w' = opened examples.world0 ++ [examples.init_py].
Proof.
  split; [reflexivity |].
  destruct (index_code_base_skips_blank_file examples.env_ok
              (Path_ examples.root_dir) examples.init_py examples.world0
              (lit "  " ++ nl))
    as (w' & Hrun & Hposted & Hcollection & Hstdout & Hopened).
  - vm_compute. reflexivity.
  - vm_compute. reflexivity.
  - exists w'. repeat split; assumption.
Defined.

(** ** Searching *)
Section Searching.
Import search_code_base.
Context (env : Env).

Lemma insert_by_perm {A} (le : A -> A -> bool) (x : A) (l : list A) :
  Permutation (insert_by le x l) (x :: l).
Proof.
  induction l as [| y l IH]; simpl; [reflexivity |].
  destruct (le x y); [reflexivity |].
  rewrite IH. apply perm_swap.
Qed.

Lemma sort_by_perm {A} (le : A -> A -> bool) (l : list A) :
  Permutation (sort_by le l) l.
Proof.
  induction l as [| x l IH]; simpl; [reflexivity |].
  rewrite insert_by_perm, IH. reflexivity.
Qed.

(** What a call of [get_vector_embedding] does to the world: the request is
    sent, and on failure the error is printed before it is raised again. *)
Lemma get_vector_embedding_frame (text : str) (w : World) :
  let '(r, w1) := get_vector_embedding env text w in
  w1 = match r with
       | Ok _ => set_posted (fun l => l ++ [embedding_request env text]) w
       | Raise e =>
           printed (lit "Error getting embeddings: " ++ str_of_exn e)
             (set_posted (fun l => l ++ [embedding_request env text]) w)
       end.
Proof.
  unfold get_vector_embedding, requests_post, lift_result, print, printed.
  run_monad. simpl.
  repeat (break_match; simpl; try reflexivity).
Qed.

(** [get_vector_embedding], by cases on what its request comes to: the
    value read is returned; an exception is printed and raised again. *)
Lemma get_vector_embedding_run (text : str) (w : World) :
  get_vector_embedding env text w =
  match answered env embedding_of w (embedding_request env text) with
  | Ok v => (Ok v, set_posted (fun l => l ++ [embedding_request env text]) w)
  | Raise e =>
      (Raise e,
       printed (lit "Error getting embeddings: " ++ str_of_exn e)
         (set_posted (fun l => l ++ [embedding_request env text]) w))
  end.
Proof.
  unfold get_vector_embedding, answered, embedding_of, requests_post,
    lift_result, print, printed.
  run_monad. simpl.
  destruct (http env w _) as [body | e]; [| reflexivity]. simpl.
  destruct (getitem_key body "data") as [data | e]; [| reflexivity]. simpl.
  destruct (getitem_0 data) as [first | e]; [| reflexivity]. simpl.
  destruct (getitem_key first "embedding"); reflexivity.
Qed.

(** [search_code_base], step by step. *)
Lemma search_code_base_run (query : str) (limit : option nat) (w : World) :
  search_code_base env query limit w =
  match get_vector_embedding env query w with
  | (Raise e, w1) => (Raise e, w1)
  | (Ok v, w1) =>
      match weaviate_connect_fault env w1 with
      | Some e => (Raise e, w1)
      | None =>
          match weaviate_query_fault env (connected w1) v (default 5 limit)
          with
          | Some e => (Raise e, closed (connected w1))
          | None =>
              (Ok (map match_of
                     (take (default 5 limit)
                        (sort_by (nearer env v) (collection w1)))),
               closed (connected w1))
          end
      end
  end.
Proof.
  unfold search_code_base, create_weaviate_client, near_vector, client_close,
    raise_if.
  run_monad.
  destruct (get_vector_embedding env query w) as [[v | e] w1]; [| reflexivity].
  destruct (weaviate_connect_fault env w1); [reflexivity |]. simpl.
  destruct (weaviate_query_fault env _ v _); reflexivity.
Qed.

(** C6. Let the embedding be obtained and the vector store answer. Then
    [search_code_base] returns a list of matches; leaving [limit] out is
    the same as passing 5; there are at most [limit] matches; every match
    is the dict of exactly the [file_path] and [content] of an object of
    the collection; and when the collection holds no more than [limit]
    objects (in particular fewer), the matches are those of all the
    objects, each once, with nothing added. *)
Theorem search_code_base_returns_at_most_limit
  (query : str) (limit : option nat) (w w1 : World) (v : JSON) :
  get_vector_embedding env query w = (Ok v, w1) ->
  weaviate_connect_fault env w1 = None ->
  weaviate_query_fault env (connected w1) v (default 5 limit) = None ->
  exists matches w',
    search_code_base env query limit w = (Ok matches, w') /\
    search_code_base env query None w = search_code_base env query (Some 5) w /\
    length matches <= default 5 limit /\
    (forall m, In m matches ->
       exists obj, In obj (collection w) /\
         m = [("file_path"%string, file_path (properties obj));
              ("content"%string, content (properties obj))]) /\
    (length (collection w) <= default 5 limit ->
       Permutation matches (map match_of (collection w)) /\
       length matches = length (collection w)).
Proof.
  intros Hemb Hconn Hq.
  pose proof (get_vector_embedding_frame query w) as Hfr.
  rewrite Hemb in Hfr.
  assert (Hcol : collection w1 = collection w) by (rewrite Hfr; reflexivity).
  eexists. eexists. split.
  { rewrite search_code_base_run, Hemb, Hconn, Hq. reflexivity. }
  split; [reflexivity |].
  rewrite Hcol. split.
  { rewrite length_map, length_take. lia. }
  split.
  { intros m Hin. apply in_map_iff in Hin as [obj [<- Hin]].
    exists obj. split; [| reflexivity].
    apply list_elem_of_In. apply list_elem_of_In in Hin.
    apply elem_of_take in Hin as (i & Hin & _).
    apply list_elem_of_lookup_2 in Hin.
    rewrite <- (sort_by_perm (nearer env v) (collection w)). exact Hin. }
  intros Hlen.
  assert (Hall : take (default 5 limit) (sort_by (nearer env v) (collection w))
                 = sort_by (nearer env v) (collection w)).
  { apply take_ge. rewrite (Permutation_length (sort_by_perm _ _)).
    exact Hlen. }
  rewrite Hall. split.
  - apply Permutation_map, sort_by_perm.
  - rewrite length_map. apply Permutation_length, sort_by_perm.
Qed.

End Searching.

(** C6 at a concrete input: two stored objects, the default limit. *)
Lemma search_code_base_returns_at_most_limit_witness :
  let query := lit "add an interview model" in
  let r := search_code_base.search_code_base examples.env_ok query None
             examples.world0 in
  exists matches,
    fst r = Ok matches /\
    length matches = 2 /\
    Permutation matches
      (map search_code_base.match_of (collection examples.world0)).
Proof.
  intros query r.
  destruct (search_code_base_returns_at_most_limit examples.env_ok query None
              examples.world0
              (snd (search_code_base.get_vector_embedding examples.env_ok
                      query examples.world0))
              (JArr [JFloat (1 # 4); JFloat (3 # 4)]))
    as (matches & w' & Hrun & _ & _ & _ & Hall).
  - vm_compute. reflexivity.
  - reflexivity.
  - reflexivity.
  - exists matches. subst r. rewrite Hrun. split; [reflexivity |].
    destruct Hall as [Hperm Hlen]; [vm_compute; lia |].
    split; [exact Hlen | exact Hperm].
Defined.

(** ** Planning *)
Section Planning.
Import search_code_base generate_task_plan.
Context (env : Env).

Lemma SYSTEM_PROMPT_format (code_context : str) :
  str_format (SYSTEM_PROMPT env) [("code"%string, code_context)]
  = Ok (spliced env code_context).
Proof.
  unfold SYSTEM_PROMPT, spliced. simpl. rewrite app_nil_r. reflexivity.
Qed.

(** The matches of a search always format: both keys are there. *)
Lemma format_code_context_matches (objs : list WeaviateObject) :
  format_code_context (map match_of objs) =
  Ok (join nl (map (fun o => block (file_path (properties o))
                                (content (properties o))) objs)).
Proof.
  unfold format_code_context.
  assert (H : formatted_results (map match_of objs) =
              Ok (map (fun o => block (file_path (properties o))
                                  (content (properties o))) objs)).
  { induction objs as [| o objs IH]; [reflexivity |].
    simpl. rewrite IH. reflexivity. }
  rewrite H. reflexivity.
Qed.

(** What a call of [get_chat_completion] does to the world. *)
Lemma get_chat_completion_frame (system_prompt user_query : str) (w : World) :
  let '(r, w1) := get_chat_completion env system_prompt user_query w in
  w1 = match r with
       | Ok _ =>
           set_posted
             (fun l => l ++ [chat_request env system_prompt user_query]) w
       | Raise e =>
           printed (lit "Error getting chat completion: " ++ str_of_exn e)
             (set_posted
                (fun l => l ++ [chat_request env system_prompt user_query]) w)
       end.
Proof.
  unfold get_chat_completion, requests_post, lift_result, print, printed.
  run_monad. simpl.
  repeat (break_match; simpl; try reflexivity).
Qed.

(** [get_chat_completion], by cases on what its request comes to: the
    value read is returned; an exception is printed and raised again. *)
Lemma get_chat_completion_run (system_prompt user_query : str) (w : World) :
  get_chat_completion env system_prompt user_query w =
  match answered env content_of w
          (chat_request env system_prompt user_query) with
  | Ok v =>
      (Ok v,
       set_posted
         (fun l => l ++ [chat_request env system_prompt user_query]) w)
  | Raise e =>
      (Raise e,
       printed (lit "Error getting chat completion: " ++ str_of_exn e)
         (set_posted
            (fun l => l ++ [chat_request env system_prompt user_query]) w))
  end.
Proof.
  unfold get_chat_completion, answered, content_of, requests_post,
    lift_result, print, printed.
  run_monad. simpl.
  destruct (http env w _) as [body | e]; [| reflexivity]. simpl.
  destruct (getitem_key body "choices") as [choices | e]; [| reflexivity].
  simpl.
  destruct (getitem_0 choices) as [first | e]; [| reflexivity]. simpl.
  destruct (getitem_key first "message") as [message | e]; [| reflexivity].
  simpl.
  destruct (getitem_key message "content"); reflexivity.
Qed.

(** [save_query_and_response], step by step. *)
Lemma save_query_and_response_run (query : str) (task_plan : JSON)
  (code_context : str) (w : World) :
  save_query_and_response env query task_plan code_context w =
  match makedirs_fault env w (QUERIES_DIR env) with
  | Some e => (Raise e, w)
  | None =>
      let filename := query_filename env (clock w (clock_reads w)) in
      let text := markdown env (clock w (S (clock_reads w)))
                    query task_plan code_context in
      match write_fault env (ready_to_open env w) filename with
      | Some e => (Raise e, ready_to_open env w)
      | None =>
          match write_text_fault env (ready_to_write env filename w)
                  filename text with
          | Some (e, kept) =>
              (Raise e,
               set_files (fun fs => <[ filename := kept ]> fs)
                 (ready_to_write env filename w))
          | None =>
              (Ok tt,
               printed (nl ++ lit "Query and response saved to: " ++ filename)
                 (set_files (fun fs => <[ filename := text ]> fs)
                    (ready_to_write env filename w)))
          end
      end
  end.
Proof.
  unfold save_query_and_response, os_makedirs, write_file, open_w, f_write,
    datetime_now, raise_if, print, printed, ready_to_write, ready_to_open.
  run_monad.
  destruct (makedirs_fault env w _); [reflexivity |]. simpl.
  destruct (write_fault env _ _); [reflexivity |]. simpl.
  destruct (write_text_fault env _ _ _) as [[e kept] |]; reflexivity.
Qed.

Lemma save_query_and_response_posted (query : str) (task_plan : JSON)
  (code_context : str) (w : World) :
  posted (snd (save_query_and_response env query task_plan code_context w))
  = posted w.
Proof.
  rewrite save_query_and_response_run.
  destruct (makedirs_fault env w _); [reflexivity |]. cbv zeta.
  destruct (write_fault env _ _); [reflexivity |].
  destruct (write_text_fault env _ _ _) as [[e kept] |]; reflexivity.
Qed.

(** The body of the [try], step by step. *)
Lemma plan_for_run (user_query : str) (w : World) :
  plan_for env user_query w =
  match search_code_base env user_query None
          (printed (nl ++ lit "Searching for relevant code files...") w) with
  | (Raise e, w2) => (Raise e, w2)
  | (Ok search_results, w2) =>
      match format_code_context search_results with
      | Raise e => (Raise e, w2)
      | Ok code_context =>
          match get_chat_completion env (spliced env code_context) user_query
                  (printed (nl ++ lit "Generating task plan...") w2) with
          | (Raise e, w3) => (Raise e, w3)
          | (Ok task_plan, w3) =>
              match save_query_and_response env user_query task_plan
                      code_context w3 with
              | (Raise e, w4) => (Raise e, w4)
              | (Ok _, w4) =>
                  (Ok tt,
                   printed rule
                     (printed (format_value env task_plan)
                        (printed rule
                           (printed (nl ++ lit "Task Plan:") w4))))
              end
          end
      end
  end.
Proof.
  unfold plan_for, lift_result, print.
  run_monad.
  destruct (search_code_base env user_query None _) as [[results | e] w2];
    [| reflexivity].
  destruct (format_code_context results) as [ctx | e]; [| reflexivity].
  rewrite SYSTEM_PROMPT_format.
  destruct (get_chat_completion env _ _ _) as [[plan | e] w3]; [| reflexivity].
  destruct (save_query_and_response env _ _ _ _) as [[[] | e] w4]; reflexivity.
Qed.

(** [generate_task_plan] reads the query, runs the body, and turns an
    exception of the body into one printed line. *)
Lemma generate_task_plan_run (w : World) (user_query : str)
  (rest : list str) :
  stdin w = user_query :: rest ->
  generate_task_plan env w =
  let w0 := set_stdin (fun _ => rest)
              (printed (lit "Enter your task description: ") w) in
  match plan_for env user_query w0 with
  | (Ok _, w') => (Ok tt, w')
  | (Raise e, w') => (Ok tt, printed (planning_error e) w')
  end.
Proof.
  intros Hin. unfold generate_task_plan, input, read_line, print.
  run_monad. simpl. rewrite Hin.
  destruct (plan_for env user_query _) as [[[] | e] w']; reflexivity.
Qed.

Ltac not_header :=
  let H := fresh in
  simpl; intros H;
  repeat match type of H with
         | _ \/ _ => destruct H as [H | H]
         | False => destruct H
         | _ = _ => discriminate H
         end.

(** C4. Let the query be read, and let the embedding call, the vector
    search or the chat-completion call fail with [e]: the request of the
    call fails or its answer cannot be read, or the store cannot be reached
    or queried. Then the exception reaches the handler of
    [generate_task_plan], which prints it as the last line and returns; no
    file is written and no directory made; and the task-plan header is not
    among the lines printed. *)
Theorem generate_task_plan_aborts_on_query_side_failure
  (w : World) (user_query : str) (rest : list str) (e : exn) :
  stdin w = user_query :: rest ->
  query_side_failure env user_query (asked rest w) e ->
  exists w' log,
    generate_task_plan env w = (Ok tt, w') /\
    files w' = files w /\
    directories w' = directories w /\
    stdout w' = stdout w ++ log /\
    last log = Some (planning_error e) /\
    ~ In (nl ++ lit "Task Plan:") log.
Proof.
  intros Hin Hfail.
  rewrite (generate_task_plan_run w user_query rest Hin). cbv zeta.
  rewrite plan_for_run. fold (asked rest w).
  rewrite search_code_base_run, get_vector_embedding_run.
  unfold query_side_failure in Hfail. cbv zeta in Hfail.
  destruct Hfail as [Hemb | (v & Hemb & Hrest)]; rewrite Hemb.
  - eexists. eexists. split; [reflexivity |]. simpl.
    repeat split.
    + rewrite <- !app_assoc. reflexivity.
    + reflexivity.
    + not_header.
  - change (default 5 None) with 5.
    destruct Hrest
      as [Hconn | [[Hconn Hq] | (Hconn & Hq & ctx & Hf & Hc)]];
      rewrite Hconn.
    + eexists. eexists. split; [reflexivity |]. simpl.
      repeat split.
      * rewrite <- !app_assoc. reflexivity.
      * reflexivity.
      * not_header.
    + rewrite Hq.
      eexists. eexists. split; [reflexivity |]. simpl.
      repeat split.
      * rewrite <- !app_assoc. reflexivity.
      * reflexivity.
      * not_header.
    + rewrite Hq, Hf, get_chat_completion_run, Hc.
      eexists. eexists. split; [reflexivity |]. simpl.
      repeat split.
      * rewrite <- !app_assoc. reflexivity.
      * reflexivity.
      * not_header.
Qed.

(** C7. Let the run succeed: the query is read and the body of the [try]
    ends without an exception. Then the search, the formatting of its
    results and the chat completion all succeeded, and at the end a file
    named [query_<timestamp>.md] in [QUERIES_DIR], the timestamp being the
    clock read when saving, holds a text in which the user query, the plan
    (as [str] shows it: the plan itself when it is a string) and the code
    context each occur verbatim. *)
Theorem generate_task_plan_saves_query_plan_and_context
  (w w' : World) (user_query : str) (rest : list str) :
  stdin w = user_query :: rest ->
  plan_for env user_query
    (set_stdin (fun _ => rest)
       (printed (lit "Enter your task description: ") w)) = (Ok tt, w') ->
  generate_task_plan env w = (Ok tt, w') /\
  exists search_results w2 code_context task_plan w3,
    search_code_base env user_query None (asked rest w)
      = (Ok search_results, w2) /\
    format_code_context search_results = Ok code_context /\
    get_chat_completion env (spliced env code_context) user_query
      (printed (nl ++ lit "Generating task plan...") w2)
      = (Ok task_plan, w3) /\
    exists text,
      files w' !!
        os_path_join (QUERIES_DIR env)
          (lit "query_" ++
           strftime (clock w3 (clock_reads w3)) (lit "%Y%m%d_%H%M%S") ++
           lit ".md") = Some text /\
      substring user_query text /\
      substring (format_value env task_plan) text /\
      substring code_context text.
Proof.
  intros Hin Hrun. split.
  { rewrite (generate_task_plan_run w user_query rest Hin). cbv zeta.
    rewrite Hrun. reflexivity. }
  rewrite plan_for_run in Hrun. fold (asked rest w) in Hrun.
  destruct (search_code_base env user_query None (asked rest w))
    as [[results | e] w2] eqn:Hs; [| discriminate].
  destruct (format_code_context results) as [ctx | e] eqn:Hf;
    [| discriminate].
  destruct (get_chat_completion env (spliced env ctx) user_query _)
    as [[plan | e] w3] eqn:Hc; [| discriminate].
  rewrite save_query_and_response_run in Hrun.
  destruct (makedirs_fault env w3 _); [discriminate |]. cbv zeta in Hrun.
  destruct (write_fault env _ _); [discriminate |].
  destruct (write_text_fault env _ _ _) as [[e kept] |]; [discriminate |].
  injection Hrun as <-.
  exists results, w2, ctx, plan, w3.
  split; [reflexivity |]. split; [exact Hf |]. split; [exact Hc |].
  eexists. split.
  { simpl. apply lookup_insert_eq. }
  unfold markdown.
  repeat split;
    repeat first [apply substring_here | apply substring_app_r].
Qed.

(** C8. Whatever its arguments and whatever the service answers,
    [get_chat_completion] sends one request, whose body holds exactly two
    messages, a system message with the given prompt and a user message
    with the query, and the sampling parameters [temperature = 0],
    [top_p = 1], [frequency_penalty = 0], [presence_penalty = 0.5]. In a
    run, once the search has returned, the prompt of that request is
    [SYSTEM_PROMPT] with the code context in the place of [{code}] and the
    query is the raw user query. *)
Theorem get_chat_completion_request_is_fixed
  (system_prompt user_query : str) (w : World) :
  (exists r w',
     get_chat_completion env system_prompt user_query w = (r, w') /\
     posted w' = posted w ++ [chat_request env system_prompt user_query]) /\
  json (chat_request env system_prompt user_query) =
    JObj [("messages"%string,
           JArr [JObj [("role"%string, JStr (lit "system"));
                       ("content"%string, JStr system_prompt)];
                 JObj [("role"%string, JStr (lit "user"));
                       ("content"%string, JStr user_query)]]);
          ("temperature"%string, JInt 0);
          ("top_p"%string, JInt 1);
          ("frequency_penalty"%string, JInt 0);
          ("presence_penalty"%string, JFloat (1 # 2))] /\
  (forall search_results w2 code_context,
     search_code_base env user_query None
       (printed (nl ++ lit "Searching for relevant code files...") w)
       = (Ok search_results, w2) ->
     format_code_context search_results = Ok code_context ->
     posted (snd (plan_for env user_query w)) =
     posted w2 ++
       [chat_request env
          (SYSTEM_PROMPT_before env ++ code_context ++
           SYSTEM_PROMPT_after env) user_query]).
Proof.
  split; [| split; [reflexivity |]].
  - pose proof (get_chat_completion_frame system_prompt user_query w) as Hfr.
    destruct (get_chat_completion env system_prompt user_query w)
      as [[plan | e] w1]; subst w1; eexists; eexists;
      (split; [reflexivity |]); reflexivity.
  - intros results w2 ctx Hs Hf.
    rewrite plan_for_run, Hs, Hf.
    pose proof (get_chat_completion_frame (spliced env ctx) user_query
                  (printed (nl ++ lit "Generating task plan...") w2)) as Hfr.
    destruct (get_chat_completion env (spliced env ctx) user_query _)
      as [[plan | e] w3]; subst w3; [| reflexivity].
    pose proof (save_query_and_response_posted user_query plan ctx
                  (set_posted
                     (fun l => l ++ [chat_request env (spliced env ctx)
                                       user_query])
                     (printed (nl ++ lit "Generating task plan...") w2)))
      as Hp.
    destruct (save_query_and_response env user_query plan ctx _)
      as [[[] | e] w4]; simpl in *; rewrite Hp; reflexivity.
Qed.

End Planning.

(** C4 at two concrete inputs: the embedding service fails on the first
    request; and, the search done, the chat service is down. *)
Lemma generate_task_plan_aborts_on_query_side_failure_witness :
  (let e := LibraryError "HTTPError" (lit "503 Server Error") in
   exists w' log,
     generate_task_plan.generate_task_plan examples.env_flaky examples.world0
       = (Ok tt, w') /\
     files w' = files examples.world0 /\
     directories w' = directories examples.world0 /\
     stdout w' = stdout examples.world0 ++ log /\
     last log = Some (generate_task_plan.planning_error e) /\
     ~ In (nl ++ lit "Task Plan:") log) /\
  (let e := LibraryError "ConnectionError" (lit "Connection refused") in
   exists w' log,
     generate_task_plan.generate_task_plan scripts_more.env_chat_down
       examples.world0 = (Ok tt, w') /\
     files w' = files examples.world0 /\
     directories w' = directories examples.world0 /\
     stdout w' = stdout examples.world0 ++ log /\
     last log = Some (generate_task_plan.planning_error e) /\
     ~ In (nl ++ lit "Task Plan:") log).
Proof.
  split; intros e.
  - apply (generate_task_plan_aborts_on_query_side_failure examples.env_flaky
             examples.world0 (lit "add an interview model") [] e).
    + reflexivity.
    + left. vm_compute. reflexivity.
  - apply (generate_task_plan_aborts_on_query_side_failure
             scripts_more.env_chat_down
             examples.world0 (lit "add an interview model") [] e).
    + reflexivity.
    + right. exists (JArr [JFloat (1 # 4); JFloat (3 # 4)]).
      split; [vm_compute; reflexivity |].
      right. right.
      split; [reflexivity |]. split; [reflexivity |].
      eexists. split; [cbv; reflexivity | vm_compute; reflexivity].
Defined.

(** C7 at a concrete input: every service answers. *)
Lemma generate_task_plan_saves_query_plan_and_context_witness :
  let w' := snd (generate_task_plan.generate_task_plan examples.env_ok
                   examples.world0) in
  exists text,
    files w' !! lit "/srv/tools/scripts/queries/query_20240307_120000.md"
      = Some text /\
    substring (lit "add an interview model") text /\
    substring (lit "1. Add the model") text.
Proof.
  intros w'.
  destruct (generate_task_plan_saves_query_plan_and_context examples.env_ok
              examples.world0 w' (lit "add an interview model") [])
    as (_ & results & w2 & ctx & plan & w3 & Hs & Hf & Hc & text & Hfile &
        Hq & Hp & _).
  - reflexivity.
  - vm_compute. reflexivity.
  - exists text.
    assert (Hplan : plan = JStr (lit "1. Add the model")).
    { assert (Hs' : search_code_base.search_code_base examples.env_ok
                      (lit "add an interview model") None
                      (generate_task_plan.asked [] examples.world0)
                    = (Ok results, w2)) by exact Hs.
      vm_compute in Hs'. injection Hs' as <- <-.
      vm_compute in Hf. injection Hf as <-.
      vm_compute in Hc. injection Hc as <- _. reflexivity. }
    assert (Hclock : clock w3 (clock_reads w3) = examples.noon).
    { vm_compute in Hs. injection Hs as _ <-.
      vm_compute in Hc. injection Hc as _ <-. reflexivity. }
    rewrite Hclock in Hfile. rewrite Hplan in Hp.
    split; [exact Hfile |]. split; [exact Hq | exact Hp].
Defined.

(** C8 at a concrete input: the request sent in a run where every service
    answers. *)
Lemma get_chat_completion_request_is_fixed_witness :
  let q := lit "add an interview model" in
  let w := set_stdin (fun _ => [])
             (printed (lit "Enter your task description: ") examples.world0) in
  exists code_context,
    List.last (posted (snd (generate_task_plan.plan_for examples.env_ok q w)))
      (search_code_base.embedding_request examples.env_ok q)
    = generate_task_plan.chat_request examples.env_ok
        (SYSTEM_PROMPT_before examples.env_ok ++ code_context ++
         SYSTEM_PROMPT_after examples.env_ok) q.
Proof.
  intros q w.
  destruct (get_chat_completion_request_is_fixed examples.env_ok q q w)
    as (_ & _ & Hrun).
  pose (r := search_code_base.search_code_base examples.env_ok q None
               (printed (nl ++ lit "Searching for relevant code files...") w)).
  destruct (generate_task_plan.format_code_context
              (match fst r with Ok l => l | Raise _ => [] end))
    as [ctx | e] eqn:Hctx; [| vm_compute in Hctx; discriminate].
  exists ctx.
  rewrite (Hrun (match fst r with Ok l => l | Raise _ => [] end) (snd r) ctx).
  - rewrite last_last. reflexivity.
  - vm_compute. reflexivity.
  - exact Hctx.
Defined.

End scripts_theory.

(* ===================================================================== *)
(** * Further theorems: the [interview] app *)
(* ===================================================================== *)

Module interview_properties.
Import Py interview interview_more.
Import interview.create_interview_attempt_interactor.

Section AnyStorage.
Context {S : Type} `{I : storage_interface.InterviewStorageInterface S}.

(** X1. An exception raised by the storage lookup passes through the
    interactor unchanged: [create_interview_attempt] raises the same
    exception, the lookup is the only call made on the storage (no attempt
    is created), and the clock is not read. *)
Theorem create_interview_attempt_lookup_error_propagates
  (w : World S) (interview_id user_id : str) (e : exn) (s' : S) :
  storage_interface.get_interview_details [interview_id] (storage w)
    = (Raise e, s') ->
  exists w',
    create_interview_attempt interview_id user_id w = (Raise e, w') /\
    calls w' = calls w ++ [Called_get_interview_details [interview_id]] /\
    storage w' = s' /\
    clock_reads w' = clock_reads w.
Proof.
  intros Hget.
  pose proof (interview_theory.validate_interview_details_run w interview_id)
    as Hv.
  rewrite Hget in Hv. simpl in Hv.
  eexists. unfold create_interview_attempt. run_monad.
  rewrite Hv. repeat split.
Qed.

(** X2. Whatever the storage does, one call of the interactor makes the
    lookup for [[interview_id]] first and then at most one create call; a
    DTO that is passed carries the two identifiers, the time read at the
    call, and no end times; and when the interactor returns normally,
    exactly one create call was made. *)
Theorem create_interview_attempt_call_discipline
  (w : World S) (interview_id user_id : str) :
  exists created_dtos,
    calls (snd (create_interview_attempt interview_id user_id w)) =
      calls w ++ Called_get_interview_details [interview_id]
              :: map Called_create_interview_attempt created_dtos /\
    length created_dtos <= 1 /\
    Forall (fun dto =>
              dtos.interview_id dto = interview_id /\
              dtos.user_id dto = user_id /\
              dtos.start_datetime dto = clock w (clock_reads w) /\
              dtos.end_datetime dto = None /\
              dtos.scheduled_end_datetime dto = None) created_dtos /\
    (fst (create_interview_attempt interview_id user_id w) = Ok tt ->
     length created_dtos = 1).
Proof.
  pose proof (interview_theory.validate_interview_details_run w interview_id)
    as Hv.
  unfold create_interview_attempt, storage_create_interview_attempt,
    datetime_now, record_call, on_storage.
  run_monad.
  destruct (storage_interface.get_interview_details [interview_id] (storage w))
    as [[[| d found] | e] s1]; simpl in Hv; rewrite Hv; simpl.
  - exists []. repeat split; [simpl; lia | constructor | discriminate].
  - destruct (storage_interface.create_interview_attempt _ s1)
      as [[c | e] s2]; simpl;
      (eexists [_]; split; [rewrite <- app_assoc; reflexivity |];
       split; [simpl; lia |]; split; [| reflexivity]; repeat constructor).
  - exists []. repeat split; [simpl; lia | constructor | discriminate].
Qed.

End AnyStorage.

Import models.

(** [int(duration.total_seconds())] goes through a float: one microsecond
    short of 20 000 000 000 seconds is reported as 20 000 000 000 seconds,
    while shorter durations are cut to the whole second below. *)
Lemma int_total_seconds_goes_through_float :
  storage_implementation.int_total_seconds (2 * 10 ^ 16 - 1) = (2 * 10 ^ 10)%Z /\
  storage_implementation.int_total_seconds 3599999999 = 3599%Z /\
  storage_implementation.int_total_seconds (- 3599999999) = (- 3599)%Z.
Proof. vm_compute. repeat split. Qed.

Lemma uuid_mem_In (u : N) (l : list N) : uuid_mem u l = true <-> In u l.
Proof.
  unfold uuid_mem. rewrite existsb_exists. split.
  - intros [x [Hin Hx]]. apply N.eqb_eq in Hx. congruence.
  - intros Hin. exists u. split; [exact Hin | apply N.eqb_refl].
Qed.

Lemma uuid_mem_false (u : N) (l : list N) :
  uuid_mem u l = false <-> ~ In u l.
Proof.
  rewrite <- uuid_mem_In. destruct (uuid_mem u l); split; congruence.
Qed.

Section Adapter.
Context (lib : UuidLib).


(** The lookup of the adapter, by cases. *)
Lemma get_interview_details_run (interview_ids : list str) (db : Database) :
  storage_implementation.get_interview_details lib interview_ids db =
  match prepare_ids lib interview_ids with
  | Ok us =>
      (Ok (map (dto_of_row lib)
             (List.filter (fun r => uuid_mem (Interview.id r) us)
                (Interview_objects db))), db)
  | Raise e => (Raise e, db)
  end.
Proof.
  unfold storage_implementation.get_interview_details,
    Interview_objects_filter_id_in, of_result.
  run_monad. destruct (prepare_ids lib interview_ids); reflexivity.
Qed.


(** [create_interview_attempt] of the adapter, by cases. *)
Lemma storage_create_run (dto : dtos.InterviewAttemptDTO) (db : Database) :
  let new_id := uuid4 db (uuid4_calls db) in
  let now := timezone_now db (timezone_now_calls db) in
  let db0 :=
    {| Interview_objects := Interview_objects db;
       InterviewAttempt_objects := InterviewAttempt_objects db;
       uuid4 := uuid4 db; uuid4_calls := S (uuid4_calls db);
       timezone_now := timezone_now db;
       timezone_now_calls := timezone_now_calls db |} in
  let db1 :=
    {| Interview_objects := Interview_objects db;
       InterviewAttempt_objects := InterviewAttempt_objects db;
       uuid4 := uuid4 db; uuid4_calls := S (uuid4_calls db);
       timezone_now := timezone_now db;
       timezone_now_calls := S (timezone_now_calls db) |} in
  storage_implementation.create_interview_attempt lib dto db =
  match dtos.interview_id dto, UUID_of_hex lib (dtos.interview_id dto) with
  | [], _ => (Raise (IntegrityError "NOT NULL constraint failed"), db1)
  | _ :: _, None =>
      (Raise (ValidationError lib (dtos.interview_id dto)), db0)
  | _ :: _, Some iid =>
      if negb (uuid_mem iid (map Interview.id (Interview_objects db)))
      then (Raise (IntegrityError "FOREIGN KEY constraint failed"), db1)
      else if uuid_mem new_id
                (map InterviewAttempt.id (InterviewAttempt_objects db))
      then (Raise (IntegrityError "UNIQUE constraint failed"), db1)
      else
        (Ok (str_of_UUID lib new_id),
         {| Interview_objects := Interview_objects db;
            InterviewAttempt_objects :=
              InterviewAttempt_objects db ++
              [ {| InterviewAttempt.id := new_id;
                   InterviewAttempt.interview_id := iid;
                   InterviewAttempt.user_id := dtos.user_id dto;
                   InterviewAttempt.start_datetime := now;
                   InterviewAttempt.end_datetime := dtos.end_datetime dto;
                   InterviewAttempt.scheduled_end_datetime := None |} ];
            uuid4 := uuid4 db; uuid4_calls := S (uuid4_calls db);
            timezone_now := timezone_now db;
            timezone_now_calls := S (timezone_now_calls db) |})
  end.
Proof.
  unfold storage_implementation.create_interview_attempt,
    InterviewAttempt_objects_create, storage_implementation.create_kwargs,
    draw_uuid4, read_timezone_now, current_database, insert_attempt,
    of_result, to_python.
  run_monad. simpl.
  destruct (dtos.interview_id dto) as [| c value]; [reflexivity |].
  destruct (UUID_of_hex lib (c :: value)); [| reflexivity].
  simpl. destruct (negb _); [reflexivity |].
  destruct (uuid_mem _ _); reflexivity.
Qed.

(** Filtering by one UUID finds nothing exactly when it is not stored. *)
Lemma filter_one_id (u : N) (rows : list Interview.row) :
  List.filter (fun r => uuid_mem (Interview.id r) [u]) rows = [] <->
  uuid_mem u (map Interview.id rows) = false.
Proof.
  rewrite uuid_mem_false. induction rows as [| r rows IH]; simpl.
  - split; [intros _ [] | reflexivity].
  - change (uuid_mem (Interview.id r) [u])
      with ((Interview.id r =? u)%N || false). rewrite orb_false_r.
    destruct (N.eqb_spec (Interview.id r) u) as [Heq | Hne].
    + split; [discriminate | intros H; exfalso; apply H; auto].
    + rewrite IH. split.
      * intros H [Heq | Hin]; [congruence | contradiction].
      * intros H Hin. apply H. right. exact Hin.
Qed.

(** The interactor on the database adapter, by cases. *)
Lemma interactor_on_database_run (w : World Database)
  (interview_id user_id : str) :
  let dto :=
    {| dtos.interview_id := interview_id;
       dtos.user_id := user_id;
       dtos.start_datetime := clock w (clock_reads w);
       dtos.end_datetime := None;
       dtos.scheduled_end_datetime := None |} in
  let looked_up :=
    {| storage := storage w;
       calls := calls w ++ [Called_get_interview_details [interview_id]];
       clock := clock w;
       clock_reads := clock_reads w |} in
  create_on_database lib interview_id user_id w =
  match UUID_of_hex lib interview_id with
  | None => (Raise (ValidationError lib interview_id), looked_up)
  | Some u =>
      if uuid_mem u (map Interview.id (Interview_objects (storage w)))
      then
        (match fst (storage_implementation.create_interview_attempt lib dto
                      (storage w)) with
         | Ok _ => Ok tt
         | Raise e => Raise e
         end,
         {| storage :=
              snd (storage_implementation.create_interview_attempt lib dto
                     (storage w));
            calls := calls w ++ [Called_get_interview_details [interview_id];
                                 Called_create_interview_attempt dto];
            clock := clock w;
            clock_reads := S (clock_reads w) |})
      else (Raise InvalidInterviewIdException, looked_up)
  end.
Proof.
  intros dto looked_up. unfold create_on_database.
  pose proof (@interview_theory.validate_interview_details_run Database
                (storage_implementation.StorageImplementation lib)
                w interview_id) as Hv.
  change (@storage_interface.get_interview_details Database
            (storage_implementation.StorageImplementation lib)
            [interview_id] (storage w))
    with (storage_implementation.get_interview_details lib [interview_id]
            (storage w)) in Hv.
  rewrite get_interview_details_run in Hv.
  cbn [prepare_ids] in Hv. unfold to_python in Hv.
  destruct (UUID_of_hex lib interview_id) as [u |] eqn:Hu.
  - cbv iota beta in Hv.
    pose proof (filter_one_id u (Interview_objects (storage w))) as Hfilter.
    destruct (List.filter _ _) as [| r l] eqn:Hf; simpl in Hv.
    + rewrite (proj1 Hfilter eq_refl).
      unfold create_interview_attempt. run_monad. rewrite Hv. reflexivity.
    + destruct (uuid_mem u _) eqn:Hmem;
        [| exfalso; pose proof (proj2 Hfilter eq_refl); discriminate].
      unfold create_interview_attempt, storage_create_interview_attempt,
        datetime_now, record_call, on_storage.
      run_monad. rewrite Hv. simpl. fold dto.
      change (@storage_interface.create_interview_attempt Database
                (storage_implementation.StorageImplementation lib) dto
                (storage w))
        with (storage_implementation.create_interview_attempt lib dto
                (storage w)).
      destruct (storage_implementation.create_interview_attempt lib dto
                  (storage w)) as [[c | e] s2]; simpl;
        rewrite <- app_assoc; reflexivity.
  - simpl in Hv. unfold create_interview_attempt. run_monad. rewrite Hv.
    reflexivity.
Qed.

(** X4. With the database adapter as storage, an identifier that names no
    stored interview never lets an attempt through: the call raises
    [InvalidInterviewIdException] when the identifier spells a UUID (of no
    stored interview) and Django's [ValidationError] when it spells none,
    no create call is made, and the whole database (both tables, the uuid
    source, the clock) is left as it was. *)
Theorem create_interview_attempt_unknown_id_leaves_database
  (w : World Database) (interview_id user_id : str) :
  (forall u, UUID_of_hex lib interview_id = Some u ->
     ~ In u (map Interview.id (Interview_objects (storage w)))) ->
  exists e w',
    create_on_database lib interview_id user_id w = (Raise e, w') /\
    e = match UUID_of_hex lib interview_id with
        | Some _ => InvalidInterviewIdException
        | None => ValidationError lib interview_id
        end /\
    storage w' = storage w /\
    create_calls (calls w') = create_calls (calls w).
Proof.
  intros Hnot. rewrite interactor_on_database_run. cbv zeta.
  destruct (UUID_of_hex lib interview_id) as [u |].
  - specialize (Hnot u eq_refl). apply uuid_mem_false in Hnot. rewrite Hnot.
    eexists. eexists. split; [reflexivity |]. simpl. repeat split.
    rewrite interview_theory.create_calls_app. apply app_nil_r.
  - eexists. eexists. split; [reflexivity |]. simpl. repeat split.
    rewrite interview_theory.create_calls_app. apply app_nil_r.
Qed.


(** X6. With the database adapter as storage, the interactor keeps the
    database consistent, whatever the identifier and whatever the outcome
    of the call: attempt ids stay distinct and every attempt refers to a
    stored interview. *)
Theorem create_interview_attempt_keeps_database_consistent
  (w : World Database) (interview_id user_id : str) :
  consistent (storage w) ->
  consistent (storage (snd (create_on_database lib interview_id user_id w))).
Proof.
  intros [Hnodup Hfk]. rewrite interactor_on_database_run. cbv zeta.
  destruct (UUID_of_hex lib interview_id) as [u |] eqn:Hu;
    [| split; assumption].
  destruct (uuid_mem u _) eqn:Hmem; [| split; assumption].
  destruct interview_id as [| c value];
    [rewrite (UUID_of_hex_empty lib) in Hu; discriminate Hu |].
  rewrite storage_create_run. cbv zeta. simpl. rewrite Hu, Hmem. simpl.
  destruct (uuid_mem (uuid4 _ _) _) eqn:Hdup; simpl; [split; assumption |].
  split.
  - simpl. rewrite map_app. simpl. apply NoDup_app. split; [exact Hnodup |].
    split; [| apply NoDup_singleton].
    intros x Hx Hx'. apply list_elem_of_In in Hx.
    apply list_elem_of_singleton in Hx'. subst x.
    apply uuid_mem_false in Hdup. contradiction.
  - simpl. apply Forall_app. split; [exact Hfk |].
    constructor; [| constructor]. simpl. apply uuid_mem_In, Hmem.
Qed.

End Adapter.

(** X1 at a concrete input: a storage that cannot be reached. *)
Lemma create_interview_attempt_lookup_error_propagates_witness :
  exists w',
    create_interview_attempt examples.interview_1 (lit "user-7") offline_world
      = (Raise unreachable, w') /\
    calls w' = [Called_get_interview_details [examples.interview_1]] /\
    storage w' = tt /\
    clock_reads w' = 0.
Proof.
  apply (create_interview_attempt_lookup_error_propagates offline_world
           examples.interview_1 (lit "user-7") unreachable tt).
  reflexivity.
Defined.

(** X4 at two concrete inputs: [examples.db0] has no interview of the
    second UUID, and [interview-2] spells no UUID at all. *)
Lemma create_interview_attempt_unknown_id_leaves_database_witness :
  (exists w',
     create_on_database examples.uuid_lib examples.interview_2 (lit "user-7")
       examples.interactor_world = (Raise InvalidInterviewIdException, w') /\
     storage w' = examples.db0) /\
  (exists w',
     create_on_database examples.uuid_lib examples.not_a_uuid (lit "user-7")
       examples.interactor_world
       = (Raise (ValidationError examples.uuid_lib examples.not_a_uuid), w') /\
     storage w' = examples.db0).
Proof.
  split.
  - destruct (create_interview_attempt_unknown_id_leaves_database
                examples.uuid_lib examples.interactor_world
                examples.interview_2 (lit "user-7"))
      as (e & w' & Hrun & He & Hs & _).
    + intros u Hu. vm_compute in Hu. injection Hu as <-.
      simpl. intros [H | []]. vm_compute in H. discriminate H.
    + exists w'. rewrite Hrun, He. split; [reflexivity | exact Hs].
  - destruct (create_interview_attempt_unknown_id_leaves_database
                examples.uuid_lib examples.interactor_world
                examples.not_a_uuid (lit "user-7"))
      as (e & w' & Hrun & He & Hs & _).
    + intros u Hu. vm_compute in Hu. discriminate Hu.
    + exists w'. rewrite Hrun, He. split; [reflexivity | exact Hs].
Defined.


(** X6 at a concrete input: [examples.db0] is consistent, and stays so. *)
Lemma create_interview_attempt_keeps_database_consistent_witness :
  consistent examples.db0 /\
  consistent
    (storage (snd (create_on_database examples.uuid_lib examples.interview_1
                     (lit "user-7") examples.interactor_world))).
Proof.
  assert (H0 : consistent examples.db0).
  { split; simpl; constructor. }
  split; [exact H0 |].
  apply (create_interview_attempt_keeps_database_consistent
           examples.uuid_lib examples.interactor_world examples.interview_1
           (lit "user-7")).
  exact H0.
Defined.

End interview_properties.

(* ===================================================================== *)
(** * Further theorems: the scripts *)
(* ===================================================================== *)

Module scripts_properties.
Import Py scripts scripts.pathlib scripts_more.

(** ** Suffixes *)

(** From the last dot on, a name reads as a dot and a text without dots. *)
Lemma rfind_dot_spec (s : str) (i : nat) :
  rfind_dot s = Some i ->
  exists t, drop i s = 46%N :: t /\ ~ In 46%N t.
Proof.
  revert i. induction s as [| c s IH]; intros i; simpl; [discriminate |].
  destruct (rfind_dot s) as [j |] eqn:Hj.
  - intros [= <-]. simpl. apply IH. reflexivity.
  - destruct (N.eqb_spec c 46); [| discriminate].
    intros [= <-]. subst c. simpl. exists s. split; [reflexivity |].
    clear IH. induction s as [| d s IHs]; [intros [] |].
    simpl in Hj. destruct (rfind_dot s); [discriminate |].
    destruct (N.eqb_spec d 46); [discriminate |].
    intros [Hd | Hin]; [congruence | apply IHs; [reflexivity | exact Hin]].
Qed.

Lemma suffix_shape (p : Path) :
  suffix p = [] \/ exists t, suffix p = 46%N :: t /\ ~ In 46%N t.
Proof.
  unfold suffix.
  destruct (rfind_dot (name p)) as [i |] eqn:Hi; [| left; reflexivity].
  destruct ((0 <? i) && (i <? length (name p) - 1)); [| left; reflexivity].
  right. apply rfind_dot_spec. exact Hi.
Qed.

Lemma str_in_needs_first (c : N) (sub s : str) :
  ~ In c s -> str_in (c :: sub) s = false.
Proof.
  induction s as [| d s IH]; intros Hnot; simpl; [reflexivity |].
  destruct (N.eqb_spec c d) as [-> | Hne].
  - exfalso. apply Hnot. left. reflexivity.
  - simpl. apply IH. intros Hin. apply Hnot. right. exact Hin.
Qed.

(** ** Indexing *)
Section Indexing.
Import index_code_base.
Context (env : Env).

Ltac nothing_added :=
  exists []; rewrite app_nil_r; repeat split; [simpl; lia | constructor].

(** X7. [get_azure_embedding] never raises: it is [get_vector_embedding]
    with [None] returned where that one raises. It sends one request,
    leaves the collection alone, and prints nothing unless it answers
    [None] after an error, which it prints. *)
Theorem get_azure_embedding_never_raises (text : str) (w : World) :
  get_azure_embedding env text w =
    match search_code_base.get_vector_embedding env text w with
    | (Ok v, w') => (Ok v, w')
    | (Raise e, w') => (Ok JNull, w')
    end /\
  exists v w',
    get_azure_embedding env text w = (Ok v, w') /\
    posted w' = posted w ++ [embedding_request env text] /\
    collection w' = collection w /\
    (stdout w' = stdout w \/
     v = JNull /\
     exists e, stdout w' =
               stdout w ++ [lit "Error getting embeddings: " ++ str_of_exn e]).
Proof.
  unfold get_azure_embedding, search_code_base.get_vector_embedding,
    requests_post, lift_result, print, printed.
  run_monad. simpl.
  change (search_code_base.embedding_request env text)
    with (embedding_request env text).
  repeat (break_match; simpl);
    (split; [reflexivity |]; eexists; eexists;
     split; [reflexivity |]; simpl;
     repeat split;
     first [left; reflexivity
           | right; split; [reflexivity | eexists; reflexivity]]).
Qed.

(** X8. When the embedding service answers with a body whose [data] list
    starts with an object holding [embedding], both embedding functions
    return that value, the one of the first item only, and print nothing. *)
Theorem get_vector_embedding_returns_first_embedding
  (text : str) (w : World) (fields first : list (string * JSON))
  (rest : list JSON) (v : JSON) :
  http env w (embedding_request env text) = Ok (JObj fields) ->
  assoc "data" fields = Some (JArr (JObj first :: rest)) ->
  assoc "embedding" first = Some v ->
  let w' := set_posted (fun l => l ++ [embedding_request env text]) w in
  search_code_base.get_vector_embedding env text w = (Ok v, w') /\
  get_azure_embedding env text w = (Ok v, w').
Proof.
  intros Hh Hd He w'.
  unfold get_azure_embedding, search_code_base.get_vector_embedding,
    requests_post, lift_result.
  run_monad. simpl.
  change (search_code_base.embedding_request env text)
    with (embedding_request env text).
  rewrite Hh. simpl. rewrite Hd. simpl. rewrite He. split; reflexivity.
Qed.

(** X9. When the embedding service answers with an object that lacks
    [data], or whose [data] list is empty, [get_vector_embedding] prints
    the error and raises it ([KeyError] for the missing key, [IndexError]
    for the empty list), and [get_azure_embedding] prints it and returns
    [None]. *)
Theorem get_vector_embedding_rejects_malformed_body
  (text : str) (w : World) (fields : list (string * JSON)) :
  http env w (embedding_request env text) = Ok (JObj fields) ->
  assoc "data" fields = None \/ assoc "data" fields = Some (JArr []) ->
  exists e,
    e = match assoc "data" fields with
        | None => LibraryError "KeyError" (quote ++ lit "data" ++ quote)
        | Some _ => LibraryError "IndexError" (lit "list index out of range")
        end /\
    let w' := printed (lit "Error getting embeddings: " ++ str_of_exn e)
                (set_posted (fun l => l ++ [embedding_request env text]) w) in
    search_code_base.get_vector_embedding env text w = (Raise e, w') /\
    get_azure_embedding env text w = (Ok JNull, w').
Proof.
  intros Hh Hd.
  unfold get_azure_embedding, search_code_base.get_vector_embedding,
    requests_post, lift_result, print.
  run_monad. simpl.
  change (search_code_base.embedding_request env text)
    with (embedding_request env text).
  rewrite Hh. simpl.
  destruct Hd as [Hd | Hd]; rewrite Hd; simpl;
    (eexists; split; [reflexivity |]; split; reflexivity).
Qed.

(** The world after a call of [get_azure_embedding]. *)
Lemma get_azure_embedding_frame (text : str) (w : World) :
  let '(r, w1) := get_azure_embedding env text w in
  exists out,
    w1 = set_stdout (fun o => o ++ out)
           (set_posted (fun l => l ++ [embedding_request env text]) w).
Proof.
  unfold get_azure_embedding, requests_post, lift_result, print, printed.
  run_monad. simpl.
  repeat (break_match; simpl);
    first [ exists []; unfold set_stdout; simpl; rewrite app_nil_r; reflexivity
          | eexists [_]; reflexivity ].
Qed.

(** X10. The success path of one turn of the loop: for an eligible file
    with text that is not blank, an embedding that counts as true and an
    insert that does not raise, the turn appends one object to the
    collection, holding the file's path relative to the root, its text as
    read (not stripped) and the embedding, and prints the [Processed] line.
    Nothing is looked up first: the object is appended whatever the
    collection already holds. *)
Theorem index_step_stores_file
  (root p rel : Path) (w w1 : World) (text : str) (v : JSON) :
  should_process_the_file env p = true ->
  read_text env p = Ok text ->
  strip text <> [] ->
  get_azure_embedding env text (set_opened (fun l => l ++ [p]) w)
    = (Ok v, w1) ->
  truthy v = true ->
  relative_to p root = Ok rel ->
  weaviate_insert_fault env w1
    {| file_path := to_str rel; content := text |} v = None ->
  let o := {| properties := {| file_path := to_str rel; content := text |};
              vector := v |} in
  index_step env root p w =
    (Ok tt,
     printed (lit "Processed: " ++ to_str rel)
       (set_collection (fun c => c ++ [o]) w1)) /\
  collection (snd (index_step env root p w)) = collection w ++ [o].
Proof.
  intros Hp Hr Hs Hg Ht Hrel Hf o.
  pose proof (get_azure_embedding_frame text
                (set_opened (fun l => l ++ [p]) w)) as Hfr.
  rewrite Hg in Hfr. destruct Hfr as [out Hw1].
  assert (Hrun : index_step env root p w =
            (Ok tt, printed (lit "Processed: " ++ to_str rel)
                      (set_collection (fun c => c ++ [o]) w1))).
  { unfold index_step, try_except, index_file, collection_data_insert,
      open_and_read, lift_result, raise_if, print.
    run_monad. rewrite Hp. simpl. rewrite Hr.
    destruct (strip text) as [| c t]; [congruence |]. simpl.
    rewrite Hg, Ht, Hrel. simpl. rewrite Hf. reflexivity. }
  split; [exact Hrun |]. rewrite Hrun, Hw1. reflexivity.
Qed.

(** X11. An embedding that counts as false (the [None] of a failed call,
    but also an empty vector sent by the service) is a failure of the file:
    the turn of the loop prints [Failed to get embedding] for the file,
    stores nothing, and returns normally. *)
Theorem index_step_rejects_empty_embedding
  (root p : Path) (w w1 : World) (text : str) (v : JSON) :
  should_process_the_file env p = true ->
  read_text env p = Ok text ->
  strip text <> [] ->
  get_azure_embedding env text (set_opened (fun l => l ++ [p]) w)
    = (Ok v, w1) ->
  truthy v = false ->
  index_step env root p w =
    (Ok tt,
     printed (error_line p (Exception (lit "Failed to get embedding"))) w1) /\
  collection (snd (index_step env root p w)) = collection w.
Proof.
  intros Hp Hr Hs Hg Ht.
  pose proof (get_azure_embedding_frame text
                (set_opened (fun l => l ++ [p]) w)) as Hfr.
  rewrite Hg in Hfr. destruct Hfr as [out Hw1].
  assert (Hrun : index_step env root p w =
            (Ok tt,
             printed (error_line p (Exception (lit "Failed to get embedding")))
               w1)).
  { unfold index_step, try_except, index_file, open_and_read, lift_result,
      print.
    run_monad. rewrite Hp. simpl. rewrite Hr.
    destruct (strip text) as [| c t]; [congruence |]. simpl.
    rewrite Hg, Ht. reflexivity. }
  split; [exact Hrun |]. rewrite Hrun, Hw1. reflexivity.
Qed.

Lemma index_step_collection (root p : Path) (w : World) :
  exists added,
    collection (snd (index_step env root p w)) = collection w ++ added /\
    length added <= (if should_process_the_file env p then 1 else 0) /\
    Forall (indexed_from env root [p]) added.
Proof.
  unfold index_step.
  destruct (should_process_the_file env p) eqn:Hp; simpl; [| nothing_added].
  unfold try_except, index_file, open_and_read, collection_data_insert,
    lift_result, raise_if, print, printed.
  run_monad. simpl.
  destruct (read_text env p) as [text | e] eqn:Hr; simpl; [| nothing_added].
  destruct (nonempty (strip text)) eqn:Hs; simpl; [| nothing_added].
  pose proof (get_azure_embedding_frame text
                (set_opened (fun l => l ++ [p]) w)) as Hfr.
  destruct (get_azure_embedding env text _) as [[v | e] w1];
    destruct Hfr as [out ->]; simpl; [| nothing_added].
  destruct (truthy v) eqn:Hv; simpl; [| nothing_added].
  destruct (relative_to p root) as [rel | e] eqn:Hrel; simpl;
    [| nothing_added].
  destruct (weaviate_insert_fault env _ _ v) eqn:Hf; simpl;
    [nothing_added |].
  eexists [_]. split; [reflexivity |]. split; [simpl; lia |].
  constructor; [| constructor].
  split; [exact Hv |]. split.
  { simpl. intros H0. rewrite H0 in Hs. discriminate. }
  exists p, rel. simpl. repeat split; auto.
Qed.

Lemma indexed_from_mono (root : Path) (ps qs : list Path)
  (o : WeaviateObject) :
  (forall p, In p ps -> In p qs) ->
  indexed_from env root ps o -> indexed_from env root qs o.
Proof.
  intros Hsub (Hv & Hs & p & rel & Hin & H). repeat split; auto.
  exists p, rel. split; auto.
Qed.

(** X12. The loop only appends to the collection: the objects that were
    there stay, in place, and each object added is the text of an eligible
    file of the walk, not blank, under its path relative to the root, with
    an embedding that counts as true; at most one object is added per
    eligible file. *)
Theorem index_files_only_appends_indexed_files
  (root : Path) (ps : list Path) (w : World) :
  exists added,
    collection (snd (index_files env root ps w)) = collection w ++ added /\
    length added <= length (List.filter (should_process_the_file env) ps) /\
    Forall (indexed_from env root ps) added.
Proof.
  revert w. induction ps as [| p ps IH]; intros w.
  - exists []. simpl. rewrite app_nil_r. repeat split; [lia | constructor].
  - rewrite scripts_theory.index_files_cons.
    destruct (index_step_collection root p w) as (a1 & H1 & L1 & F1).
    destruct (IH (snd (index_step env root p w))) as (a2 & H2 & L2 & F2).
    exists (a1 ++ a2). split; [rewrite H2, H1, app_assoc; reflexivity |].
    split.
    + rewrite length_app. simpl.
      destruct (should_process_the_file env p); simpl; lia.
    + apply Forall_app. split.
      * eapply Forall_impl; [exact F1 |]. intros o. apply indexed_from_mono.
        intros q [<- | []]. left. reflexivity.
      * eapply Forall_impl; [exact F2 |]. intros o. apply indexed_from_mono.
        intros q Hq. right. exact Hq.
Qed.

Lemma index_step_frame (root p : Path) (w : World) :
  let w' := snd (index_step env root p w) in
  files w' = files w /\ directories w' = directories w /\
  stdin w' = stdin w /\ clock_reads w' = clock_reads w /\
  clients_open w' = clients_open w /\
  exists sent,
    posted w' = posted w ++ sent /\
    length sent <= (if should_process_the_file env p then 1 else 0).
Proof.
  unfold index_step.
  destruct (should_process_the_file env p); simpl;
    [| repeat split; exists []; rewrite app_nil_r; split; [reflexivity | simpl; lia]].
  unfold try_except, index_file, get_azure_embedding, collection_data_insert,
    open_and_read, requests_post, lift_result, raise_if, print, printed.
  run_monad. simpl.
  repeat (break_match; simpl);
    (repeat split;
     first [ exists []; rewrite app_nil_r; split; [reflexivity | simpl; lia]
           | eexists [_]; split; [reflexivity | simpl; lia] ]).
Qed.

(** X13. The loop touches nothing but the index and the screen: it writes
    no file, makes no directory, reads no input and no clock, opens and
    closes no client; and it sends at most one request per eligible file. *)
Theorem index_files_touches_only_the_index
  (root : Path) (ps : list Path) (w : World) :
  let w' := snd (index_files env root ps w) in
  files w' = files w /\ directories w' = directories w /\
  stdin w' = stdin w /\ clock_reads w' = clock_reads w /\
  clients_open w' = clients_open w /\
  exists sent,
    posted w' = posted w ++ sent /\
    length sent <= length (List.filter (should_process_the_file env) ps).
Proof.
  revert w. induction ps as [| p ps IH]; intros w.
  - simpl. repeat split. exists []. rewrite app_nil_r.
    split; [reflexivity | simpl; lia].
  - cbv zeta. rewrite scripts_theory.index_files_cons.
    destruct (index_step_frame root p w)
      as (F1 & F2 & F3 & F4 & F5 & s1 & P1 & L1).
    destruct (IH (snd (index_step env root p w)))
      as (G1 & G2 & G3 & G4 & G5 & s2 & P2 & L2).
    rewrite G1, G2, G3, G4, G5, F1, F2, F3, F4, F5. repeat split.
    exists (s1 ++ s2). split; [rewrite P2, P1, app_assoc; reflexivity |].
    rewrite length_app. simpl.
    destruct (should_process_the_file env p); simpl; lia.
Qed.

(** X14. Only the last extension of the file name counts: [".py" in
    suffix] is the same as the suffix starting with [".py"], so an eligible
    file has a suffix [.py...] without a further dot ([x.py], [x.pyc],
    [x.pyi]), and a file such as [x.py.txt] or [x.py.bak] is not
    eligible. *)
Theorem should_process_the_file_looks_at_last_extension (p : Path) :
  str_in (lit ".py") (suffix p) = startswith (lit ".py") (suffix p) /\
  (should_process_the_file env p = true ->
   exists ext, suffix p = lit ".py" ++ ext /\ ~ In 46%N ext) /\
  should_process_the_file env (Path_ (lit "/srv/app/settings.py.bak")) = false.
Proof.
  assert (H1 : str_in (lit ".py") (suffix p)
               = startswith (lit ".py") (suffix p)).
  { destruct (suffix_shape p) as [-> | (t & -> & Hnot)]; [reflexivity |].
    change (lit ".py") with (46%N :: lit "py").
    cbn [str_in]. rewrite (str_in_needs_first 46%N (lit "py") t Hnot).
    apply orb_false_r. }
  split; [exact H1 |]. split.
  - unfold should_process_the_file. rewrite !andb_true_iff, H1.
    intros [[_ Hs] _].
    apply scripts_theory.startswith_spec in Hs as [ext Hext].
    exists ext. split; [exact Hext |].
    destruct (suffix_shape p) as [Hnil | (t & Ht & Hnot)].
    + rewrite Hnil in Hext. discriminate.
    + rewrite Ht in Hext. injection Hext as ->. intros Hin. apply Hnot.
      right. right. exact Hin.
  - unfold should_process_the_file.
    change (suffix (Path_ (lit "/srv/app/settings.py.bak")))
      with (lit ".bak").
    change (str_in (lit ".py") (lit ".bak")) with false.
    rewrite andb_false_r. reflexivity.
Qed.

(** X15. The excluded names are looked for in the whole path, root
    included: when the root directory itself lies under a directory named
    [scripts], [venv] or [.specstory], every file of the walk is skipped
    and [index_code_base] does nothing at all. *)
Theorem index_code_base_under_excluded_root_indexes_nothing
  (root_dir : str) (excluded_dir : str) (w : World) :
  In excluded_dir excluded_dirs ->
  In excluded_dir (parts (Path_ root_dir)) ->
  (forall p, In p (glob_all env (Path_ root_dir)) ->
     exists rest, parts p = parts (Path_ root_dir) ++ rest) ->
  index_code_base env root_dir w = (Ok tt, w).
Proof.
  intros Hex Hroot Hunder. unfold index_code_base. cbv zeta.
  induction (glob_all env (Path_ root_dir)) as [| p ps IH]; [reflexivity |].
  rewrite scripts_theory.index_files_cons.
  assert (Hp : should_process_the_file env p = false).
  { destruct (Hunder p (or_introl eq_refl)) as [rest Hparts].
    destruct (should_process_the_file env p) eqn:Hsp; [| reflexivity].
    exfalso.
    unfold should_process_the_file in Hsp.
    rewrite !andb_true_iff, negb_true_iff in Hsp.
    destruct Hsp as [_ Hnone].
    pose proof (proj1 (scripts_theory.excluded_spec p) Hnone) as Hnone'.
    destruct (Hnone' excluded_dir) as (N1 & N2 & N3).
    { rewrite Hparts. apply in_or_app. left. exact Hroot. }
    unfold excluded_dirs in Hex. simpl in Hex.
    destruct Hex as [<- | [<- | [<- | []]]]; congruence. }
  unfold index_step at 1. rewrite Hp. simpl.
  apply IH. intros q Hq. apply Hunder. right. exact Hq.
Qed.

End Indexing.

(** X8 at a concrete input: the answer of [examples.env_ok]. *)
Lemma get_vector_embedding_returns_first_embedding_witness :
  let text := lit "add an interview model" in
  let v := JArr [JFloat (1 # 4); JFloat (3 # 4)] in
  let w' := set_posted
              (fun l => l ++ [index_code_base.embedding_request
                                examples.env_ok text]) examples.world0 in
  search_code_base.get_vector_embedding examples.env_ok text examples.world0
    = (Ok v, w') /\
  index_code_base.get_azure_embedding examples.env_ok text examples.world0
    = (Ok v, w').
Proof.
  intros text v w'.
  apply (get_vector_embedding_returns_first_embedding examples.env_ok text
           examples.world0
           [("data"%string,
             JArr [JObj [("embedding"%string, v)]])]
           [("embedding"%string, v)] [] v); reflexivity.
Defined.

(** X9 at a concrete input: a body with an empty [data] list. *)
Lemma get_vector_embedding_rejects_malformed_body_witness :
  let text := lit "add an interview model" in
  exists e w',
    search_code_base.get_vector_embedding env_no_data text examples.world0
      = (Raise e, w') /\
    index_code_base.get_azure_embedding env_no_data text examples.world0
      = (Ok JNull, w') /\
    stdout w' = [lit "Error getting embeddings: list index out of range"].
Proof.
  intros text.
  destruct (get_vector_embedding_rejects_malformed_body env_no_data text
              examples.world0 [("data"%string, JArr [])])
    as (e & He & Hv & Ha).
  - reflexivity.
  - right. reflexivity.
  - eexists. eexists. split; [exact Hv |]. split; [exact Ha |].
    rewrite He. reflexivity.
Defined.

(** X10 at a concrete input: [models.py] is stored. *)
Lemma index_step_stores_file_witness :
  let root := Path_ examples.root_dir in
  collection (snd (index_code_base.index_step examples.env_ok root
                     examples.models_py examples.world0)) =
  collection examples.world0 ++
  [ {| properties := {| file_path := lit "interview/models.py";
                        content := lit "import os" ++ nl |};
       vector := JArr [JFloat (1 # 4); JFloat (3 # 4)] |} ].
Proof.
  intros root.
  destruct (index_step_stores_file examples.env_ok root examples.models_py
              (Path_ (lit "interview/models.py")) examples.world0
              (snd (index_code_base.get_azure_embedding examples.env_ok
                      (lit "import os" ++ nl)
                      (set_opened (fun l => l ++ [examples.models_py])
                         examples.world0)))
              (lit "import os" ++ nl)
              (JArr [JFloat (1 # 4); JFloat (3 # 4)]))
    as [_ H]; try (vm_compute; reflexivity); try (vm_compute; discriminate).
Defined.

(** X11 at a concrete input: the service sends an empty vector. *)
Lemma index_step_rejects_empty_embedding_witness :
  let root := Path_ examples.root_dir in
  let r := index_code_base.index_step env_empty_vector root
             examples.models_py examples.world0 in
  fst r = Ok tt /\
  collection (snd r) = collection examples.world0 /\
  stdout (snd r) =
    [lit "Error processing /srv/app/interview/models.py: Failed to get embedding"].
Proof.
  intros root r.
  destruct (index_step_rejects_empty_embedding env_empty_vector root
              examples.models_py examples.world0
              (snd (index_code_base.get_azure_embedding env_empty_vector
                      (lit "import os" ++ nl)
                      (set_opened (fun l => l ++ [examples.models_py])
                         examples.world0)))
              (lit "import os" ++ nl) (JArr []))
    as [Hrun Hcol]; try (vm_compute; reflexivity).
  - vm_compute. discriminate.
  - subst r. rewrite Hrun. split; [reflexivity |].
    split; [rewrite <- Hrun; exact Hcol | vm_compute; reflexivity].
Defined.

(** X15 at a concrete input: a project kept under [/home/dev/scripts]. *)
Lemma index_code_base_under_excluded_root_indexes_nothing_witness :
  index_code_base.index_code_base env_under_scripts scripts_root
    examples.world0 = (Ok tt, examples.world0).
Proof.
  apply (index_code_base_under_excluded_root_indexes_nothing
           env_under_scripts scripts_root (lit "scripts") examples.world0).
  - simpl. left. reflexivity.
  - vm_compute. right. right. right. left. reflexivity.
  - intros p [<- | [<- | []]].
    + exists [lit "manage.py"]. vm_compute. reflexivity.
    + exists [lit "interview"; lit "models.py"]. vm_compute. reflexivity.
Defined.

(** ** Searching *)
Section Searching.
Import search_code_base search_main.
Context (env : Env).

(** X16. [search_code_base] leaves no client open and changes nothing it
    searches: on every path, failure included, as many clients are open
    afterwards as before, the collection, the files and the pending input
    are as before, and exactly one HTTP request was sent, the embedding
    request for the query. *)
Theorem search_code_base_closes_client
  (query : str) (limit : option nat) (w : World) :
  let w' := snd (search_code_base env query limit w) in
  clients_open w' = clients_open w /\
  collection w' = collection w /\
  files w' = files w /\
  directories w' = directories w /\
  stdin w' = stdin w /\
  clock_reads w' = clock_reads w /\
  posted w' = posted w ++ [embedding_request env query].
Proof.
  cbv zeta. rewrite scripts_theory.search_code_base_run.
  pose proof (scripts_theory.get_vector_embedding_frame env query w) as Hfr.
  destruct (get_vector_embedding env query w) as [[v | e] w1]; subst w1;
    [| simpl; repeat split].
  destruct (weaviate_connect_fault env _); [simpl; repeat split |].
  destruct (weaviate_query_fault env _ v _); simpl; repeat split.
Qed.

(** The matches of a search can always be shown. *)
Lemma print_results_matches (i : nat) (objs : list WeaviateObject)
  (w : World) :
  exists w', print_results i (map match_of objs) w = (Ok tt, w') /\
             files w' = files w.
Proof.
  revert i w. induction objs as [| o objs IH]; intros i w.
  - exists w. split; reflexivity.
  - simpl. unfold lift_result, print. run_monad. simpl.
    destruct (IH (S i) (printed (repeat 45%N 80)
                (printed (content (properties o))
                   (printed (repeat 45%N 40)
                      (printed (lit "Content:")
                         (printed (nl ++ str_of_nat i ++ lit ". File: " ++
                                   file_path (properties o)) w))))))
      as (w' & Hrun & Hfiles).
    exists w'. split; [exact Hrun | rewrite Hfiles; reflexivity].
Qed.

Ltac not_header :=
  let H := fresh in
  simpl; intros H;
  repeat match type of H with
         | _ \/ _ => destruct H as [H | H]
         | False => destruct H
         | _ = _ => discriminate H
         end.

(** X17. [main] of search_code_base.py, once it has read a query, always
    returns normally; and when the search raises, the handler prints the
    error as the last line, and neither the query nor the
    [Matching Files] header is shown. *)
Theorem search_main_reports_failure
  (w : World) (query : str) (rest : list str) :
  stdin w = query :: rest ->
  let w0 := set_stdin (fun _ => rest)
              (printed (lit "Enter your search query: ") w) in
  (exists w', main env w = (Ok tt, w')) /\
  (forall e w1,
     search_code_base env query None w0 = (Raise e, w1) ->
     exists log,
       main env w = (Ok tt, printed (search_error e) w1) /\
       stdout (printed (search_error e) w1) = stdout w ++ log /\
       last log = Some (search_error e) /\
       ~ In (nl ++ lit "Matching Files:") log /\
       ~ In (nl ++ lit "Search Query: " ++ query) log).
Proof.
  intros Hin w0.
  assert (Hmain : main env w =
            match search_and_show env query w0 with
            | (Ok _, w') => (Ok tt, w')
            | (Raise e, w') => (Ok tt, printed (search_error e) w')
            end).
  { unfold main, input, read_line, print. run_monad. simpl. rewrite Hin.
    fold w0. destruct (search_and_show env query w0) as [[[] | e] w'];
      reflexivity. }
  split.
  - rewrite Hmain. destruct (search_and_show env query w0) as [[[] | e] w'];
      eexists; reflexivity.
  - intros e w1 Hs. rewrite Hmain.
    unfold search_and_show. run_monad. rewrite Hs.
    rewrite scripts_theory.search_code_base_run in Hs.
    pose proof (scripts_theory.get_vector_embedding_frame env query w0)
      as Hfr.
    destruct (get_vector_embedding env query w0) as [[v | e0] w2]; subst w2.
    + destruct (weaviate_connect_fault env _).
      * injection Hs as <- <-. eexists. split; [reflexivity |]. simpl.
        repeat split; [rewrite <- !app_assoc; reflexivity | reflexivity
                      | not_header | not_header].
      * destruct (weaviate_query_fault env _ v _); [| discriminate].
        injection Hs as <- <-. eexists. split; [reflexivity |]. simpl.
        repeat split; [rewrite <- !app_assoc; reflexivity | reflexivity
                      | not_header | not_header].
    + injection Hs as <- <-. eexists. split; [reflexivity |]. simpl.
      repeat split; [rewrite <- !app_assoc; reflexivity | reflexivity
                    | not_header | not_header].
Qed.

End Searching.

(** X17 at a concrete input: the embedding service fails. *)
Lemma search_main_reports_failure_witness :
  exists w',
    search_main.main examples.env_flaky examples.world0 = (Ok tt, w') /\
    stdout w' = [lit "Enter your search query: ";
                 lit "Error getting embeddings: 503 Server Error";
                 lit "Error during search: 503 Server Error"].
Proof.
  destruct (search_main_reports_failure examples.env_flaky examples.world0
              (lit "add an interview model") [] eq_refl) as [_ Hfail].
  destruct (Hfail (LibraryError "HTTPError" (lit "503 Server Error"))
              (snd (search_code_base.search_code_base examples.env_flaky
                      (lit "add an interview model") None
                      (set_stdin (fun _ => [])
                         (printed (lit "Enter your search query: ")
                            examples.world0)))))
    as (log & Hrun & _).
  - vm_compute. reflexivity.
  - eexists. split; [exact Hrun |]. vm_compute. reflexivity.
Defined.

(** ** Formatting *)

Lemma substring_refl (s : str) : substring s s.
Proof. exists [], []. rewrite app_nil_r. reflexivity. Qed.

Lemma substring_trans (a b c : str) :
  substring a b -> substring b c -> substring a c.
Proof.
  intros (p1 & q1 & ->) (p2 & q2 & ->).
  exists (p2 ++ p1), (q1 ++ q2). rewrite <- !app_assoc. reflexivity.
Qed.

(** Every item of a joined list occurs in the result. *)
Lemma substring_join (sep x : str) (l : list str) :
  In x l -> substring x (join sep l).
Proof.
  induction l as [| y l IH]; [intros [] |].
  intros [-> | Hin].
  - destruct l; [apply substring_refl | apply scripts_theory.substring_here].
  - destruct l as [| z l]; [destruct Hin |].
    change (join sep (y :: z :: l)) with (y ++ sep ++ join sep (z :: l)).
    do 2 apply scripts_theory.substring_app_r. apply IH. exact Hin.
Qed.

Section Formatting.
Import generate_task_plan.

Lemma formatted_results_spec (rs : list (list (string * str))) :
  match formatted_results rs with
  | Ok l =>
      Forall has_both_keys rs /\
      forall r fp c, In r rs -> assoc "file_path" r = Some fp ->
                     assoc "content" r = Some c -> In (block fp c) l
  | Raise e =>
      ~ Forall has_both_keys rs /\
      (e = KeyError "file_path" \/ e = KeyError "content")
  end.
Proof.
  induction rs as [| r rs IH]; simpl.
  - split; [constructor | intros r fp c []].
  - unfold result_getitem at 1.
    destruct (assoc "file_path" r) as [fp |] eqn:Hfp.
    2:{ split; [| left; reflexivity].
        intros H. inversion H as [| ? ? [[x Hx] _] _]; subst. congruence. }
    unfold result_getitem at 1.
    destruct (assoc "content" r) as [c |] eqn:Hc.
    2:{ split; [| right; reflexivity].
        intros H. inversion H as [| ? ? [_ [x Hx]] _]; subst. congruence. }
    destruct (formatted_results rs) as [l | e].
    + destruct IH as [Hall Hin]. split.
      * constructor; [split; eexists; eassumption | exact Hall].
      * intros r' fp' c' [<- | Hr] H1 H2.
        -- left. congruence.
        -- right. eapply Hin; eassumption.
    + destruct IH as [Hnot He]. split; [| exact He].
      intros H. inversion H; subst. contradiction.
Qed.

(** X18. [format_code_context] succeeds exactly when every result has both
    keys [file_path] and [content]; otherwise it raises [KeyError] for one
    of the two keys. Other keys of a result play no part. *)
Theorem format_code_context_needs_both_keys
  (search_results : list (list (string * str))) :
  ((exists code_context, format_code_context search_results = Ok code_context)
   <-> Forall has_both_keys search_results) /\
  (forall e, format_code_context search_results = Raise e ->
     e = KeyError "file_path" \/ e = KeyError "content").
Proof.
  pose proof (formatted_results_spec search_results) as H.
  unfold format_code_context.
  destruct (formatted_results search_results) as [l | e].
  - destruct H as [Hall _]. split.
    + split; [intros _; exact Hall | intros _; eexists; reflexivity].
    + intros e [=].
  - destruct H as [Hnot He]. split.
    + split; [intros [ctx [=]] | intros Hall; contradiction].
    + intros e' [= <-]. exact He.
Qed.

(** X19. The code context shows every match: when [format_code_context]
    succeeds, the block of each result, and so its file path and its
    content, occur verbatim in the context; and for no result the context
    is the empty string. *)
Theorem format_code_context_shows_every_match
  (search_results : list (list (string * str))) (code_context : str) :
  format_code_context search_results = Ok code_context ->
  (forall r fp c,
     In r search_results ->
     assoc "file_path" r = Some fp ->
     assoc "content" r = Some c ->
     substring (block fp c) code_context /\
     substring fp code_context /\
     substring c code_context) /\
  (search_results = [] -> code_context = []).
Proof.
  intros Hf.
  pose proof (formatted_results_spec search_results) as H.
  unfold format_code_context in Hf.
  destruct (formatted_results search_results) as [l | e] eqn:Hl;
    [| discriminate].
  injection Hf as <-. destruct H as [_ Hin]. split.
  - intros r fp c Hr Hfp Hc.
    assert (Hb : substring (block fp c) (join nl l)).
    { apply substring_join. eapply Hin; eassumption. }
    split; [exact Hb |]. split.
    + eapply substring_trans; [| exact Hb]. unfold block.
      apply scripts_theory.substring_app_r, scripts_theory.substring_here.
    + eapply substring_trans; [| exact Hb]. unfold block.
      do 6 apply scripts_theory.substring_app_r.
      apply scripts_theory.substring_here.
  - intros ->. simpl in Hl. injection Hl as <-. reflexivity.
Qed.

End Formatting.

(** X19 at a concrete input: the two matches of [examples.world0]. *)
Lemma format_code_context_shows_every_match_witness :
  let rs := map search_code_base.match_of (collection examples.world0) in
  exists code_context,
    generate_task_plan.format_code_context rs = Ok code_context /\
    substring (lit "interview/views.py") code_context /\
    substring (lit "def index(): pass") code_context.
Proof.
  intros rs.
  destruct (generate_task_plan.format_code_context rs) as [ctx | e] eqn:Hf;
    [| vm_compute in Hf; discriminate].
  exists ctx. split; [reflexivity |].
  destruct (format_code_context_shows_every_match rs ctx Hf) as [Hall _].
  destruct (Hall (search_code_base.match_of
                    (examples.stored "interview/views.py" "def index(): pass"))
              (lit "interview/views.py") (lit "def index(): pass"))
    as (_ & Hfp & Hc); try reflexivity.
  - right. left. reflexivity.
  - split; assumption.
Defined.

(** ** Planning *)
Section Planning.
Import search_code_base generate_task_plan.
Context (env : Env).

Ltac not_header :=
  let H := fresh in
  simpl; intros H;
  repeat match type of H with
         | _ \/ _ => destruct H as [H | H]
         | False => destruct H
         | _ = _ => discriminate H
         end.

(** What a search leaves as it was. *)
Lemma search_code_base_frame (query : str) (limit : option nat) (w : World) :
  let w' := snd (search_code_base env query limit w) in
  clients_open w' = clients_open w /\ collection w' = collection w /\
  files w' = files w /\ directories w' = directories w /\
  stdin w' = stdin w /\ clock_reads w' = clock_reads w.
Proof.
  cbv zeta. rewrite scripts_theory.search_code_base_run.
  pose proof (scripts_theory.get_vector_embedding_frame env query w) as Hfr.
  destruct (get_vector_embedding env query w) as [[v | e] w1]; subst w1;
    [| simpl; repeat split].
  destruct (weaviate_connect_fault env _); [simpl; repeat split |].
  destruct (weaviate_query_fault env _ v _); simpl; repeat split.
Qed.

(** What the body of the [try] leaves as it was, whatever its outcome. *)
Lemma plan_for_frame (user_query : str) (w : World) :
  let w' := snd (plan_for env user_query w) in
  clients_open w' = clients_open w /\ collection w' = collection w /\
  stdin w' = stdin w.
Proof.
  cbv zeta. rewrite scripts_theory.plan_for_run.
  pose proof (search_code_base_frame user_query None
                (printed (nl ++ lit "Searching for relevant code files...") w))
    as (S1 & S2 & _ & _ & S3 & _).
  destruct (search_code_base env user_query None _) as [[results | e] w2];
    simpl in S1, S2, S3; [| simpl; auto].
  destruct (format_code_context results) as [ctx | e]; [| simpl; auto].
  pose proof (scripts_theory.get_chat_completion_frame env (spliced env ctx)
                user_query
                (printed (nl ++ lit "Generating task plan...") w2)) as Hfr.
  destruct (get_chat_completion env _ _ _) as [[plan | e] w3]; subst w3;
    [| simpl; auto].
  rewrite scripts_theory.save_query_and_response_run.
  destruct (makedirs_fault env _ _); [simpl; auto |]. cbv zeta.
  destruct (write_fault env _ _); [simpl; auto |].
  destruct (write_text_fault env _ _ _) as [[e kept] |]; simpl; auto.
Qed.

(** X20. [generate_task_plan] lets exactly one exception out: the
    [EOFError] of [input], which is read outside the [try]; then only the
    prompt has been printed. As soon as a line can be read, the function
    returns normally whatever fails afterwards, having consumed that one
    line, with the collection unchanged and no client left open. *)
Theorem generate_task_plan_raises_only_at_end_of_input (w : World) :
  (stdin w = [] ->
   generate_task_plan env w =
     (Raise (LibraryError "EOFError" (lit "EOF when reading a line")),
      printed (lit "Enter your task description: ") w)) /\
  (forall user_query rest,
     stdin w = user_query :: rest ->
     exists w',
       generate_task_plan env w = (Ok tt, w') /\
       stdin w' = rest /\
       collection w' = collection w /\
       clients_open w' = clients_open w).
Proof.
  split.
  - intros Hin. unfold generate_task_plan, input, read_line, print.
    run_monad. simpl. rewrite Hin. reflexivity.
  - intros q rest Hin.
    rewrite (scripts_theory.generate_task_plan_run env w q rest Hin).
    cbv zeta.
    pose proof (plan_for_frame q
                  (set_stdin (fun _ => rest)
                     (printed (lit "Enter your task description: ") w)))
      as (F1 & F2 & F3).
    destruct (plan_for env q _) as [[[] | e] w']; simpl in F1, F2, F3;
      eexists; (split; [reflexivity |]); simpl; auto.
Qed.

(** X21. A plan that cannot be saved is not shown: when the search, the
    formatting and the chat completion succeed but saving raises [e], the
    run ends in the handler, which prints [e] as the last of four lines;
    the plan and its header are not printed. No file other than the one
    being saved changes. Saving raises in one of three places: when making
    the directory or opening the file raised [e], no file has changed at
    all; otherwise writing the opened file raised [e], and the file being
    saved is left behind, holding what had reached it (possibly nothing)
    in place of whatever a file of that name held. *)
Theorem generate_task_plan_unsaved_plan_is_not_shown
  (w w2 w3 w4 : World) (user_query : str) (rest : list str)
  (search_results : list (list (string * str))) (code_context : str)
  (task_plan : JSON) (e : exn) :
  stdin w = user_query :: rest ->
  search_code_base env user_query None (asked rest w)
    = (Ok search_results, w2) ->
  format_code_context search_results = Ok code_context ->
  get_chat_completion env (spliced env code_context) user_query
    (printed (nl ++ lit "Generating task plan...") w2) = (Ok task_plan, w3) ->
  save_query_and_response env user_query task_plan code_context w3
    = (Raise e, w4) ->
  let filename := query_filename env (clock w (clock_reads w)) in
  let text := markdown env (clock w (S (clock_reads w)))
                user_query task_plan code_context in
  exists log,
    generate_task_plan env w = (Ok tt, printed (planning_error e) w4) /\
    stdout (printed (planning_error e) w4) = stdout w ++ log /\
    last log = Some (planning_error e) /\
    ~ In (nl ++ lit "Task Plan:") log /\
    length log = 4 /\
    (forall other, other <> filename ->
       files w4 !! other = files w !! other) /\
    (((makedirs_fault env w3 (QUERIES_DIR env) = Some e \/
       write_fault env (ready_to_open env w3) filename = Some e) /\
      files w4 = files w) \/
     (exists kept,
        write_text_fault env (ready_to_write env filename w3) filename text
          = Some (e, kept) /\
        files w4 = <[ filename := kept ]> (files w))).
Proof.
  intros Hin Hs Hf Hc Hsave filename text.
  rewrite (scripts_theory.generate_task_plan_run env w user_query rest Hin).
  cbv zeta. rewrite scripts_theory.plan_for_run. fold (asked rest w).
  rewrite Hs, Hf, Hc, Hsave.
  pose proof (scripts_theory.get_chat_completion_frame env
                (spliced env code_context) user_query
                (printed (nl ++ lit "Generating task plan...") w2)) as Hfr.
  rewrite Hc in Hfr. subst w3.
  rewrite scripts_theory.search_code_base_run in Hs.
  pose proof (scripts_theory.get_vector_embedding_frame env user_query
                (asked rest w)) as Hfe.
  destruct (get_vector_embedding env user_query (asked rest w))
    as [[v | e0] w1]; [| discriminate].
  subst w1.
  destruct (weaviate_connect_fault env _); [discriminate |].
  destruct (weaviate_query_fault env _ _ _); [discriminate |].
  injection Hs as _ <-.
  rewrite scripts_theory.save_query_and_response_run in Hsave.
  destruct (makedirs_fault env _ _) as [e1 |] eqn:Hmk.
  - injection Hsave as <- <-. eexists. split; [reflexivity |]. simpl.
    split; [rewrite <- !app_assoc; reflexivity |].
    split; [reflexivity |]. split; [not_header |].
    split; [reflexivity |]. split; [reflexivity |].
    left. split; [left; reflexivity | reflexivity].
  - cbv zeta in Hsave.
    destruct (write_fault env _ _) as [e1 |] eqn:Hop.
    + injection Hsave as <- <-. eexists. split; [reflexivity |]. simpl.
      split; [rewrite <- !app_assoc; reflexivity |].
      split; [reflexivity |]. split; [not_header |].
      split; [reflexivity |]. split; [reflexivity |].
      left. split; [right; first [reflexivity | exact Hop] | reflexivity].
    + destruct (write_text_fault env _ _ _) as [[e1 kept] |] eqn:Hwr;
        [| discriminate].
      injection Hsave as <- <-. eexists. split; [reflexivity |]. simpl.
      split; [rewrite <- !app_assoc; reflexivity |].
      split; [reflexivity |]. split; [not_header |].
      split; [reflexivity |]. split.
      * intros other Hne.
        rewrite !lookup_insert_ne by (intros Heq; apply Hne; symmetry;
                                      exact Heq).
        reflexivity.
      * right. exists kept. split; [first [reflexivity | exact Hwr] |].
        apply insert_insert_eq.
Qed.

(** X22. A successful run, in full: it sends two requests, the embedding
    request for the query and then the chat request; it prints the prompt,
    the two progress lines, the name of the saved file, the header, and the
    plan between two rules; it reads the clock twice, makes the queries
    directory, leaves no client open and does not change the collection. *)
Theorem generate_task_plan_successful_run
  (w w' : World) (user_query : str) (rest : list str) :
  stdin w = user_query :: rest ->
  plan_for env user_query
    (set_stdin (fun _ => rest)
       (printed (lit "Enter your task description: ") w)) = (Ok tt, w') ->
  exists code_context task_plan,
    generate_task_plan env w = (Ok tt, w') /\
    posted w' = posted w ++
      [search_code_base.embedding_request env user_query;
       chat_request env (spliced env code_context) user_query] /\
    stdout w' = stdout w ++
      [lit "Enter your task description: ";
       nl ++ lit "Searching for relevant code files...";
       nl ++ lit "Generating task plan...";
       nl ++ lit "Query and response saved to: " ++
         query_filename env (clock w (clock_reads w));
       nl ++ lit "Task Plan:";
       rule;
       format_value env task_plan;
       rule] /\
    clock_reads w' = S (S (clock_reads w)) /\
    directories w' = {[ QUERIES_DIR env ]} ∪ directories w /\
    clients_open w' = clients_open w /\
    collection w' = collection w /\
    stdin w' = rest.
Proof.
  intros Hin Hrun.
  assert (Hgen : generate_task_plan env w = (Ok tt, w')).
  { rewrite (scripts_theory.generate_task_plan_run env w user_query rest Hin).
    cbv zeta. rewrite Hrun. reflexivity. }
  rewrite scripts_theory.plan_for_run in Hrun. fold (asked rest w) in Hrun.
  rewrite scripts_theory.search_code_base_run in Hrun.
  pose proof (scripts_theory.get_vector_embedding_frame env user_query
                (asked rest w)) as Hfe.
  destruct (get_vector_embedding env user_query (asked rest w))
    as [[v | e0] w1]; [| discriminate].
  subst w1.
  destruct (weaviate_connect_fault env _); [discriminate |].
  destruct (weaviate_query_fault env _ _ _); [discriminate |].
  destruct (format_code_context _) as [ctx | e]; [| discriminate].
  pose proof (scripts_theory.get_chat_completion_frame env (spliced env ctx)
                user_query) as Hfr.
  match type of Hrun with
  | context [get_chat_completion env _ _ ?w2] => specialize (Hfr w2)
  end.
  destruct (get_chat_completion env (spliced env ctx) user_query _)
    as [[plan | e] w3]; [| discriminate].
  subst w3.
  rewrite scripts_theory.save_query_and_response_run in Hrun.
  destruct (makedirs_fault env _ _); [discriminate |]. cbv zeta in Hrun.
  destruct (write_fault env _ _); [discriminate |].
  destruct (write_text_fault env _ _ _) as [[e kept] |]; [discriminate |].
  injection Hrun as <-.
  exists ctx, plan. split; [exact Hgen |].
  simpl. rewrite <- !app_assoc. repeat split.
Qed.

(** X23. [save_query_and_response] touches one file and no other: every
    file but the one named after the first clock reading is as before,
    however the call ends. When it returns normally, that file holds the
    markdown text (replacing whatever a file of that name held) and the
    queries directory exists. When it raises, one of three things has
    happened: making the directory raised, and the world is as before;
    or opening the file raised, and no file has changed; or writing the
    opened file raised, and the file is left behind holding what had
    reached it, its previous content gone. *)
Theorem save_query_and_response_writes_one_file
  (query : str) (task_plan : JSON) (code_context : str) (w : World) :
  let filename := query_filename env (clock w (clock_reads w)) in
  let text := markdown env (clock w (S (clock_reads w)))
                query task_plan code_context in
  let r := save_query_and_response env query task_plan code_context w in
  (forall other, other <> filename ->
     files (snd r) !! other = files w !! other) /\
  (fst r = Ok tt ->
   files (snd r) !! filename = Some text /\
   QUERIES_DIR env ∈ directories (snd r)) /\
  (forall e, fst r = Raise e ->
     (makedirs_fault env w (QUERIES_DIR env) = Some e /\ snd r = w) \/
     (makedirs_fault env w (QUERIES_DIR env) = None /\
      write_fault env (ready_to_open env w) filename = Some e /\
      files (snd r) = files w) \/
     (makedirs_fault env w (QUERIES_DIR env) = None /\
      write_fault env (ready_to_open env w) filename = None /\
      exists kept,
        write_text_fault env (ready_to_write env filename w) filename text
          = Some (e, kept) /\
        files (snd r) !! filename = Some kept)).
Proof.
  cbv zeta. rewrite scripts_theory.save_query_and_response_run.
  destruct (makedirs_fault env _ _) as [e1 |].
  { split; [reflexivity |]. split; [discriminate |].
    intros e [= <-]. left. split; reflexivity. }
  cbv zeta. destruct (write_fault env _ _) as [e1 |].
  { split; [reflexivity |]. split; [discriminate |].
    intros e [= <-]. right. left. repeat split. }
  destruct (write_text_fault env _ _ _) as [[e1 kept] |].
  - split.
    { intros other Hne. simpl.
      rewrite !lookup_insert_ne by congruence. reflexivity. }
    split; [discriminate |].
    intros e [= <-]. right. right. split; [reflexivity |].
    split; [reflexivity |]. exists kept. split; [reflexivity |].
    simpl. apply lookup_insert_eq.
  - split.
    { intros other Hne. simpl.
      rewrite !lookup_insert_ne by congruence. reflexivity. }
    split; [| discriminate].
    intros _. split; [simpl; apply lookup_insert_eq |].
    simpl. set_solver.
Qed.

(** X24. [get_chat_completion] returns the content of the first choice of
    the answer, whatever follows in the list, and prints nothing. *)
Theorem get_chat_completion_returns_first_choice
  (system_prompt user_query : str) (w : World)
  (fields choice message : list (string * JSON)) (others : list JSON)
  (v : JSON) :
  http env w (chat_request env system_prompt user_query) = Ok (JObj fields) ->
  assoc "choices" fields = Some (JArr (JObj choice :: others)) ->
  assoc "message" choice = Some (JObj message) ->
  assoc "content" message = Some v ->
  get_chat_completion env system_prompt user_query w =
    (Ok v,
     set_posted (fun l => l ++ [chat_request env system_prompt user_query]) w).
Proof.
  intros Hh H1 H2 H3.
  unfold get_chat_completion, requests_post, lift_result.
  run_monad. simpl. rewrite Hh. simpl. rewrite H1. simpl. rewrite H2. simpl.
  rewrite H3. reflexivity.
Qed.

End Planning.

(** ** File names *)

Lemma digit_inj (a b : N) : digit a = digit b -> (a mod 10 = b mod 10)%N.
Proof. unfold digit. lia. Qed.

Lemma decimal_step (a b : N) :
  (a mod 10 = b mod 10)%N -> (a / 10 = b / 10)%N -> a = b.
Proof.
  intros Hm Hd.
  rewrite (N.div_mod a 10), (N.div_mod b 10) by discriminate.
  rewrite Hm, Hd. reflexivity.
Qed.

Lemma pad2_inj (a b : N) :
  (a < 100)%N -> (b < 100)%N -> pad2 a = pad2 b -> a = b.
Proof.
  unfold pad2. intros Ha Hb [= H1 H2].
  apply digit_inj in H1. apply digit_inj in H2.
  rewrite !N.mod_small in H1
    by (apply N.Div0.div_lt_upper_bound; assumption).
  apply decimal_step; assumption.
Qed.

Lemma pad4_inj (a b : N) :
  (a < 10000)%N -> (b < 10000)%N -> pad4 a = pad4 b -> a = b.
Proof.
  unfold pad4. intros Ha Hb [= H1 H2 H3 H4].
  apply digit_inj in H1. apply digit_inj in H2.
  apply digit_inj in H3. apply digit_inj in H4.
  rewrite !N.mod_small in H1
    by (apply N.Div0.div_lt_upper_bound; assumption).
  apply decimal_step; [assumption |].
  apply decimal_step; [assumption |].
  rewrite !N.Div0.div_div. change (10 * 10)%N with 100%N.
  apply decimal_step; [assumption |].
  rewrite !N.Div0.div_div. exact H1.
Qed.

Lemma strftime_stamp (d : datetime) :
  strftime d (lit "%Y%m%d_%H%M%S") =
  pad4 (year d) ++ pad2 (month d) ++ pad2 (day d) ++ [95%N] ++
  pad2 (hour d) ++ pad2 (minute d) ++ pad2 (second d).
Proof. reflexivity. Qed.

Lemma os_path_join_query (a : str) :
  exists pre, forall x,
    os_path_join a (lit "query_" ++ x ++ lit ".md") =
    pre ++ lit "query_" ++ x ++ lit ".md".
Proof.
  unfold os_path_join.
  change (startswith slash (lit "query_" ++ ?x)) with false.
  destruct a as [| c a].
  - exists []. reflexivity.
  - destruct (List.last (c :: a) 0 =? 47)%N.
    + exists (c :: a). reflexivity.
    + exists ((c :: a) ++ slash). intros x. rewrite <- app_assoc. reflexivity.
Qed.

(** X25. The name of the saved file identifies the second of the save and
    nothing finer: for two valid times, the file names are equal exactly
    when year, month, day, hour, minute and second agree. So two saves in
    different seconds never share a file, and two saves in the same second
    do (the later one replaces the earlier). *)
Theorem query_filename_identifies_the_second (env : Env) (d d' : datetime) :
  valid_datetime d -> valid_datetime d' ->
  (generate_task_plan.query_filename env d
     = generate_task_plan.query_filename env d'
   <-> same_second d d').
Proof.
  intros V V'. unfold generate_task_plan.query_filename.
  destruct (os_path_join_query (generate_task_plan.QUERIES_DIR env))
    as [pre Hpre].
  rewrite !Hpre, !strftime_stamp. split.
  - intros H. apply app_inv_head in H. apply app_inv_head in H.
    apply app_inv_tail in H.
    unfold valid_datetime in V, V'. unfold same_second.
    injection H as Y1 Y2 Y3 Y4 M1 M2 D1 D2 H1 H2 I1 I2 S1 S2.
    assert (HY : pad4 (year d) = pad4 (year d'))
      by (unfold pad4; congruence).
    assert (HM : pad2 (month d) = pad2 (month d'))
      by (unfold pad2; congruence).
    assert (HD : pad2 (day d) = pad2 (day d')) by (unfold pad2; congruence).
    assert (HH : pad2 (hour d) = pad2 (hour d')) by (unfold pad2; congruence).
    assert (HI : pad2 (minute d) = pad2 (minute d'))
      by (unfold pad2; congruence).
    assert (HS : pad2 (second d) = pad2 (second d'))
      by (unfold pad2; congruence).
    apply pad4_inj in HY; [| lia | lia].
    apply pad2_inj in HM; [| lia | lia].
    apply pad2_inj in HD; [| lia | lia].
    apply pad2_inj in HH; [| lia | lia].
    apply pad2_inj in HI; [| lia | lia].
    apply pad2_inj in HS; [| lia | lia].
    auto 10.
  - intros (-> & -> & -> & -> & -> & ->). reflexivity.
Qed.

(** X25 at a concrete input: one second apart. *)
Lemma query_filename_identifies_the_second_witness :
  let later :=
    {| year := 2024; month := 3; day := 7;
       hour := 12; minute := 0; second := 1; microsecond := 0 |} in
  generate_task_plan.query_filename examples.env_ok examples.noon
    <> generate_task_plan.query_filename examples.env_ok later.
Proof.
  intros later H.
  apply (query_filename_identifies_the_second examples.env_ok examples.noon
           later) in H.
  - destruct H as (_ & _ & _ & _ & _ & Hs). discriminate Hs.
  - unfold valid_datetime. simpl. lia.
  - unfold valid_datetime. simpl. lia.
Defined.

(** X21 at two concrete inputs: the markdown file cannot be opened, and
    nothing is written; the file is opened but the disk is full, and an
    empty file is left behind. *)
Lemma generate_task_plan_unsaved_plan_is_not_shown_witness :
  (exists w',
     generate_task_plan.generate_task_plan env_read_only examples.world0
       = (Ok tt, w') /\
     files w' = ∅ /\
     stdout w' = [lit "Enter your task description: ";
                  nl ++ lit "Searching for relevant code files...";
                  nl ++ lit "Generating task plan...";
                  lit "Error during task planning: Permission denied"]) /\
  (exists w',
     generate_task_plan.generate_task_plan env_disk_full examples.world0
       = (Ok tt, w') /\
     files w' =
       {[ lit "/srv/tools/scripts/queries/query_20240307_120000.md" := [] ]} /\
     stdout w' = [lit "Enter your task description: ";
                  nl ++ lit "Searching for relevant code files...";
                  nl ++ lit "Generating task plan...";
                  lit "Error during task planning: No space left on device"]).
Proof.
  pose (q := lit "add an interview model").
  pose (ctx := match generate_task_plan.format_code_context
                       (map search_code_base.match_of
                          (collection examples.world0)) with
               | Ok c => c
               | Raise _ => []
               end).
  split.
  - pose (e := LibraryError "PermissionError" (lit "Permission denied")).
    pose (r2 := search_code_base.search_code_base env_read_only q None
                  (generate_task_plan.asked [] examples.world0)).
    pose (r3 := generate_task_plan.get_chat_completion env_read_only
                  (generate_task_plan.spliced env_read_only ctx) q
                  (printed (nl ++ lit "Generating task plan...") (snd r2))).
    pose (r4 := generate_task_plan.save_query_and_response env_read_only q
                  (JStr (lit "1. Add the model")) ctx (snd r3)).
    destruct (generate_task_plan_unsaved_plan_is_not_shown env_read_only
                examples.world0 (snd r2) (snd r3) (snd r4) q []
                (map search_code_base.match_of (collection examples.world0))
                ctx (JStr (lit "1. Add the model")) e)
      as (log & Hrun & _ & _ & _ & _ & _ & Hcase);
      try (vm_compute; reflexivity).
    eexists. split; [exact Hrun |]. split.
    + destruct Hcase as [[_ Hfiles] | (kept & Hwr & _)];
        [exact Hfiles | discriminate Hwr].
    + vm_compute. reflexivity.
  - pose (e := LibraryError "OSError" (lit "No space left on device")).
    pose (r2 := search_code_base.search_code_base env_disk_full q None
                  (generate_task_plan.asked [] examples.world0)).
    pose (r3 := generate_task_plan.get_chat_completion env_disk_full
                  (generate_task_plan.spliced env_disk_full ctx) q
                  (printed (nl ++ lit "Generating task plan...") (snd r2))).
    pose (r4 := generate_task_plan.save_query_and_response env_disk_full q
                  (JStr (lit "1. Add the model")) ctx (snd r3)).
    destruct (generate_task_plan_unsaved_plan_is_not_shown env_disk_full
                examples.world0 (snd r2) (snd r3) (snd r4) q []
                (map search_code_base.match_of (collection examples.world0))
                ctx (JStr (lit "1. Add the model")) e)
      as (log & Hrun & _ & _ & _ & _ & _ & Hcase);
      try (vm_compute; reflexivity).
    eexists. split; [exact Hrun |]. split.
    + destruct Hcase as [[[Hmk | Hop] _] | (kept & Hwr & Hfiles)];
        [discriminate Hmk | discriminate Hop |].
      injection Hwr as <-. exact Hfiles.
    + vm_compute. reflexivity.
Defined.

(** X22 at a concrete input: every service answers. *)
Lemma generate_task_plan_successful_run_witness :
  let w' := snd (generate_task_plan.generate_task_plan examples.env_ok
                   examples.world0) in
  length (posted w') = 2 /\
  length (stdout w') = 8 /\
  clock_reads w' = 2 /\
  clients_open w' = 0 /\
  stdin w' = [].
Proof.
  intros w'.
  destruct (generate_task_plan_successful_run examples.env_ok
              examples.world0 w' (lit "add an interview model") [])
    as (ctx & plan & _ & Hposted & Hout & Hclock & _ & Hclients & _ & Hin).
  - reflexivity.
  - vm_compute. reflexivity.
  - rewrite Hposted, Hout, Hclock, Hclients, Hin. repeat split.
Defined.

(** X24 at a concrete input: the answer of [examples.env_ok]. *)
Lemma get_chat_completion_returns_first_choice_witness :
  fst (generate_task_plan.get_chat_completion examples.env_ok
         (lit "prompt") (lit "query") examples.world0)
  = Ok (JStr (lit "1. Add the model")).
Proof.
  rewrite (get_chat_completion_returns_first_choice examples.env_ok
             (lit "prompt") (lit "query") examples.world0
             [("choices"%string,
               JArr [JObj [("message"%string,
                            JObj [("content"%string,
                                   JStr (lit "1. Add the model"))])]])]
             [("message"%string,
               JObj [("content"%string, JStr (lit "1. Add the model"))])]
             [("content"%string, JStr (lit "1. Add the model"))]
             [] (JStr (lit "1. Add the model")));
    reflexivity.
Defined.

(** ** The collection and [main] of index_code_base.py *)
Section Schema.
Import index_main.
Context (env : Env) (senv : SchemaEnv).

(** [init_weaviate_collection], by cases. *)
Lemma init_weaviate_collection_run (c : Cluster) :
  init_weaviate_collection senv c =
  match list_all_fault senv c with
  | Some e => (Raise e, c)
  | None =>
      match cluster_collections c !! CodeFile with
      | Some _ =>
          (Ok tt,
           {| cluster_world :=
                printed (lit "Collection 'CodeFile' already exists")
                  (cluster_world c);
              cluster_collections := cluster_collections c |})
      | None =>
          match create_fault senv c CodeFile with
          | Some e => (Raise e, c)
          | None =>
              (Ok tt,
               {| cluster_world :=
                    printed (lit "Collection 'CodeFile' created successfully")
                      (cluster_world c);
                  cluster_collections :=
                    <[ CodeFile := CodeFile_config ]> (cluster_collections c)
               |})
          end
      end
  end.
Proof.
  unfold init_weaviate_collection, collections_list_all, collections_create,
    raise_when, in_world, print.
  run_monad. fold CodeFile.
  destruct (list_all_fault senv c); [reflexivity |]. simpl.
  destruct (cluster_collections c !! CodeFile) eqn:Hc; [reflexivity |].
  destruct (create_fault senv c CodeFile); [reflexivity |]. simpl.
  rewrite Hc. reflexivity.
Qed.

(** X26. [init_weaviate_collection] creates the collection only when it is
    missing. When the cluster answers, the collection [CodeFile] exists
    afterwards; a collection that was there before, [CodeFile] included,
    keeps the configuration it had (an existing [CodeFile] is not checked
    and not replaced); and when [CodeFile] was missing it is created with
    the two text properties and no vectorizer. *)
Theorem init_weaviate_collection_ensures_collection (c : Cluster) :
  list_all_fault senv c = None ->
  create_fault senv c CodeFile = None ->
  exists c',
    init_weaviate_collection senv c = (Ok tt, c') /\
    is_Some (cluster_collections c' !! CodeFile) /\
    (forall name config,
       cluster_collections c !! name = Some config ->
       cluster_collections c' !! name = Some config) /\
    (forall name, name <> CodeFile ->
       cluster_collections c' !! name = cluster_collections c !! name) /\
    (cluster_collections c !! CodeFile = None ->
     cluster_collections c' !! CodeFile = Some CodeFile_config) /\
    (is_Some (cluster_collections c !! CodeFile) ->
     cluster_collections c' = cluster_collections c).
Proof.
  intros Hl Hc. rewrite init_weaviate_collection_run, Hl.
  destruct (cluster_collections c !! CodeFile) as [cfg |] eqn:Hex.
  - eexists. split; [reflexivity |]. simpl.
    split; [rewrite Hex; eauto |]. split; [auto |]. split; [auto |].
    split; [discriminate | reflexivity].
  - rewrite Hc. eexists. split; [reflexivity |]. simpl.
    split; [rewrite lookup_insert_eq; eauto |]. split.
    { intros name config Hn. rewrite lookup_insert_ne; [exact Hn |].
      intros Heq.
      assert (Hn' : cluster_collections c !! CodeFile = Some config)
        by (replace CodeFile with name by (symmetry; exact Heq); exact Hn).
      rewrite Hex in Hn'. discriminate. }
    split.
    { intros name Hn. apply lookup_insert_ne. congruence. }
    split; [intros _; apply lookup_insert_eq |].
    intros [x Hx]. discriminate.
Qed.

(** X27. [main] of index_code_base.py with [DJANGO_ROOT] unset: the root
    is looked at last, so when the vector store answers, the client has
    been opened and the collection made sure of before [Path(None)] raises
    [TypeError]; no file has been opened and no request sent, and the
    client is left open. *)
Theorem index_main_without_root (c : Cluster) :
  weaviate_connect_fault env (cluster_world c) = None ->
  (forall c1, list_all_fault senv c1 = None) ->
  (forall c1, create_fault senv c1 CodeFile = None) ->
  exists msg c',
    main env senv None c = (Raise (LibraryError "TypeError" msg), c') /\
    is_Some (cluster_collections c' !! CodeFile) /\
    clients_open (cluster_world c') = S (clients_open (cluster_world c)) /\
    opened (cluster_world c') = opened (cluster_world c) /\
    posted (cluster_world c') = posted (cluster_world c) /\
    collection (cluster_world c') = collection (cluster_world c).
Proof.
  intros Hconn Hl Hc.
  unfold main, create_weaviate_client, in_world at 1, raise_if.
  run_monad. rewrite Hconn. simpl.
  rewrite init_weaviate_collection_run, Hl. simpl.
  destruct (cluster_collections c !! CodeFile) as [cfg |] eqn:Hex.
  - eexists. eexists. split; [reflexivity |]. simpl.
    rewrite Hex. repeat split. eauto.
  - rewrite Hc. eexists. eexists. split; [reflexivity |]. simpl.
    rewrite lookup_insert_eq. repeat split. eauto.
Qed.

End Schema.

(** X26 at a concrete input: a cluster without collections. *)
Lemma init_weaviate_collection_ensures_collection_witness :
  exists c',
    index_main.init_weaviate_collection senv_ok cluster0 = (Ok tt, c') /\
    index_main.cluster_collections c' !! CodeFile
      = Some index_main.CodeFile_config /\
    stdout (index_main.cluster_world c')
      = [lit "Collection 'CodeFile' created successfully"].
Proof.
  destruct (init_weaviate_collection_ensures_collection senv_ok cluster0
              eq_refl eq_refl)
    as (c' & Hrun & _ & _ & _ & Hnew & _).
  exists c'. split; [exact Hrun |]. split; [apply Hnew; reflexivity |].
  vm_compute in Hrun. injection Hrun as <-. reflexivity.
Defined.

(** X27 at a concrete input: nothing fails but the missing root. *)
Lemma index_main_without_root_witness :
  exists msg c',
    index_main.main examples.env_ok senv_ok None cluster0
      = (Raise (LibraryError "TypeError" msg), c') /\
    clients_open (index_main.cluster_world c') = 1 /\
    opened (index_main.cluster_world c') = [].
Proof.
  destruct (index_main_without_root examples.env_ok senv_ok cluster0)
    as (msg & c' & Hrun & _ & Hclients & Hopened & _);
    try reflexivity.
  exists msg, c'. split; [exact Hrun |]. split; assumption.
Defined.

End scripts_properties.
